(** * Scheduler plugins: ex-priority, time-priority, group-quota

    A shallow embedding of the three scheduler plugins and of the
    priority-selector engine they share, followed by the properties the
    specification states about them.

    Conventions of the embedding.
    - [int32] priorities are integers of [Z]; the code only compares them,
      so no wrap-around is ever computed.
    - A [time.Time] is the number of nanoseconds since the zero instant
      (so [IsZero] is [t = 0]); a [time.Duration] is an int64 count of
      nanoseconds and [Time.Sub] saturates to that range as in Go.
    - A Go pointer that may be nil is an [option]; a nil dereference is the
      outcome [Panics] of the [Run] monad.
    - [ssn.Jobs] is a Go map.  It is given as the list of its entries in
      the order in which [range] visits them, which Go leaves unspecified:
      every statement is quantified over that order.  The entries hold
      pointers to distinct jobs, so that rewriting the job of one entry
      leaves the others as they are.
    - Logging is not modelled, except that the arguments of a log call are
      evaluated (and may dereference nil) before the call. *)

From Stdlib Require Import ZArith Lia Bool Ascii String Sorted Permutation.
From stdpp Require Import gmap strings list fin_maps.

Local Open Scope string_scope.
Local Open Scope Z_scope.

(** ** Outcome of a callback: a value, or a runtime panic *)

Inductive Run (A : Type) : Type :=
| Returns (a : A)
| Panics.
Arguments Returns {A} a.
Arguments Panics {A}.

Definition bindRun {A B : Type} (m : Run A) (k : A -> Run B) : Run B :=
  match m with
  | Returns a => k a
  | Panics => Panics
  end.

(** [deref p] reads through a pointer. *)
Definition deref {A : Type} (p : option A) : Run A :=
  match p with
  | Some a => Returns a
  | None => Panics
  end.

Notation "'let*' x := m 'in' k" := (bindRun m (fun x => k))
  (at level 10, x pattern, m at level 100, k at level 200).

(** ** Host types: time *)

Module time.

Definition minDuration : Z := - 2 ^ 63.
Definition maxDuration : Z := 2 ^ 63 - 1.

Definition IsZero (t : Z) : bool := t =? 0.
Definition Equal (t u : Z) : bool := t =? u.
Definition Before (t u : Z) : bool := t <? u.
Definition After (t u : Z) : bool := u <? t.
Definition Add (t d : Z) : Z := t + d.

(** [t.Sub(u)]: the duration [t - u], clamped to the int64 range. *)
Definition Sub (t u : Z) : Z :=
  let d := t - u in
  if d <? minDuration then minDuration
  else if maxDuration <? d then maxDuration
  else d.

End time.

(** ** Host types: pods, tasks, jobs *)

Module Pod.
Record t : Type := mk {
  Annotations : option (gmap string string);
  StartTime : option Z;
  CreationTimestamp : Z
}.
End Pod.

Module TaskInfo.
Record t : Type := mk {
  Namespace : string;
  Name : string;
  Job : string;
  Priority : Z;
  Pod : option Pod.t
}.
End TaskInfo.

Module PodGroup.
Record t : Type := mk {
  Annotations : option (gmap string string)
}.
End PodGroup.

Module Resource.
(** The host keeps the amounts as floating-point numbers and the plugins
    convert them with [int64(...)]; the record holds whole amounts.  An
    amount with a fractional part is outside the model: the code tests the
    sign before the conversion, so that for an amount strictly between 0
    and 1 it records a quantity of zero under the resource's name. *)
Record t : Type := mk {
  MilliCPU : Z;
  Memory : Z;
  ScalarResources : gmap string Z
}.

(** Modelled from the spec: [Resource.IsEmpty] belongs to the host's
    resource model and is not part of the plugin sources; a vector is
    empty when no dimension holds a positive amount. *)
Definition IsEmpty (r : t) : bool :=
  (MilliCPU r <=? 0) && (Memory r <=? 0)
  && map_fold (fun _ v acc => acc && (v <=? 0)) true (ScalarResources r).
End Resource.

Module JobInfo.
Record t : Type := mk {
  UID : string;
  Namespace : string;
  Name : string;
  Queue : string;
  Priority : Z;
  CreationTimestamp : Z;
  PodGroup : option PodGroup.t;
  Allocated : option Resource.t;
  (** what the host's [IsPending()] answers for this job *)
  Pending : bool;
  (** what the host's [ReadyTaskNum()] and [WaitingTaskNum()] answer,
      and [len(ji.Tasks)] *)
  ReadyTaskNum : Z;
  WaitingTaskNum : Z;
  TasksLen : Z
}.

(** [job.Priority = p], every other field kept. *)
Definition setPriority (job : t) (p : Z) : t :=
  mk (UID job) (Namespace job) (Name job) (Queue job) p
     (CreationTimestamp job) (PodGroup job) (Allocated job) (Pending job)
     (ReadyTaskNum job) (WaitingTaskNum job) (TasksLen job).
End JobInfo.

Module SubJobInfo.
Record t : Type := mk {
  UID : string;
  Priority : Z
}.
End SubJobInfo.

(** [ssn.Jobs]: the entries of the job map, in iteration order. *)
Abbreviation JobMap := (list (string * option JobInfo.t)).

(** [ssn.Jobs[id]]: nil when the key is absent (or bound to nil). *)
Fixpoint lookupJob (jobs : JobMap) (id : string) : option JobInfo.t :=
  match jobs with
  | [] => None
  | (k, job) :: rest => if String.eqb k id then job else lookupJob rest id
  end.

(** ** Package priority: the selector engine *)

Module PriorityExpression.

Definition OperatorIn := "In".
Definition OperatorNotIn := "NotIn".
Definition OperatorBetween := "Between".
Definition OperatorLt := "Lt".
Definition OperatorGt := "Gt".
Definition OperatorLte := "Lte".
Definition OperatorGte := "Gte".

Record t : Type := mk {
  Operator : string;
  Values : list Z
}.

(** [slices.Contains] *)
Fixpoint Contains (values : list Z) (v : Z) : bool :=
  match values with
  | [] => false
  | x :: rest => if x =? v then true else Contains rest v
  end.

Definition Matches (expr : t) (priority : Z) : bool :=
  let op := Operator expr in
  if String.eqb op OperatorIn then Contains (Values expr) priority
  else if String.eqb op OperatorNotIn then negb (Contains (Values expr) priority)
  else if String.eqb op OperatorBetween then
    match Values expr with
    | v0 :: v1 :: _ =>
        let '(minVal, maxVal) := if v1 <? v0 then (v1, v0) else (v0, v1) in
        (minVal <=? priority) && (priority <=? maxVal)
    | _ => false
    end
  else if String.eqb op OperatorLt then
    match Values expr with v0 :: _ => priority <? v0 | [] => false end
  else if String.eqb op OperatorGt then
    match Values expr with v0 :: _ => v0 <? priority | [] => false end
  else if String.eqb op OperatorLte then
    match Values expr with v0 :: _ => priority <=? v0 | [] => false end
  else if String.eqb op OperatorGte then
    match Values expr with v0 :: _ => v0 <=? priority | [] => false end
  else false.

End PriorityExpression.

Module PrioritySelector.

Record t : Type := mk {
  AnyExpressions : list PriorityExpression.t
}.

(** the [for _, expr := range sel.AnyExpressions] loop *)
Fixpoint anyMatches (exprs : list PriorityExpression.t) (priority : Z) : bool :=
  match exprs with
  | [] => false
  | expr :: rest =>
      if PriorityExpression.Matches expr priority then true
      else anyMatches rest priority
  end.

(** The receiver may be nil. *)
Definition Matches (sel : option t) (priority : Z) : bool :=
  match sel with
  | None => false
  | Some s =>
      match AnyExpressions s with
      | [] => false
      | exprs => anyMatches exprs priority
      end
  end.

End PrioritySelector.

(** ** Plugin time-priority *)

Module timepriority.

Definition PluginName := "time-priority".

Module EscalationRule.
Record t : Type := mk {
  WaitingThreshold : Z;
  SourcePriority : option PrioritySelector.t;
  TargetPriority : Z
}.
End EscalationRule.

Module RawRule.
Record t : Type := mk {
  WaitingThreshold : string;
  SourcePriority : option PrioritySelector.t;
  TargetPriority : Z
}.
End RawRule.

Record Config : Type := mkConfig {
  Rules : list EscalationRule.t
}.

(** The [less] function handed to [sort.Slice]: descending thresholds. *)
Definition lessRule (a b : EscalationRule.t) : bool :=
  EscalationRule.WaitingThreshold b <? EscalationRule.WaitingThreshold a.

Section Parse.

(** [time.ParseDuration] and [sort.Slice] are library functions; the
    plugin is a function of them. *)
Variable ParseDuration : string -> option Z.
Variable sortSlice :
  (EscalationRule.t -> EscalationRule.t -> bool) ->
  list EscalationRule.t -> list EscalationRule.t.

(** The body of the [for i, rawRule := range rules] loop: the rules
    appended so far are [acc]. *)
Fixpoint parseRules (rules : list RawRule.t) (acc : list EscalationRule.t)
  : list EscalationRule.t :=
  match rules with
  | [] => acc
  | rawRule :: rest =>
      match ParseDuration (RawRule.WaitingThreshold rawRule) with
      | None => parseRules rest acc
      | Some duration =>
          if duration <=? 0 then parseRules rest acc
          else
            match RawRule.SourcePriority rawRule with
            | None => parseRules rest acc
            | Some sel =>
                let rule :=
                  EscalationRule.mk duration (Some sel)
                    (RawRule.TargetPriority rawRule) in
                parseRules rest (acc ++ [rule])
            end
      end
  end.

(** [arguments] is what [framework.Get[[]RawRule](args, "rules")]
    finds: nothing, or the raw rules. *)
Definition parseArguments (arguments : option (list RawRule.t)) : Config :=
  match arguments with
  | Some rules => mkConfig (sortSlice lessRule (parseRules rules []))
  | None => mkConfig []
  end.

Definition New (arguments : option (list RawRule.t)) : Config :=
  parseArguments arguments.

End Parse.

Definition getWaitingDuration (job : option JobInfo.t) (now : Z) : Z :=
  match job with
  | None => 0
  | Some j =>
      if time.IsZero (JobInfo.CreationTimestamp j) then 0
      else time.Sub now (JobInfo.CreationTimestamp j)
  end.

(** The inner loop over the rules, with its [break]. *)
Fixpoint applyRules (rules : list EscalationRule.t) (waitingDuration : Z)
  (job : JobInfo.t) : JobInfo.t :=
  match rules with
  | [] => job
  | rule :: rest =>
      if EscalationRule.WaitingThreshold rule <=? waitingDuration then
        if PrioritySelector.Matches (EscalationRule.SourcePriority rule)
             (JobInfo.Priority job)
        then JobInfo.setPriority job (EscalationRule.TargetPriority rule)
        else applyRules rest waitingDuration job
      else applyRules rest waitingDuration job
  end.

(** One iteration of the outer loop: a nil entry is skipped. *)
Definition escalate (tp : Config) (now : Z) (job : option JobInfo.t)
  : option JobInfo.t :=
  match job with
  | None => None
  | Some j =>
      let waitingDuration := getWaitingDuration (Some j) now in
      Some (applyRules (Rules tp) waitingDuration j)
  end.

(** The jobs are rewritten in place; the result is the job map after the
    pass.  [now] is the reading of [time.Now()]. *)
Definition OnSessionOpen (tp : Config) (now : Z) (jobs : JobMap) : JobMap :=
  match Rules tp with
  | [] => jobs
  | _ => (fun entry => (fst entry, escalate tp now (snd entry))) <$> jobs
  end.

End timepriority.

(** ** Plugin ex-priority *)

(** The answers of an enqueue, preempt or reclaim callback
    ([util.Permit], [util.Abstain], [util.Reject]). *)
Inductive Vote : Type := Permit | Abstain | Reject.

Module ValidateResult.
Record t : Type := mk {
  Pass : bool;
  Reason : string;
  Message : string
}.
End ValidateResult.

(** Conversion to [int32], with wrap-around. *)
Definition int32 (z : Z) : Z := (z + 2 ^ 31) mod 2 ^ 32 - 2 ^ 31.

Module expriority.

Definition PluginName := "ex-priority".

Definition SortByPriority := "priority".
Definition SortByCreationTime := "creationTime".

Definition BlockingScopeCluster := "cluster".
Definition BlockingScopeQueue := "queue".

Record Config : Type := mkConfig {
  SortOrder : list string;
  Preemptible : option PrioritySelector.t;
  Reclaimable : option PrioritySelector.t;
  Blocking : option PrioritySelector.t;
  BlockingScope : string;
  MaxRunTimeAnnotationKey : string
}.

(** What [framework.Get] finds under each key of the argument map. *)
Record Arguments : Type := mkArguments {
  argSortOrder : option (list string);
  argPreemptible : option PrioritySelector.t;
  argReclaimable : option PrioritySelector.t;
  argBlocking : option PrioritySelector.t;
  argBlockingScope : option string;
  argMaxRunTimeAnnotationKey : option string
}.

Definition parseArguments (arguments : Arguments) : Config :=
  mkConfig
    (match argSortOrder arguments with
     | Some sortOrder => sortOrder
     | None => [SortByPriority]
     end)
    (argPreemptible arguments)
    (argReclaimable arguments)
    (argBlocking arguments)
    (match argBlockingScope arguments with
     | Some blockingScope =>
         if String.eqb blockingScope BlockingScopeCluster
            || String.eqb blockingScope BlockingScopeQueue
         then blockingScope else BlockingScopeQueue
     | None => BlockingScopeQueue
     end)
    (match argMaxRunTimeAnnotationKey arguments with
     | Some key => key
     | None => ""
     end).

Definition New (arguments : Arguments) : Config := parseArguments arguments.

Definition getTaskCreationTime (task : option TaskInfo.t) : Z :=
  match task with
  | None => 0
  | Some tk =>
      match TaskInfo.Pod tk with
      | None => 0
      | Some pod =>
          match Pod.StartTime pod with
          | Some startTime => startTime
          | None =>
              if negb (time.IsZero (Pod.CreationTimestamp pod))
              then Pod.CreationTimestamp pod
              else 0
          end
      end
  end.

Section TimedOut.

Variable ParseDuration : string -> option Z.

Definition isTaskTimedOut (ep : Config) (task : option TaskInfo.t) (now : Z)
  : bool :=
  if String.eqb (MaxRunTimeAnnotationKey ep) "" then false
  else
    match task with
    | None => false
    | Some tk =>
        match TaskInfo.Pod tk with
        | None => false
        | Some pod =>
            match Pod.Annotations pod with
            | None => false
            | Some annotations =>
                match annotations !! MaxRunTimeAnnotationKey ep with
                | None => false
                | Some value =>
                    if String.eqb value "" then false
                    else
                      match Pod.StartTime pod with
                      | None => false
                      | Some startTime =>
                          match ParseDuration value with
                          | None => false
                          | Some maxRunTime =>
                              if maxRunTime <=? 0 then false
                              else
                                let deadline := time.Add startTime maxRunTime in
                                negb (time.After deadline now)
                          end
                      end
                end
            end
        end
    end.

End TimedOut.

(** [compareTasks], as a loop over the remaining sort keys.  Both
    pointers have been dereferenced by the caller. *)
Fixpoint compareTasksFrom (orders : list string) (l r : TaskInfo.t) : Z :=
  match orders with
  | [] => 0
  | order :: rest =>
      if String.eqb order SortByPriority then
        if TaskInfo.Priority r <? TaskInfo.Priority l then -1
        else if TaskInfo.Priority l <? TaskInfo.Priority r then 1
        else compareTasksFrom rest l r
      else if String.eqb order SortByCreationTime then
        let lTime := getTaskCreationTime (Some l) in
        let rTime := getTaskCreationTime (Some r) in
        if negb (time.IsZero lTime) && negb (time.IsZero rTime)
           && negb (time.Equal lTime rTime)
        then if time.Before lTime rTime then -1 else 1
        else compareTasksFrom rest l r
      else compareTasksFrom rest l r
  end.

Definition compareTasks (ep : Config) (l r : TaskInfo.t) : Z :=
  compareTasksFrom (SortOrder ep) l r.

Fixpoint compareJobsFrom (orders : list string) (l r : JobInfo.t) : Z :=
  match orders with
  | [] => 0
  | order :: rest =>
      if String.eqb order SortByPriority then
        if JobInfo.Priority r <? JobInfo.Priority l then -1
        else if JobInfo.Priority l <? JobInfo.Priority r then 1
        else compareJobsFrom rest l r
      else if String.eqb order SortByCreationTime then
        if negb (time.IsZero (JobInfo.CreationTimestamp l))
           && negb (time.IsZero (JobInfo.CreationTimestamp r))
        then
          if time.Before (JobInfo.CreationTimestamp l) (JobInfo.CreationTimestamp r)
          then -1
          else if time.Before (JobInfo.CreationTimestamp r) (JobInfo.CreationTimestamp l)
          then 1
          else compareJobsFrom rest l r
        else compareJobsFrom rest l r
      else compareJobsFrom rest l r
  end.

Definition compareJobs (ep : Config) (l r : JobInfo.t) : Z :=
  compareJobsFrom (SortOrder ep) l r.

Fixpoint compareSubJobsFrom (orders : list string) (l r : SubJobInfo.t) : Z :=
  match orders with
  | [] => 0
  | order :: rest =>
      if String.eqb order SortByPriority then
        if SubJobInfo.Priority r <? SubJobInfo.Priority l then -1
        else if SubJobInfo.Priority l <? SubJobInfo.Priority r then 1
        else compareSubJobsFrom rest l r
      else compareSubJobsFrom rest l r
  end.

Definition compareSubJobs (ep : Config) (l r : SubJobInfo.t) : Z :=
  compareSubJobsFrom (SortOrder ep) l r.

(** The loop of [hasBlockingJobAhead] over the entries still to visit.
    [job.IsPending()] reads through the entry, so a nil entry panics. *)
Fixpoint blockingJobAmong (ep : Config) (entries : JobMap)
  (currentJob : JobInfo.t) : Run bool :=
  match entries with
  | [] => Returns false
  | (_, entry) :: rest =>
      let* job := deref entry in
      if negb (JobInfo.Pending job) then blockingJobAmong ep rest currentJob
      else if String.eqb (JobInfo.UID job) (JobInfo.UID currentJob)
      then blockingJobAmong ep rest currentJob
      else if String.eqb (BlockingScope ep) BlockingScopeQueue
              && negb (String.eqb (JobInfo.Queue job) (JobInfo.Queue currentJob))
      then blockingJobAmong ep rest currentJob
      else if PrioritySelector.Matches (Blocking ep) (JobInfo.Priority job)
              && (JobInfo.Priority currentJob <? JobInfo.Priority job)
      then Returns true
      else blockingJobAmong ep rest currentJob
  end.

Definition hasBlockingJobAhead (ep : Config) (jobs : JobMap)
  (currentJob : JobInfo.t) : Run bool :=
  match Blocking ep with
  | None => Returns false
  | Some _ => blockingJobAmong ep jobs currentJob
  end.

(** *** The callbacks registered by [OnSessionOpen] *)

Section Callbacks.

Variable ParseDuration : string -> option Z.
Variable ep : Config.
(** the session's job map, read by the closures when they are called *)
Variable jobs : JobMap.

Definition taskOrderFn (l r : option TaskInfo.t) : Run Z :=
  let* lv := deref l in
  let* rv := deref r in
  Returns (compareTasks ep lv rv).

Definition jobOrderFn (l r : option JobInfo.t) : Run Z :=
  let* lv := deref l in
  let* rv := deref r in
  Returns (compareJobs ep lv rv).

Definition subJobOrderFn (l r : option SubJobInfo.t) : Run Z :=
  let* lv := deref l in
  let* rv := deref r in
  Returns (compareSubJobs ep lv rv).

Definition jobEnqueueableFn (obj : option JobInfo.t) : Run Vote :=
  let* job := deref obj in
  if PrioritySelector.Matches (Blocking ep) (JobInfo.Priority job)
  then Returns Permit
  else
    let* ahead := hasBlockingJobAhead ep jobs job in
    if ahead then Returns Reject else Returns Abstain.

Definition jobValidFn (obj : option JobInfo.t)
  : Run (option ValidateResult.t) :=
  let* job := deref obj in
  if PrioritySelector.Matches (Blocking ep) (JobInfo.Priority job)
  then Returns None
  else
    let* ahead := hasBlockingJobAhead ep jobs job in
    if ahead then
      Returns (Some (ValidateResult.mk false "blocked by higher priority job"
        ("head-of-line blocking: higher priority job is pending (scope: "
           ++ BlockingScope ep ++ ")")))
    else Returns None.

(** The loop shared, line for line, by [preemptableFn] and
    [reclaimableFn]; they differ in the selector [gate] they consult
    ([Preemptible] or [Reclaimable]).  [actor] is the preemptor (or
    reclaimer), [actorJob] its job as found in the map, [victims] the
    slice built so far. *)
Fixpoint victimsAmong (gate : option PrioritySelector.t) (now : Z)
  (actor : TaskInfo.t) (actorJob : option JobInfo.t)
  (candidates : list (option TaskInfo.t))
  (victims : list (option TaskInfo.t)) : Run (list (option TaskInfo.t)) :=
  match candidates with
  | [] => Returns victims
  | candidate :: rest =>
      let* c := deref candidate in
      let candidateJob := lookupJob jobs (TaskInfo.Job c) in
      if isTaskTimedOut ParseDuration ep (Some c) now then
        (* the log line reads candidateJob.Priority *)
        let* _ := deref candidateJob in
        victimsAmong gate now actor actorJob rest (victims ++ [candidate])
      else
        let compare :=
          let* cj := deref candidateJob in
          let* aj := deref actorJob in
          if negb (String.eqb (JobInfo.UID cj) (JobInfo.UID aj)) then
            if JobInfo.Priority aj <=? JobInfo.Priority cj
            then victimsAmong gate now actor actorJob rest victims
            else victimsAmong gate now actor actorJob rest (victims ++ [candidate])
          else
            if TaskInfo.Priority actor <=? TaskInfo.Priority c
            then victimsAmong gate now actor actorJob rest victims
            else victimsAmong gate now actor actorJob rest (victims ++ [candidate])
        in
        match gate with
        | Some sel =>
            let* cj := deref candidateJob in
            if negb (PrioritySelector.Matches (Some sel) (JobInfo.Priority cj))
            then victimsAmong gate now actor actorJob rest victims
            else compare
        | None => compare
        end
  end.

(** [now] is the reading of [time.Now()] when the callback runs. *)
Definition preemptableFn (now : Z) (preemptor : option TaskInfo.t)
  (preemptees : list (option TaskInfo.t))
  : Run (list (option TaskInfo.t) * Vote) :=
  let* p := deref preemptor in
  let preemptorJob := lookupJob jobs (TaskInfo.Job p) in
  let* victims := victimsAmong (Preemptible ep) now p preemptorJob preemptees [] in
  Returns (victims, Permit).

Definition reclaimableFn (now : Z) (reclaimer : option TaskInfo.t)
  (reclaimees : list (option TaskInfo.t))
  : Run (list (option TaskInfo.t) * Vote) :=
  let* p := deref reclaimer in
  let reclaimerJob := lookupJob jobs (TaskInfo.Job p) in
  let* victims := victimsAmong (Reclaimable ep) now p reclaimerJob reclaimees [] in
  Returns (victims, Permit).

Definition jobStarvingFn (obj : option JobInfo.t) : Run bool :=
  let* ji := deref obj in
  Returns (int32 (JobInfo.ReadyTaskNum ji + JobInfo.WaitingTaskNum ji)
           <? int32 (JobInfo.TasksLen ji)).

(** The hooks a session holds after [OnSessionOpen]; the two blocking
    hooks are registered only when [Blocking] is configured. *)
Record Hooks : Type := mkHooks {
  TaskOrderFn : option TaskInfo.t -> option TaskInfo.t -> Run Z;
  JobOrderFn : option JobInfo.t -> option JobInfo.t -> Run Z;
  SubJobOrderFn : option SubJobInfo.t -> option SubJobInfo.t -> Run Z;
  JobEnqueueableFn : option (option JobInfo.t -> Run Vote);
  JobValidFn : option (option JobInfo.t -> Run (option ValidateResult.t));
  PreemptableFn :
    Z -> option TaskInfo.t -> list (option TaskInfo.t) ->
    Run (list (option TaskInfo.t) * Vote);
  ReclaimableFn :
    Z -> option TaskInfo.t -> list (option TaskInfo.t) ->
    Run (list (option TaskInfo.t) * Vote);
  JobStarvingFn : option JobInfo.t -> Run bool
}.

Definition OnSessionOpen : Hooks :=
  mkHooks taskOrderFn jobOrderFn subJobOrderFn
    (match Blocking ep with Some _ => Some jobEnqueueableFn | None => None end)
    (match Blocking ep with Some _ => Some jobValidFn | None => None end)
    preemptableFn reclaimableFn jobStarvingFn.

End Callbacks.

End expriority.

(** ** Plugin group-quota *)

(** A loosely typed argument value ([interface{}]), as far as the plugin
    inspects it.  Maps are given by their entries in iteration order. *)
Inductive MapItem : Type :=
| IString (s : string)
| IOther.

Inductive ArgValue : Type :=
| VString (s : string)
| VMapInterface (entries : list (MapItem * MapItem))
| VMapString (entries : list (string * MapItem))
| VOther.

Module groupquota.

Definition PluginName := "groupquota".

Definition ResourceCPU := "cpu".
Definition ResourceMemory := "memory".

(** A [resource.Quantity] is held in nano-units, the finest scale a
    parsed quantity keeps; a [v1.ResourceList] maps resource names to
    quantities. *)
Definition NewMilliQuantity (value : Z) : Z := value * 10 ^ 6.
Definition NewQuantity (value : Z) : Z := value * 10 ^ 9.

(** [q := list[name]; q.Add(amount); list[name] = q] *)
Definition addTo (list : gmap string Z) (name : string) (amount : Z)
  : gmap string Z :=
  <[name := default 0 (list !! name) + amount]> list.

Definition isJobAllocated (job : option JobInfo.t) : Run bool :=
  let* j := deref job in
  let* allocated := deref (JobInfo.Allocated j) in
  Returns (negb (Resource.IsEmpty allocated)).

Definition getJobGroup (job : option JobInfo.t) (key : string) : Run string :=
  let* j := deref job in
  match JobInfo.PodGroup j with
  | None => Returns ""
  | Some pg =>
      match PodGroup.Annotations pg with
      | None => Returns ""
      | Some annotations => Returns (default "" (annotations !! key))
      end
  end.

Definition addResourceList (list : gmap string Z) (res : option Resource.t)
  : gmap string Z :=
  match res with
  | None => list
  | Some r =>
      let list1 :=
        if 0 <? Resource.MilliCPU r
        then addTo list ResourceCPU (NewMilliQuantity (Resource.MilliCPU r))
        else list in
      let list2 :=
        if 0 <? Resource.Memory r
        then addTo list1 ResourceMemory (NewQuantity (Resource.Memory r))
        else list1 in
      map_fold (fun name val acc => addTo acc name (NewQuantity val))
        list2 (Resource.ScalarResources r)
  end.

Definition isOverQuota (usage quota : gmap string Z) : bool :=
  map_fold
    (fun name limit found =>
       found ||
       match usage !! name with
       | Some used => limit <=? used
       | None => false
       end)
    false quota.

Section Open.

(** [resource.ParseQuantity], a library function. *)
Variable ParseQuantity : string -> option Z.

Definition annotationKeyOf (pluginArguments : gmap string ArgValue) : string :=
  match pluginArguments !! "annotationKey" with
  | Some (VString val) => val
  | _ => "example.com/group"
  end.

Fixpoint quotaFromInterfaceMap (resMap : list (MapItem * MapItem))
  (quota : gmap string Z) : gmap string Z :=
  match resMap with
  | [] => quota
  | (IString kStr, IString vStr) :: rest =>
      match ParseQuantity vStr with
      | Some q => quotaFromInterfaceMap rest (<[kStr := q]> quota)
      | None => quotaFromInterfaceMap rest quota
      end
  | _ :: rest => quotaFromInterfaceMap rest quota
  end.

Fixpoint quotaFromStringMap (resMap : list (string * MapItem))
  (quota : gmap string Z) : gmap string Z :=
  match resMap with
  | [] => quota
  | (k, IString vStr) :: rest =>
      match ParseQuantity vStr with
      | Some q => quotaFromStringMap rest (<[k := q]> quota)
      | None => quotaFromStringMap rest quota
      end
  | _ :: rest => quotaFromStringMap rest quota
  end.

Definition quotaOf (pluginArguments : gmap string ArgValue) : gmap string Z :=
  match pluginArguments !! "resourceMap" with
  | Some (VMapInterface resMap) => quotaFromInterfaceMap resMap ∅
  | Some (VMapString resMap) => quotaFromStringMap resMap ∅
  | _ => ∅
  end.

(** The first loop over [ssn.Jobs]: the usage of each group. *)
Fixpoint groupUsageOf (annotationKey : string) (entries : JobMap)
  (groupUsage : gmap string (gmap string Z))
  : Run (gmap string (gmap string Z)) :=
  match entries with
  | [] => Returns groupUsage
  | (_, job) :: rest =>
      let* allocated := isJobAllocated job in
      if negb allocated then groupUsageOf annotationKey rest groupUsage
      else
        let* j := deref job in
        match JobInfo.PodGroup j with
        | None => groupUsageOf annotationKey rest groupUsage
        | Some pg =>
            match PodGroup.Annotations pg with
            | None => groupUsageOf annotationKey rest groupUsage
            | Some annotations =>
                match annotations !! annotationKey with
                | None => groupUsageOf annotationKey rest groupUsage
                | Some groupName =>
                    let usage := default ∅ (groupUsage !! groupName) in
                    groupUsageOf annotationKey rest
                      (<[groupName := addResourceList usage (JobInfo.Allocated j)]>
                         groupUsage)
                end
            end
        end
  end.

(** The second loop: the groups marked over quota. *)
Definition overQuotaGroupsOf (groupUsage : gmap string (gmap string Z))
  (quota : gmap string Z) : gmap string bool :=
  omap (fun usage => if isOverQuota usage quota then Some true else None)
    groupUsage.

Definition jobOrderFn (annotationKey : string)
  (overQuotaGroups : gmap string bool) (l r : option JobInfo.t) : Run Z :=
  let* lGroup := getJobGroup l annotationKey in
  let* rGroup := getJobGroup r annotationKey in
  let lOver := default false (overQuotaGroups !! lGroup) in
  let rOver := default false (overQuotaGroups !! rGroup) in
  if lOver && negb rOver then Returns 1
  else if negb lOver && rOver then Returns (-1)
  else Returns 0.

(** [OnSessionOpen] returns the job-order function it registers. *)
Definition OnSessionOpen (pluginArguments : gmap string ArgValue)
  (jobs : JobMap) : Run (option JobInfo.t -> option JobInfo.t -> Run Z) :=
  let annotationKey := annotationKeyOf pluginArguments in
  let quota := quotaOf pluginArguments in
  let* groupUsage := groupUsageOf annotationKey jobs ∅ in
  let overQuotaGroups := overQuotaGroupsOf groupUsage quota in
  Returns (jobOrderFn annotationKey overQuotaGroups).

End Open.

End groupquota.

(** ** Concrete library functions for running the model

    The plugins are functions of [time.ParseDuration], [sort.Slice] and
    [resource.ParseQuantity].  The properties below hold for every such
    function that meets what the plugins rely on; the functions of this
    section are simple ones that do, used to run the model on examples. *)

Module lib.

Definition digitOf (c : Ascii.ascii) : option Z :=
  let n := Z.of_nat (Ascii.nat_of_ascii c) in
  if (48 <=? n) && (n <=? 57) then Some (n - 48) else None.

(** Leading decimal digits of [s] (continuing the number [acc]) and the
    rest of the string. *)
Fixpoint leadingNumber (s : string) (acc : Z) : Z * string :=
  match s with
  | String c rest =>
      match digitOf c with
      | Some d => leadingNumber rest (acc * 10 + d)
      | None => (acc, s)
      end
  | EmptyString => (acc, s)
  end.

Definition startsWithDigit (s : string) : bool :=
  match s with
  | String c _ => match digitOf c with Some _ => true | None => false end
  | EmptyString => false
  end.

(** One-segment durations: an optional sign, digits and a unit, as in
    ["10m"] or ["-3s"]. *)
Definition durationUnit (u : string) : option Z :=
  if String.eqb u "ns" then Some 1
  else if String.eqb u "us" then Some 1000
  else if String.eqb u "ms" then Some 1000000
  else if String.eqb u "s" then Some 1000000000
  else if String.eqb u "m" then Some 60000000000
  else if String.eqb u "h" then Some 3600000000000
  else None.

Definition parseUnsigned (s : string) : option Z :=
  if startsWithDigit s then
    let '(n, u) := leadingNumber s 0 in
    match durationUnit u with
    | Some scale => Some (n * scale)
    | None => None
    end
  else None.

Definition parseSigned (s : string) : option Z :=
  match s with
  | String "-"%char rest => option_map Z.opp (parseUnsigned rest)
  | _ => parseUnsigned s
  end.

(** A duration outside the int64 range is an error. *)
Definition ParseDuration (s : string) : option Z :=
  match parseSigned s with
  | Some d =>
      if (time.minDuration <=? d) && (d <=? time.maxDuration) then Some d
      else None
  | None => None
  end.

(** Quantities: digits and an optional suffix, as in ["1000m"], ["4"] or
    ["2Gi"]; the result is in nano-units. *)
Definition quantityUnit (u : string) : option Z :=
  if String.eqb u "" then Some (10 ^ 9)
  else if String.eqb u "m" then Some (10 ^ 6)
  else if String.eqb u "k" then Some (10 ^ 12)
  else if String.eqb u "M" then Some (10 ^ 15)
  else if String.eqb u "G" then Some (10 ^ 18)
  else if String.eqb u "Ki" then Some (2 ^ 10 * 10 ^ 9)
  else if String.eqb u "Mi" then Some (2 ^ 20 * 10 ^ 9)
  else if String.eqb u "Gi" then Some (2 ^ 30 * 10 ^ 9)
  else None.

Definition ParseQuantity (s : string) : option Z :=
  if startsWithDigit s then
    let '(n, u) := leadingNumber s 0 in
    match quantityUnit u with
    | Some scale => Some (n * scale)
    | None => None
    end
  else None.

(** Sorting by insertion, for any [less]. *)
Section Sort.
Context {A : Type}.
Variable less : A -> A -> bool.

Fixpoint insertSorted (x : A) (l : list A) : list A :=
  match l with
  | [] => [x]
  | y :: rest => if less y x then y :: insertSorted x rest else x :: l
  end.

Fixpoint sortSlice (l : list A) : list A :=
  match l with
  | [] => []
  | x :: rest => insertSorted x (sortSlice rest)
  end.
End Sort.

End lib.

(** ** Notions used in the statements *)

(** The expression [Between {v0, v1}]. *)
Definition Between (v0 v1 : Z) : PriorityExpression.t :=
  PriorityExpression.mk PriorityExpression.OperatorBetween [v0; v1].

(** Descending thresholds, as left by [sort.Slice] with [lessRule]: no
    element is [less] than an earlier one. *)
Definition descending (rules : list timepriority.EscalationRule.t) : Prop :=
  StronglySorted (fun a b => timepriority.lessRule b a = false) rules.

(** A rule applies to a job of priority [p] that has waited [w]. *)
Definition applies (rule : timepriority.EscalationRule.t) (w p : Z) : Prop :=
  timepriority.EscalationRule.WaitingThreshold rule <= w /\
  PrioritySelector.Matches (timepriority.EscalationRule.SourcePriority rule) p = true.

(** [J'] is the job [J] but, possibly, for its priority. *)
Definition sameButPriority (J J' : JobInfo.t) : Prop :=
  JobInfo.UID J' = JobInfo.UID J /\
  JobInfo.Namespace J' = JobInfo.Namespace J /\
  JobInfo.Name J' = JobInfo.Name J /\
  JobInfo.Queue J' = JobInfo.Queue J /\
  JobInfo.CreationTimestamp J' = JobInfo.CreationTimestamp J /\
  JobInfo.PodGroup J' = JobInfo.PodGroup J /\
  JobInfo.Allocated J' = JobInfo.Allocated J /\
  JobInfo.Pending J' = JobInfo.Pending J /\
  JobInfo.ReadyTaskNum J' = JobInfo.ReadyTaskNum J /\
  JobInfo.WaitingTaskNum J' = JobInfo.WaitingTaskNum J /\
  JobInfo.TasksLen J' = JobInfo.TasksLen J.

(** The time a job has waited at [now]: [now - creationTimestamp], and 0
    for a job without creation timestamp. *)
Definition waitingTime (J : JobInfo.t) (now : Z) : Z :=
  if JobInfo.CreationTimestamp J =? 0 then 0
  else now - JobInfo.CreationTimestamp J.



(** [other] is a job ahead of [J] for head-of-line blocking: another
    pending job whose priority matches the blocking selector and is
    strictly greater than the priority of [J] and, in queue scope, a job of
    the same queue. *)
Definition blocksAhead (ep : expriority.Config) (J other : JobInfo.t) : Prop :=
  JobInfo.Pending other = true /\
  JobInfo.UID other <> JobInfo.UID J /\
  PrioritySelector.Matches (expriority.Blocking ep) (JobInfo.Priority other) = true /\
  JobInfo.Priority J < JobInfo.Priority other /\
  (expriority.BlockingScope ep = expriority.BlockingScopeQueue ->
   JobInfo.Queue other = JobInfo.Queue J).

(** No entry of the job map is nil. *)
Definition noNilJob (jobs : JobMap) : Prop :=
  Forall (fun entry => snd entry <> None) jobs.

(** A task is timed out at [now]: the annotation key is configured, the
    pod of the task carries that annotation with a value that parses as a
    positive duration, the pod has a start time, and start time plus
    duration is not after [now]. *)
Definition timedOut (ParseDuration : string -> option Z) (ep : expriority.Config)
  (now : Z) (v : TaskInfo.t) : Prop :=
  expriority.MaxRunTimeAnnotationKey ep <> "" /\
  exists pod annotations value d startTime,
    TaskInfo.Pod v = Some pod /\
    Pod.Annotations pod = Some annotations /\
    annotations !! expriority.MaxRunTimeAnnotationKey ep = Some value /\
    ParseDuration value = Some d /\
    0 < d /\
    Pod.StartTime pod = Some startTime /\
    startTime + d <= now.

(** The eligibility table of the preemption (reclaim) predicate: the
    candidate [v] may be taken by the actor [T].  [gate] is the selector
    consulted ([Preemptible] or [Reclaimable]), when one is configured. *)
Definition eligibleVictim (ParseDuration : string -> option Z)
  (ep : expriority.Config) (gate : option PrioritySelector.t) (jobs : JobMap)
  (now : Z) (T v : TaskInfo.t) : Prop :=
  timedOut ParseDuration ep now v \/
  exists TJ VJ,
    lookupJob jobs (TaskInfo.Job T) = Some TJ /\
    lookupJob jobs (TaskInfo.Job v) = Some VJ /\
    (forall sel, gate = Some sel ->
       PrioritySelector.Matches (Some sel) (JobInfo.Priority VJ) = true) /\
    (JobInfo.UID VJ <> JobInfo.UID TJ -> JobInfo.Priority VJ < JobInfo.Priority TJ) /\
    (JobInfo.UID VJ = JobInfo.UID TJ -> TaskInfo.Priority v < TaskInfo.Priority T).

(** The test one turn of the victim loop performs on a candidate [c] of
    job [cj], for the actor [actor] of job [aj]. *)
Definition keepsVictim (ParseDuration : string -> option Z)
  (ep : expriority.Config) (gate : option PrioritySelector.t) (now : Z)
  (actor : TaskInfo.t) (aj : JobInfo.t) (c : TaskInfo.t) (cj : JobInfo.t) : bool :=
  expriority.isTaskTimedOut ParseDuration ep (Some c) now
  || (match gate with
      | Some sel => PrioritySelector.Matches (Some sel) (JobInfo.Priority cj)
      | None => true
      end
      && (if negb (String.eqb (JobInfo.UID cj) (JobInfo.UID aj))
          then JobInfo.Priority cj <? JobInfo.Priority aj
          else TaskInfo.Priority c <? TaskInfo.Priority actor)).

Definition keptVictims (ParseDuration : string -> option Z)
  (ep : expriority.Config) (gate : option PrioritySelector.t) (jobs : JobMap)
  (now : Z) (actor : TaskInfo.t) (aj : JobInfo.t) (candidates : list TaskInfo.t)
  : list TaskInfo.t :=
  List.filter
    (fun c =>
       match lookupJob jobs (TaskInfo.Job c) with
       | Some cj => keepsVictim ParseDuration ep gate now actor aj c cj
       | None => false
       end)
    candidates.

(** Every entry of the job map is a job with an allocated-resource
    vector. *)
Definition allocatedKnown (jobs : JobMap) : Prop :=
  Forall (fun entry => exists j, snd entry = Some j /\ JobInfo.Allocated j <> None)
    jobs.

(** ** Sample data *)

Module sample.

Definition minute : Z := 60000000000.
Definition hour : Z := 60 * minute.

(** A pending job without pod group and without allocation. *)
Definition job (uid queue : string) (priority created : Z) : JobInfo.t :=
  JobInfo.mk uid "default" uid queue priority created None
    (Some (Resource.mk 0 0 ∅)) true 0 0 1.

(** A job of priority 0 whose pod group carries [annotations] and which
    holds [milliCPU] thousandths of a CPU. *)
Definition groupJob (uid : string) (annotations : gmap string string)
  (milliCPU : Z) : JobInfo.t :=
  JobInfo.mk uid "default" uid "q" 0 1
    (Some (PodGroup.mk (Some annotations)))
    (Some (Resource.mk milliCPU 0 ∅)) (milliCPU =? 0) 0 0 1.

(** Group quota of one CPU, groups named by the annotation ["team"]. *)
Definition oneCPU : gmap string ArgValue :=
  {[ "annotationKey" := VString "team";
     "resourceMap" := VMapString [("cpu", IString "1000m")] ]}.

(** The fourth scenario: a running job of team a holds one CPU; Ja (team
    a), Jb (team b) and Jn (no annotation) are pending. *)
Definition holderA := groupJob "holder" {[ "team" := "a" ]} 1000.
Definition Ja := groupJob "Ja" {[ "team" := "a" ]} 0.
Definition Jb := groupJob "Jb" {[ "team" := "b" ]} 0.
Definition Jn := groupJob "Jn" ∅ 0.
Definition teamJobs : JobMap :=
  [("holder", Some holderA); ("Ja", Some Ja); ("Jb", Some Jb); ("Jn", Some Jn)].

(** The same session, the running job being annotated with the empty
    group name. *)
Definition holderEmpty := groupJob "holder" {[ "team" := "" ]} 1000.
Definition emptyGroupJobs : JobMap :=
  [("holder", Some holderEmpty); ("Jb", Some Jb); ("Jn", Some Jn)].


Definition atLeast (v : Z) : option PrioritySelector.t :=
  Some (PrioritySelector.mk
          [PriorityExpression.mk PriorityExpression.OperatorGte [v]]).

Definition lowRange : option PrioritySelector.t :=
  Some (PrioritySelector.mk [Between 0 50]).

(** The escalation ladder: 10 minutes to 100, 20 minutes to 200. *)
Definition ladder : list timepriority.RawRule.t :=
  [ timepriority.RawRule.mk "10m" lowRange 100;
    timepriority.RawRule.mk "20m" lowRange 200 ].


(** Blocking by the priorities from 100 on, in the scope [scope]. *)
Definition blockingFrom100 (scope : string) : expriority.Config :=
  expriority.New
    (expriority.mkArguments None None None (atLeast 100) (Some scope) None).

(** Jobs A (priority 150) and B (priority 10) of queue q, and job C
    (priority 10) of queue q2. *)
Definition jobA := job "A" "q" 150 1.
Definition jobB := job "B" "q" 10 1.
Definition jobC := job "C" "q2" 10 1.
Definition threeJobs : JobMap :=
  [("A", Some jobA); ("B", Some jobB); ("C", Some jobC)].

(** The third scenario: priorities up to 100 are preemptible and the
    running time is bounded by the annotation ["max-run-time"]. *)
Definition withMaxRunTime : expriority.Config :=
  expriority.New
    (expriority.mkArguments None
       (Some (PrioritySelector.mk
                [PriorityExpression.mk PriorityExpression.OperatorLte [100]]))
       None None None (Some "max-run-time")).

(** A task of job [jobId] that started at [started], bounded to run for
    [maxRunTime]. *)
Definition boundedTask (name jobId : string) (priority started : Z)
  (maxRunTime : string) : TaskInfo.t :=
  TaskInfo.mk "default" name jobId priority
    (Some (Pod.mk (Some {[ "max-run-time" := maxRunTime ]}) (Some started) started)).

(** A task without pod. *)
Definition bareTask (name jobId : string) (priority : Z) : TaskInfo.t :=
  TaskInfo.mk "default" name jobId priority None.

Definition preemptor : TaskInfo.t := bareTask "p" "low" 1.
Definition overdue : TaskInfo.t := boundedTask "v" "high" 1000 1 "1h".
Definition onTime : TaskInfo.t := boundedTask "w" "high" 1000 (1 + hour) "2h".
Definition twoJobs : JobMap :=
  [("low", Some (job "low" "q" 1 1)); ("high", Some (job "high" "q" 1000 1))].

(** A task whose job is in no session of these samples. *)
Definition stray : TaskInfo.t := bareTask "s" "ghost" 0.


Definition timePriority (rules : list timepriority.RawRule.t) : timepriority.Config :=
  timepriority.New lib.ParseDuration (@lib.sortSlice _) (Some rules).

End sample.

(** ** Notions and data used in the further properties *)

(** No source selector of [rules] matches a target of [rules]: an
    escalated job is out of reach of every rule. *)
Definition targetsOutOfReach (rules : list timepriority.EscalationRule.t) : Prop :=
  forall r r',
    In r rules -> In r' rules ->
    PrioritySelector.Matches (timepriority.EscalationRule.SourcePriority r')
      (timepriority.EscalationRule.TargetPriority r) = false.

(** A raw rule the parsing loop drops: its threshold does not parse, or
    is not positive, or its source selector is missing. *)
Definition dropped (ParseDuration : string -> option Z)
  (rawRule : timepriority.RawRule.t) : Prop :=
  ParseDuration (timepriority.RawRule.WaitingThreshold rawRule) = None \/
  (exists d,
     ParseDuration (timepriority.RawRule.WaitingThreshold rawRule) = Some d /\
     d <= 0) \/
  timepriority.RawRule.SourcePriority rawRule = None.

Module more.

(** The rules of the plugin's own test of invalid rules. *)
Definition invalidRules : list timepriority.RawRule.t :=
  [ timepriority.RawRule.mk "invalid" sample.lowRange 100;
    timepriority.RawRule.mk "-10m" sample.lowRange 100;
    timepriority.RawRule.mk "10m" None 100 ].

End more.
Module more2.

(** Priorities up to 100 are reclaimable, and the running time is bounded
    by the annotation ["max-run-time"]. *)
Definition withReclaimable : expriority.Config :=
  expriority.New
    (expriority.mkArguments None None
       (Some (PrioritySelector.mk
                [PriorityExpression.mk PriorityExpression.OperatorLte [100]]))
       None None (Some "max-run-time")).

(** Creation time first, then priority. *)
Definition byTimeThenPriority : expriority.Config :=
  expriority.New
    (expriority.mkArguments
       (Some [expriority.SortByCreationTime; expriority.SortByPriority])
       None None None None None).

(** A task with a pod started at [started]. *)
Definition startedTask (name : string) (priority started : Z) : TaskInfo.t :=
  TaskInfo.mk "default" name "j" priority
    (Some (Pod.mk None (Some started) started)).

End more2.
(** [usage'] holds at least what [usage] holds, resource by resource. *)
Definition usageAtLeast (usage usage' : gmap string Z) : Prop :=
  forall name used,
    usage !! name = Some used ->
    exists used', usage' !! name = Some used' /\ used <= used'.

Module more3.

(** Arguments without quota table. *)
Definition noQuota : gmap string ArgValue :=
  {[ "annotationKey" := VString "team" ]}.

(** A quota table with an entry that is no quantity and one that is no
    string. *)
Definition mixedQuota : list (string * MapItem) :=
  [("cpu", IString "1000m"); ("memory", IString "lots"); ("pods", IOther)].

Definition mixedArguments : gmap string ArgValue :=
  {[ "resourceMap" := VMapString mixedQuota ]}.

End more3.
(** The comparator a session-open registers, when it returns. *)
Definition registered (opened : Run (option JobInfo.t -> option JobInfo.t -> Run Z))
  : option JobInfo.t -> option JobInfo.t -> Run Z :=
  match opened with
  | Returns fn => fn
  | Panics => fun _ _ => Panics
  end.
(** No job of the session that holds resources is annotated with the
    group [group]. *)
Definition groupHoldsNothing (annotationKey group : string) (jobs : JobMap) : Prop :=
  forall k j res pg annotations,
    In (k, Some j) jobs ->
    JobInfo.Allocated j = Some res ->
    Resource.IsEmpty res = false ->
    JobInfo.PodGroup j = Some pg ->
    PodGroup.Annotations pg = Some annotations ->
    annotations !! annotationKey <> Some group.

(** * Properties *)

(** ** Proof tools *)

(** Case analysis on every integer test left in the goal. *)
Ltac case_tests :=
  repeat match goal with
  | |- context [?a <? ?b] => destruct (Z.ltb_spec a b)
  | |- context [?a <=? ?b] => destruct (Z.leb_spec a b)
  | |- context [?a =? ?b] => destruct (Z.eqb_spec a b)
  end.

Ltac case_keys :=
  repeat match goal with
  | |- context [String.eqb ?a ?b] => destruct (String.eqb_spec a b)
  end.

(** ** The selector engine *)

Lemma Contains_In (values : list Z) (v : Z) :
  PriorityExpression.Contains values v = true <-> In v values.
Proof.
  induction values as [|x rest IH]; simpl.
  - split; [discriminate | tauto].
  - destruct (Z.eqb_spec x v) as [->|Hne].
    + split; auto.
    + rewrite IH. split; [auto | intros [?|?]; [contradiction | assumption]].
Qed.

Lemma anyMatches_exists (exprs : list PriorityExpression.t) (p : Z) :
  PrioritySelector.anyMatches exprs p = true <->
  exists expr, In expr exprs /\ PriorityExpression.Matches expr p = true.
Proof.
  induction exprs as [|e rest IH]; simpl.
  - split; [discriminate | intros (? & [] & _)].
  - destruct (PriorityExpression.Matches e p) eqn:He.
    + split; [intros _; exists e; auto | reflexivity].
    + rewrite IH. split.
      * intros (x & Hin & Hx). exists x; auto.
      * intros (x & [<-|Hin] & Hx); [congruence | exists x; auto].
Qed.

Lemma Matches_exists (s : PrioritySelector.t) (p : Z) :
  PrioritySelector.Matches (Some s) p = true <->
  exists expr,
    In expr (PrioritySelector.AnyExpressions s) /\
    PriorityExpression.Matches expr p = true.
Proof.
  unfold PrioritySelector.Matches.
  destruct (PrioritySelector.AnyExpressions s) as [|e rest] eqn:Hs.
  - split; [discriminate | intros (? & [] & _)].
  - apply anyMatches_exists.
Qed.

(** C7.  A nil selector and a selector without expressions match no
    priority; any other selector matches a priority exactly when at least
    one of its expressions does. *)
Theorem selector_matches_any :
  (forall p, PrioritySelector.Matches None p = false) /\
  (forall p, PrioritySelector.Matches (Some (PrioritySelector.mk [])) p = false) /\
  (forall s p,
     PrioritySelector.Matches (Some s) p = true <->
     exists expr,
       In expr (PrioritySelector.AnyExpressions s) /\
       PriorityExpression.Matches expr p = true).
Proof.
  split; [reflexivity | split; [reflexivity | apply Matches_exists]].
Qed.

(** The sixth scenario of the specification: [Lt 0] or [In {0}]. *)
Example selector_or_scenario :
  let sel := Some (PrioritySelector.mk
                     [ PriorityExpression.mk PriorityExpression.OperatorLt [0];
                       PriorityExpression.mk PriorityExpression.OperatorIn [0] ]) in
  PrioritySelector.Matches sel (-1) = true /\
  PrioritySelector.Matches sel 0 = true /\
  PrioritySelector.Matches sel 1 = false.
Proof. repeat split. Qed.

Example expression_cases :
  PriorityExpression.Matches (PriorityExpression.mk "NotIn" [1; 3]) 2 = true /\
  PriorityExpression.Matches (PriorityExpression.mk "Between" [3; 1]) 2 = true /\
  PriorityExpression.Matches (PriorityExpression.mk "Between" [1]) 1 = false /\
  PriorityExpression.Matches (PriorityExpression.mk "Gte" [5]) 5 = true /\
  PriorityExpression.Matches (PriorityExpression.mk "Lt" []) 5 = false /\
  PriorityExpression.Matches (PriorityExpression.mk "Unknown" [5]) 5 = false.
Proof. repeat split. Qed.

Lemma Between_Matches (v0 v1 p : Z) :
  PriorityExpression.Matches (Between v0 v1) p = true <->
  Z.min v0 v1 <= p <= Z.max v0 v1.
Proof.
  unfold PriorityExpression.Matches, Between. simpl.
  destruct (Z.ltb_spec v1 v0); rewrite andb_true_iff, !Z.leb_le; lia.
Qed.

(** C8.  With [a <= b], [Between {a, b}] matches exactly the priorities of
    the closed interval from [a] to [b], and [Between {b, a}] matches the
    same priorities. *)
Theorem between_bounds (a b p : Z) :
  a <= b ->
  (PriorityExpression.Matches (Between a b) p = true <-> a <= p <= b) /\
  PriorityExpression.Matches (Between b a) p =
  PriorityExpression.Matches (Between a b) p.
Proof.
  intros Hab. split.
  - rewrite Between_Matches. lia.
  - apply eq_true_iff_eq. rewrite !Between_Matches. lia.
Qed.

Lemma between_bounds_witness :
  1 <= 3 /\
  ((PriorityExpression.Matches (Between 1 3) 2 = true <-> 1 <= 2 <= 3) /\
   PriorityExpression.Matches (Between 3 1) 2 =
   PriorityExpression.Matches (Between 1 3) 2).
Proof.
  split; [lia | apply (between_bounds 1 3 2); lia].
Defined.

(** ** ex-priority: the comparators *)

Lemma compareTasksFrom_antisym (orders : list string) (l r : TaskInfo.t) :
  expriority.compareTasksFrom orders l r = - expriority.compareTasksFrom orders r l.
Proof.
  induction orders as [|order rest IH]; simpl; [reflexivity|].
  unfold time.IsZero, time.Equal, time.Before.
  case_keys; case_tests; simpl; try lia; exact IH.
Qed.

Lemma compareTasksFrom_refl (orders : list string) (x : TaskInfo.t) :
  expriority.compareTasksFrom orders x x = 0.
Proof.
  pose proof (compareTasksFrom_antisym orders x x). lia.
Qed.

Lemma compareJobsFrom_antisym (orders : list string) (l r : JobInfo.t) :
  expriority.compareJobsFrom orders l r = - expriority.compareJobsFrom orders r l.
Proof.
  induction orders as [|order rest IH]; simpl; [reflexivity|].
  unfold time.IsZero, time.Before.
  case_keys; case_tests; simpl; try lia; exact IH.
Qed.

Lemma compareSubJobsFrom_antisym (orders : list string) (l r : SubJobInfo.t) :
  expriority.compareSubJobsFrom orders l r
  = - expriority.compareSubJobsFrom orders r l.
Proof.
  induction orders as [|order rest IH]; simpl; [reflexivity|].
  case_keys; case_tests; simpl; try lia; exact IH.
Qed.

(** C9.  For every sort order, the task, job and sub-job comparators
    registered by ex-priority answer, on any two tasks (jobs, sub-jobs),
    with opposite signs when the arguments are swapped, and with 0 on
    twice the same task (job, sub-job). *)
Theorem comparators_antisymmetric
  (ParseDuration : string -> option Z) (ep : expriority.Config) (jobs : JobMap)
  (L R : TaskInfo.t) (LJ RJ : JobInfo.t) (LS RS : SubJobInfo.t) :
  let hooks := expriority.OnSessionOpen ParseDuration ep jobs in
  (exists c c',
     expriority.TaskOrderFn hooks (Some L) (Some R) = Returns c /\
     expriority.TaskOrderFn hooks (Some R) (Some L) = Returns c' /\
     Z.sgn c = - Z.sgn c') /\
  expriority.TaskOrderFn hooks (Some L) (Some L) = Returns 0 /\
  (exists c c',
     expriority.JobOrderFn hooks (Some LJ) (Some RJ) = Returns c /\
     expriority.JobOrderFn hooks (Some RJ) (Some LJ) = Returns c' /\
     Z.sgn c = - Z.sgn c') /\
  expriority.JobOrderFn hooks (Some LJ) (Some LJ) = Returns 0 /\
  (exists c c',
     expriority.SubJobOrderFn hooks (Some LS) (Some RS) = Returns c /\
     expriority.SubJobOrderFn hooks (Some RS) (Some LS) = Returns c' /\
     Z.sgn c = - Z.sgn c') /\
  expriority.SubJobOrderFn hooks (Some LS) (Some LS) = Returns 0.
Proof.
  simpl.
  unfold expriority.taskOrderFn, expriority.jobOrderFn, expriority.subJobOrderFn;
    simpl.
  unfold expriority.compareTasks, expriority.compareJobs, expriority.compareSubJobs.
  repeat split.
  - eexists _, _. repeat split.
    rewrite (compareTasksFrom_antisym _ L R), Z.sgn_opp. reflexivity.
  - f_equal. apply compareTasksFrom_refl.
  - eexists _, _. repeat split.
    rewrite (compareJobsFrom_antisym _ LJ RJ), Z.sgn_opp. reflexivity.
  - f_equal. pose proof (compareJobsFrom_antisym (expriority.SortOrder ep) LJ LJ). lia.
  - eexists _, _. repeat split.
    rewrite (compareSubJobsFrom_antisym _ LS RS), Z.sgn_opp. reflexivity.
  - f_equal.
    pose proof (compareSubJobsFrom_antisym (expriority.SortOrder ep) LS LS). lia.
Qed.

(** With the keys priority then creation time: the higher priority first,
    then the earlier start. *)
Example compareTasks_keys :
  let ep := expriority.New
              (expriority.mkArguments
                 (Some [expriority.SortByPriority; expriority.SortByCreationTime])
                 None None None None None) in
  let task p started := sample.boundedTask "t" "j" p started "1h" in
  expriority.compareTasks ep (task 5 10) (task 3 1) = -1 /\
  expriority.compareTasks ep (task 3 10) (task 3 20) = -1 /\
  expriority.compareTasks ep (task 3 20) (task 3 10) = 1 /\
  expriority.compareTasks ep (task 3 20) (sample.bareTask "u" "j" 3) = 0.
Proof. repeat split. Qed.

(** ** time-priority: rule selection *)

Lemma lessRule_false (a b : timepriority.EscalationRule.t) :
  timepriority.lessRule b a = false <->
  timepriority.EscalationRule.WaitingThreshold b
  <= timepriority.EscalationRule.WaitingThreshold a.
Proof. unfold timepriority.lessRule. rewrite Z.ltb_ge. reflexivity. Qed.

(** The inner loop picks, among the rules that apply, one of greatest
    threshold; when none applies the job is left as it is. *)
Lemma applyRules_spec (rules : list timepriority.EscalationRule.t) (w : Z)
  (J : JobInfo.t) :
  descending rules ->
  (exists r,
     In r rules /\ applies r w (JobInfo.Priority J) /\
     (forall r', In r' rules -> applies r' w (JobInfo.Priority J) ->
        timepriority.EscalationRule.WaitingThreshold r'
        <= timepriority.EscalationRule.WaitingThreshold r) /\
     timepriority.applyRules rules w J
     = JobInfo.setPriority J (timepriority.EscalationRule.TargetPriority r))
  \/
  ((forall r, In r rules -> ~ applies r w (JobInfo.Priority J)) /\
   timepriority.applyRules rules w J = J).
Proof.
  unfold descending, applies.
  induction 1 as [|r rest Hsorted IH Hall]; simpl.
  - right. split; [intros r [] | reflexivity].
  - rewrite List.Forall_forall in Hall.
    destruct (Z.leb_spec (timepriority.EscalationRule.WaitingThreshold r) w) as [Hle|Hgt].
    + destruct (PrioritySelector.Matches _ _) eqn:Hm.
      * left. exists r. repeat split; auto.
        intros r' [<-|Hin] _; [lia | apply lessRule_false, Hall, Hin].
      * destruct IH as [(r0 & Hin & Happ & Hmax & Heq) | (Hnone & Heq)].
        -- left. exists r0. repeat split; try tauto.
           intros r' [<-|Hin'] [? Hm']; [congruence | apply Hmax; auto].
        -- right. split; [|exact Heq].
           intros r' [<-|Hin'] [? Hm']; [congruence | apply (Hnone r'); auto].
    + destruct IH as [(r0 & Hin & Happ & Hmax & Heq) | (Hnone & Heq)].
      * left. exists r0. repeat split; try tauto.
        intros r' [<-|Hin'] [? Hm']; [lia | apply Hmax; auto].
      * right. split; [|exact Heq].
        intros r' [<-|Hin'] [? Hm']; [lia | apply (Hnone r'); auto].
Qed.

Lemma OnSessionOpen_lookup (tp : timepriority.Config) (now : Z) (jobs : JobMap)
  (i : nat) (k : string) (J : JobInfo.t) :
  jobs !! i = Some (k, Some J) ->
  timepriority.OnSessionOpen tp now jobs !! i
  = Some (k, Some (timepriority.applyRules (timepriority.Rules tp)
                     (timepriority.getWaitingDuration (Some J) now) J)).
Proof.
  intros Hi. unfold timepriority.OnSessionOpen.
  destruct (timepriority.Rules tp) as [|r rest] eqn:Hr.
  - rewrite Hi. reflexivity.
  - cbv beta iota. rewrite list_lookup_fmap, Hi. simpl. rewrite Hr. reflexivity.
Qed.

(** A nil entry of the job map is skipped. *)
Lemma OnSessionOpen_lookup_nil (tp : timepriority.Config) (now : Z)
  (jobs : JobMap) (i : nat) (k : string) :
  jobs !! i = Some (k, None) ->
  timepriority.OnSessionOpen tp now jobs !! i = Some (k, None).
Proof.
  intros Hi. unfold timepriority.OnSessionOpen.
  destruct (timepriority.Rules tp); [exact Hi|].
  cbv beta iota. rewrite list_lookup_fmap, Hi. reflexivity.
Qed.

Section Escalation.

Variable ParseDuration : string -> option Z.
Variable sortSlice :
  (timepriority.EscalationRule.t -> timepriority.EscalationRule.t -> bool) ->
  list timepriority.EscalationRule.t -> list timepriority.EscalationRule.t.

(** What the plugin relies on: a parsed duration is an int64, and
    [sort.Slice] permutes its argument into an order in which no element is
    [less] than an earlier one. *)
Hypothesis ParseDuration_int64 :
  forall s d, ParseDuration s = Some d -> time.minDuration <= d <= time.maxDuration.
Hypothesis sortSlice_Permutation :
  forall l, Permutation (sortSlice timepriority.lessRule l) l.
Hypothesis sortSlice_descending :
  forall l, descending (sortSlice timepriority.lessRule l).

(** The rules kept by the parsing loop are the well-formed raw rules. *)
Lemma parseRules_In (raw : list timepriority.RawRule.t)
  (acc : list timepriority.EscalationRule.t) (r : timepriority.EscalationRule.t) :
  In r (timepriority.parseRules ParseDuration raw acc) <->
  In r acc \/
  exists rawRule d sel,
    In rawRule raw /\
    ParseDuration (timepriority.RawRule.WaitingThreshold rawRule) = Some d /\
    0 < d /\
    timepriority.RawRule.SourcePriority rawRule = Some sel /\
    r = timepriority.EscalationRule.mk d (Some sel)
          (timepriority.RawRule.TargetPriority rawRule).
Proof.
  revert acc. induction raw as [|x rest IH]; intros acc; simpl.
  - split; [auto | intros [?|(? & ? & ? & [] & _)]; assumption].
  - assert (Hskip :
      (In r acc \/
       exists rawRule d sel,
         In rawRule rest /\
         ParseDuration (timepriority.RawRule.WaitingThreshold rawRule) = Some d /\
         0 < d /\
         timepriority.RawRule.SourcePriority rawRule = Some sel /\
         r = timepriority.EscalationRule.mk d (Some sel)
               (timepriority.RawRule.TargetPriority rawRule)) ->
      In r acc \/
      exists rawRule d sel,
        (x = rawRule \/ In rawRule rest) /\
        ParseDuration (timepriority.RawRule.WaitingThreshold rawRule) = Some d /\
        0 < d /\
        timepriority.RawRule.SourcePriority rawRule = Some sel /\
        r = timepriority.EscalationRule.mk d (Some sel)
              (timepriority.RawRule.TargetPriority rawRule)).
    { intros [?|(y & d & sel & ? & ?)]; [left; assumption|].
      right. exists y, d, sel. tauto. }
    destruct (ParseDuration (timepriority.RawRule.WaitingThreshold x)) as [d|] eqn:Hd.
    + destruct (Z.leb_spec d 0) as [Hle|Hpos].
      * rewrite IH. split; [exact Hskip|].
        intros [?|(y & d' & sel & [<-|Hin] & Hd' & Hpos & ?)]; [tauto | | ].
        -- rewrite Hd in Hd'. injection Hd' as <-. lia.
        -- right. exists y, d', sel. tauto.
      * destruct (timepriority.RawRule.SourcePriority x) as [sel|] eqn:Hsel.
        -- rewrite IH, in_app_iff. simpl. split.
           ++ intros [[?|[<-|[]]]|Hrest].
              ** left; assumption.
              ** right. exists x, d, sel. tauto.
              ** apply Hskip. right. exact Hrest.
           ++ intros [?|(y & d' & sel' & [<-|Hin] & Hd' & Hpos' & Hsel' & ->)];
                [tauto | | ].
              ** left. right. left.
                 rewrite Hd in Hd'. injection Hd' as <-.
                 rewrite Hsel in Hsel'. injection Hsel' as <-. reflexivity.
              ** right. exists y, d', sel'. tauto.
        -- rewrite IH. split; [exact Hskip|].
           intros [?|(y & d' & sel' & [<-|Hin] & Hd' & Hpos' & Hsel' & ?)];
             [tauto | congruence | ].
           right. exists y, d', sel'. tauto.
    + rewrite IH. split; [exact Hskip|].
      intros [?|(y & d' & sel' & [<-|Hin] & Hd' & ?)]; [tauto | congruence | ].
      right. exists y, d', sel'. tauto.
Qed.

(** Every configured rule has a positive int64 threshold. *)
Lemma Rules_threshold (arguments : option (list timepriority.RawRule.t))
  (r : timepriority.EscalationRule.t) :
  In r (timepriority.Rules (timepriority.New ParseDuration sortSlice arguments)) ->
  0 < timepriority.EscalationRule.WaitingThreshold r <= time.maxDuration.
Proof.
  unfold timepriority.New, timepriority.parseArguments.
  destruct arguments as [raw|]; simpl; [|tauto].
  intros Hin.
  apply (Permutation_in _ (sortSlice_Permutation _)) in Hin.
  apply parseRules_In in Hin.
  destruct Hin as [[]|(x & d & sel & _ & Hd & Hpos & _ & ->)]. simpl.
  apply ParseDuration_int64 in Hd. lia.
Qed.

Lemma Rules_descending (arguments : option (list timepriority.RawRule.t)) :
  descending (timepriority.Rules (timepriority.New ParseDuration sortSlice arguments)).
Proof.
  unfold timepriority.New, timepriority.parseArguments.
  destruct arguments as [raw|]; simpl.
  - apply sortSlice_descending.
  - constructor.
Qed.

(** For a positive int64 threshold, the saturation of [Time.Sub] and the
    zero-timestamp case do not change the comparison with the waiting
    time. *)
Lemma threshold_reached (J : JobInfo.t) (now t : Z) :
  0 < t <= time.maxDuration ->
  t <= timepriority.getWaitingDuration (Some J) now <->
  t <= waitingTime J now.
Proof.
  unfold timepriority.getWaitingDuration, waitingTime, time.IsZero, time.Sub,
    time.maxDuration, time.minDuration.
  intros Ht. case_tests; lia.
Qed.

(** The rule the pass selects, in terms of the rewritten job. *)
Lemma escalation_selection
  (arguments : option (list timepriority.RawRule.t)) (now : Z)
  (jobs : JobMap) (i : nat) (k : string) (J : JobInfo.t) :
  jobs !! i = Some (k, Some J) ->
  let tp := timepriority.New ParseDuration sortSlice arguments in
  let qualifies r :=
    In r (timepriority.Rules tp) /\
    applies r (waitingTime J now) (JobInfo.Priority J) in
  exists J',
    timepriority.OnSessionOpen tp now jobs !! i = Some (k, Some J') /\
    ((exists r,
        qualifies r /\
        (forall r', qualifies r' ->
           timepriority.EscalationRule.WaitingThreshold r'
           <= timepriority.EscalationRule.WaitingThreshold r) /\
        J' = JobInfo.setPriority J (timepriority.EscalationRule.TargetPriority r))
     \/
     ((forall r, ~ qualifies r) /\ J' = J)) /\
    (forall r,
       qualifies r ->
       (forall r', qualifies r' -> r' <> r ->
          timepriority.EscalationRule.WaitingThreshold r'
          < timepriority.EscalationRule.WaitingThreshold r) ->
       J' = JobInfo.setPriority J (timepriority.EscalationRule.TargetPriority r)).
Proof.
  intros Hi tp qualifies.
  set (w := timepriority.getWaitingDuration (Some J) now).
  exists (timepriority.applyRules (timepriority.Rules tp) w J).
  split; [apply OnSessionOpen_lookup, Hi|].
  assert (Hconv : forall r,
    In r (timepriority.Rules tp) ->
    (applies r w (JobInfo.Priority J) <->
     applies r (waitingTime J now) (JobInfo.Priority J))).
  { intros r Hin. unfold applies, w.
    rewrite (threshold_reached J now _ (Rules_threshold arguments r Hin)).
    reflexivity. }
  assert (Hmain :
    (exists r,
        qualifies r /\
        (forall r', qualifies r' ->
           timepriority.EscalationRule.WaitingThreshold r'
           <= timepriority.EscalationRule.WaitingThreshold r) /\
        timepriority.applyRules (timepriority.Rules tp) w J
        = JobInfo.setPriority J (timepriority.EscalationRule.TargetPriority r))
     \/
     ((forall r, ~ qualifies r) /\
      timepriority.applyRules (timepriority.Rules tp) w J = J)).
  { destruct (applyRules_spec (timepriority.Rules tp) w J (Rules_descending arguments))
      as [(r & Hin & Happ & Hmax & Heq) | (Hnone & Heq)].
    - left. exists r. split; [|split; [|exact Heq]].
      + split; [exact Hin | apply Hconv; assumption].
      + intros r' [Hin' Happ']. apply Hmax; [exact Hin' | apply Hconv; assumption].
    - right. split; [|exact Heq].
      intros r [Hin Happ]. apply (Hnone r Hin). apply Hconv; assumption. }
  split; [exact Hmain|].
  intros r Hr Hstrict.
  destruct Hmain as [(r0 & Hr0 & Hmax & Heq) | (Hnone & _)];
    [|exfalso; exact (Hnone r Hr)].
  rewrite Heq.
  destruct (Z.eq_dec (timepriority.EscalationRule.TargetPriority r0)
                     (timepriority.EscalationRule.TargetPriority r)) as [->|Hne];
    [reflexivity|].
  exfalso.
  assert (Hdiff : r0 <> r) by congruence.
  specialize (Hstrict r0 Hr0 Hdiff). specialize (Hmax r Hr). lia.
Qed.

Lemma setPriority_reads (J : JobInfo.t) (p : Z) :
  JobInfo.Priority (JobInfo.setPriority J p) = p /\
  sameButPriority J (JobInfo.setPriority J p).
Proof. unfold sameButPriority. repeat split. Qed.

(** C3.  A job that has waited [w = now - creationTimestamp] ([w = 0]
    without creation timestamp) leaves the session-open pass with every
    field but the priority as it was, and with a priority that is the
    target of a rule of greatest threshold among the configured rules
    whose threshold is at most [w] and whose source selector matches the
    priority the job had before the pass; it is the target of that rule
    whenever one such rule has a threshold greater than all the others;
    and the priority is the one the job had when no rule qualifies. *)
Theorem escalation_selects_longest_rule
  (arguments : option (list timepriority.RawRule.t)) (now : Z)
  (jobs : JobMap) (i : nat) (k : string) (J : JobInfo.t) :
  jobs !! i = Some (k, Some J) ->
  let tp := timepriority.New ParseDuration sortSlice arguments in
  let qualifies r :=
    In r (timepriority.Rules tp) /\
    applies r (waitingTime J now) (JobInfo.Priority J) in
  exists J',
    timepriority.OnSessionOpen tp now jobs !! i = Some (k, Some J') /\
    sameButPriority J J' /\
    ((exists r,
        qualifies r /\
        (forall r', qualifies r' ->
           timepriority.EscalationRule.WaitingThreshold r'
           <= timepriority.EscalationRule.WaitingThreshold r) /\
        JobInfo.Priority J' = timepriority.EscalationRule.TargetPriority r /\
        J' = JobInfo.setPriority J (timepriority.EscalationRule.TargetPriority r))
     \/
     ((forall r, ~ qualifies r) /\
      JobInfo.Priority J' = JobInfo.Priority J /\
      J' = J)) /\
    (forall r,
       qualifies r ->
       (forall r', qualifies r' -> r' <> r ->
          timepriority.EscalationRule.WaitingThreshold r'
          < timepriority.EscalationRule.WaitingThreshold r) ->
       JobInfo.Priority J' = timepriority.EscalationRule.TargetPriority r /\
       J' = JobInfo.setPriority J (timepriority.EscalationRule.TargetPriority r)).
Proof.
  intros Hi tp qualifies.
  destruct (escalation_selection arguments now jobs i k J Hi)
    as (J' & Hlookup & Hsel & Hunique).
  fold tp in Hlookup, Hsel, Hunique.
  exists J'. split; [exact Hlookup|]. split; [|split].
  - destruct Hsel as [(r & _ & _ & ->) | (_ & ->)].
    + apply setPriority_reads.
    + unfold sameButPriority. repeat split.
  - destruct Hsel as [(r & Hr & Hmax & ->) | (Hnone & ->)].
    + left. exists r. split; [exact Hr|]. split; [exact Hmax|].
      split; [apply setPriority_reads | reflexivity].
    + right. split; [exact Hnone|]. split; reflexivity.
  - intros r Hr Hstrict.
    rewrite (Hunique r Hr Hstrict). split; [apply setPriority_reads | reflexivity].
Qed.

End Escalation.

(** The library functions of [lib] meet what the plugin relies on. *)

Lemma lib_ParseDuration_int64 (s : string) (d : Z) :
  lib.ParseDuration s = Some d -> time.minDuration <= d <= time.maxDuration.
Proof.
  unfold lib.ParseDuration.
  destruct (lib.parseSigned s) as [x|]; [|discriminate].
  destruct (Z.leb_spec time.minDuration x); [|discriminate].
  destruct (Z.leb_spec x time.maxDuration); [|discriminate].
  simpl. intros [= <-]. lia.
Qed.

Lemma lib_insertSorted_Permutation {A : Type} (less : A -> A -> bool) (x : A)
  (l : list A) :
  Permutation (lib.insertSorted less x l) (x :: l).
Proof.
  induction l as [|y rest IH]; simpl; [reflexivity|].
  destruct (less y x); [|reflexivity].
  rewrite IH. apply perm_swap.
Qed.

Lemma lib_sortSlice_Permutation {A : Type} (less : A -> A -> bool) (l : list A) :
  Permutation (lib.sortSlice less l) l.
Proof.
  induction l as [|x rest IH]; simpl; [reflexivity|].
  rewrite lib_insertSorted_Permutation, IH. reflexivity.
Qed.

Lemma lib_insertSorted_descending (x : timepriority.EscalationRule.t)
  (l : list timepriority.EscalationRule.t) :
  descending l -> descending (lib.insertSorted timepriority.lessRule x l).
Proof.
  unfold descending.
  induction 1 as [|y rest Hsorted IH Hall]; simpl.
  - repeat constructor.
  - destruct (timepriority.lessRule y x) eqn:Hyx.
    + constructor; [exact IH|].
      rewrite List.Forall_forall in *. intros z Hz.
      apply (Permutation_in _ (lib_insertSorted_Permutation _ x rest)) in Hz.
      destruct Hz as [<-|Hz]; [|apply Hall, Hz].
      unfold timepriority.lessRule in *.
      apply Z.ltb_lt in Hyx. apply Z.ltb_ge. lia.
    + constructor; [constructor; assumption|].
      constructor; [exact Hyx|].
      rewrite List.Forall_forall in *. intros z Hz. specialize (Hall z Hz).
      unfold timepriority.lessRule in *.
      apply Z.ltb_ge in Hyx, Hall. apply Z.ltb_ge. lia.
Qed.

Lemma lib_sortSlice_descending (l : list timepriority.EscalationRule.t) :
  descending (lib.sortSlice timepriority.lessRule l).
Proof.
  induction l as [|x rest IH]; simpl.
  - constructor.
  - apply lib_insertSorted_descending, IH.
Qed.

(** The ladder of the specification's first scenario, longest wait first. *)
Example ladder_rules :
  timepriority.Rules (sample.timePriority sample.ladder)
  = [ timepriority.EscalationRule.mk (20 * sample.minute) sample.lowRange 200;
      timepriority.EscalationRule.mk (10 * sample.minute) sample.lowRange 100 ].
Proof. reflexivity. Qed.

Example ladder_scenario :
  let tp := sample.timePriority sample.ladder in
  let waited (w p : Z) :=
    timepriority.OnSessionOpen tp (1 + w) [("j", Some (sample.job "j" "q" p 1))] in
  waited (5 * sample.minute) 10 = [("j", Some (sample.job "j" "q" 10 1))] /\
  waited (10 * sample.minute) 10 = [("j", Some (sample.job "j" "q" 100 1))] /\
  waited (20 * sample.minute) 10 = [("j", Some (sample.job "j" "q" 200 1))] /\
  waited (30 * sample.minute) 100 = [("j", Some (sample.job "j" "q" 100 1))].
Proof. repeat split. Qed.

Lemma escalation_selects_longest_rule_witness :
  let jobs : JobMap := [("j", Some (sample.job "j" "q" 10 1))] in
  let J := sample.job "j" "q" 10 1 in
  let now := 1 + 15 * sample.minute in
  jobs !! 0%nat = Some ("j", Some J) /\
  let tp := sample.timePriority sample.ladder in
  let qualifies r :=
    In r (timepriority.Rules tp) /\
    applies r (waitingTime J now) (JobInfo.Priority J) in
  exists J',
    timepriority.OnSessionOpen tp now jobs !! 0%nat = Some ("j", Some J') /\
    sameButPriority J J' /\
    ((exists r,
        qualifies r /\
        (forall r', qualifies r' ->
           timepriority.EscalationRule.WaitingThreshold r'
           <= timepriority.EscalationRule.WaitingThreshold r) /\
        JobInfo.Priority J' = timepriority.EscalationRule.TargetPriority r /\
        J' = JobInfo.setPriority J (timepriority.EscalationRule.TargetPriority r))
     \/
     ((forall r, ~ qualifies r) /\
      JobInfo.Priority J' = JobInfo.Priority J /\
      J' = J)) /\
    (forall r,
       qualifies r ->
       (forall r', qualifies r' -> r' <> r ->
          timepriority.EscalationRule.WaitingThreshold r'
          < timepriority.EscalationRule.WaitingThreshold r) ->
       JobInfo.Priority J' = timepriority.EscalationRule.TargetPriority r /\
       J' = JobInfo.setPriority J (timepriority.EscalationRule.TargetPriority r)).
Proof.
  intros jobs J now. split; [reflexivity|].
  apply (escalation_selects_longest_rule lib.ParseDuration (@lib.sortSlice _)
           lib_ParseDuration_int64
           (lib_sortSlice_Permutation timepriority.lessRule)
           lib_sortSlice_descending
           (Some sample.ladder) now jobs 0%nat "j" J).
  reflexivity.
Defined.

(** ** time-priority: successive sessions *)



Section Sessions.

Variable ParseDuration : string -> option Z.
Variable sortSlice :
  (timepriority.EscalationRule.t -> timepriority.EscalationRule.t -> bool) ->
  list timepriority.EscalationRule.t -> list timepriority.EscalationRule.t.

(** [sort.Slice] leaves the rules in descending order of threshold. *)
Hypothesis sortSlice_descending :
  forall l, descending (sortSlice timepriority.lessRule l).


End Sessions.




(** The ladder of the first scenario over two sessions: 100 after ten
    minutes, 200 after twenty. *)
Example ladder_two_sessions :
  let tp := sample.timePriority sample.ladder in
  let J := sample.job "j" "q" 10 1 in
  timepriority.OnSessionOpen tp (1 + 10 * sample.minute) [("j", Some J)]
  = [("j", Some (sample.job "j" "q" 100 1))] /\
  timepriority.OnSessionOpen tp (1 + 20 * sample.minute) [("j", Some J)]
  = [("j", Some (sample.job "j" "q" 200 1))].
Proof. split; reflexivity. Qed.

(** ** ex-priority: head-of-line blocking *)

Lemma blockingJobAmong_spec (ep : expriority.Config) (entries : JobMap)
  (J : JobInfo.t) :
  noNilJob entries ->
  exists b,
    expriority.blockingJobAmong ep entries J = Returns b /\
    (b = true <->
     exists k other, In (k, Some other) entries /\ blocksAhead ep J other).
Proof.
  unfold noNilJob, blocksAhead.
  induction 1 as [|[k [job|]] rest Hjob _ IH]; simpl.
  - exists false. split; [reflexivity|].
    split; [discriminate | intros (? & ? & [] & _)].
  - destruct IH as (b & Hb & Hiff).
    assert (Hskip :
      ~ (JobInfo.Pending job = true /\
         JobInfo.UID job <> JobInfo.UID J /\
         PrioritySelector.Matches (expriority.Blocking ep) (JobInfo.Priority job) = true /\
         JobInfo.Priority J < JobInfo.Priority job /\
         (expriority.BlockingScope ep = expriority.BlockingScopeQueue ->
          JobInfo.Queue job = JobInfo.Queue J)) ->
      exists b0,
        expriority.blockingJobAmong ep rest J = Returns b0 /\
        (b0 = true <->
         exists k0 other,
           ((k, Some job) = (k0, Some other) \/ In (k0, Some other) rest) /\
           JobInfo.Pending other = true /\
           JobInfo.UID other <> JobInfo.UID J /\
           PrioritySelector.Matches (expriority.Blocking ep) (JobInfo.Priority other) = true /\
           JobInfo.Priority J < JobInfo.Priority other /\
           (expriority.BlockingScope ep = expriority.BlockingScopeQueue ->
            JobInfo.Queue other = JobInfo.Queue J))).
    { intros Hno. exists b. split; [exact Hb|]. rewrite Hiff. split.
      - intros (k0 & other & Hin & Hahead). exists k0, other. tauto.
      - intros (k0 & other & [Heq|Hin] & Hahead).
        + injection Heq as <- <-. contradiction.
        + exists k0, other. tauto. }
    destruct (JobInfo.Pending job) eqn:Hpending; simpl;
      [|apply Hskip; intros (? & _); discriminate].
    destruct (String.eqb_spec (JobInfo.UID job) (JobInfo.UID J)) as [Huid|Huid];
      [apply Hskip; tauto|].
    destruct (String.eqb_spec (expriority.BlockingScope ep) expriority.BlockingScopeQueue)
      as [Hscope|Hscope];
    destruct (String.eqb_spec (JobInfo.Queue job) (JobInfo.Queue J)) as [Hqueue|Hqueue];
      simpl; try (apply Hskip; tauto);
    ( destruct (PrioritySelector.Matches (expriority.Blocking ep) (JobInfo.Priority job))
        eqn:Hm; simpl; [|apply Hskip; intros (_ & _ & ? & _); discriminate];
      destruct (Z.ltb_spec (JobInfo.Priority J) (JobInfo.Priority job)) as [Hlt|Hge];
        [|apply Hskip; intros (_ & _ & _ & ? & _); lia];
      exists true; split; [reflexivity|]; split; [intros _|reflexivity];
      exists k, job; tauto ).
  - contradiction.
Qed.

Section Blocking.

Variable ParseDuration : string -> option Z.

(** C2.  With a blocking selector configured, the enqueue callback is
    registered and, on any job J of a session without nil entries: it
    permits when the priority of J matches the selector; otherwise it
    rejects exactly when the session holds another pending job whose
    priority matches the selector, is strictly greater than that of J and
    which, in queue scope, is in the queue of J; and otherwise it abstains.
    The queue of the other job is looked at in queue scope only. *)
Theorem enqueue_head_of_line_blocking
  (ep : expriority.Config) (jobs : JobMap) (sel : PrioritySelector.t)
  (J : JobInfo.t) :
  expriority.Blocking ep = Some sel ->
  noNilJob jobs ->
  let ahead := exists k other, In (k, Some other) jobs /\ blocksAhead ep J other in
  exists fn,
    expriority.JobEnqueueableFn (expriority.OnSessionOpen ParseDuration ep jobs)
    = Some fn /\
    (PrioritySelector.Matches (Some sel) (JobInfo.Priority J) = true ->
     fn (Some J) = Returns Permit) /\
    (PrioritySelector.Matches (Some sel) (JobInfo.Priority J) = false ->
     (fn (Some J) = Returns Reject <-> ahead) /\
     (fn (Some J) = Returns Abstain <-> ~ ahead)).
Proof.
  intros Hsel Hjobs ahead.
  exists (expriority.jobEnqueueableFn ep jobs). split.
  { unfold expriority.OnSessionOpen. cbn [expriority.JobEnqueueableFn].
    rewrite Hsel. reflexivity. }
  unfold expriority.jobEnqueueableFn, expriority.hasBlockingJobAhead.
  cbn [deref bindRun]. rewrite Hsel. split.
  - intros ->. reflexivity.
  - intros ->.
    destruct (blockingJobAmong_spec ep jobs J Hjobs) as (b & -> & Hiff).
    fold ahead in Hiff. cbn [bindRun].
    destruct b; (split; split; intros H); try discriminate; try reflexivity.
    + apply Hiff. reflexivity.
    + exfalso. apply H, Hiff. reflexivity.
    + apply Hiff in H. discriminate.
    + intros Ha. apply Hiff in Ha. discriminate.
Qed.

End Blocking.

(** The second scenario of the specification: blocking from priority 100
    on, queue scope. *)
Example blocking_scenario :
  let ep := sample.blockingFrom100 "queue" in
  expriority.jobEnqueueableFn ep sample.threeJobs (Some sample.jobB) = Returns Reject /\
  expriority.jobEnqueueableFn ep sample.threeJobs (Some sample.jobA) = Returns Permit /\
  expriority.jobEnqueueableFn ep sample.threeJobs (Some sample.jobC) = Returns Abstain /\
  expriority.jobEnqueueableFn (sample.blockingFrom100 "cluster") sample.threeJobs
    (Some sample.jobC) = Returns Reject.
Proof. repeat split. Qed.

Lemma enqueue_head_of_line_blocking_witness :
  let ep := sample.blockingFrom100 "queue" in
  let jobs := sample.threeJobs in
  let J := sample.jobB in
  let sel := PrioritySelector.mk
               [PriorityExpression.mk PriorityExpression.OperatorGte [100]] in
  expriority.Blocking ep = Some sel /\
  noNilJob jobs /\
  let ahead := exists k other, In (k, Some other) jobs /\ blocksAhead ep J other in
  exists fn,
    expriority.JobEnqueueableFn (expriority.OnSessionOpen lib.ParseDuration ep jobs)
    = Some fn /\
    (PrioritySelector.Matches (Some sel) (JobInfo.Priority J) = true ->
     fn (Some J) = Returns Permit) /\
    (PrioritySelector.Matches (Some sel) (JobInfo.Priority J) = false ->
     (fn (Some J) = Returns Reject <-> ahead) /\
     (fn (Some J) = Returns Abstain <-> ~ ahead)).
Proof.
  intros ep jobs J sel.
  assert (Hjobs : noNilJob jobs) by (repeat constructor; discriminate).
  split; [reflexivity|]. split; [exact Hjobs|].
  apply (enqueue_head_of_line_blocking lib.ParseDuration ep jobs sel J eq_refl Hjobs).
Defined.

(** ** ex-priority: preemption *)

Section Preemption.

Variable ParseDuration : string -> option Z.

(** The empty string is not a duration. *)
Hypothesis ParseDuration_empty : ParseDuration "" = None.

Lemma isTaskTimedOut_spec (ep : expriority.Config) (now : Z) (v : TaskInfo.t) :
  expriority.isTaskTimedOut ParseDuration ep (Some v) now = true <->
  timedOut ParseDuration ep now v.
Proof.
  unfold expriority.isTaskTimedOut, timedOut, time.After, time.Add.
  split.
  - destruct (String.eqb_spec (expriority.MaxRunTimeAnnotationKey ep) "") as [|Hk];
      [discriminate|].
    destruct (TaskInfo.Pod v) as [pod|] eqn:Hpod; [|discriminate].
    destruct (Pod.Annotations pod) as [ann|] eqn:Hann; [|discriminate].
    destruct (ann !! expriority.MaxRunTimeAnnotationKey ep) as [value|] eqn:Hl;
      [|discriminate].
    destruct (String.eqb_spec value ""); [discriminate|].
    destruct (Pod.StartTime pod) as [st|] eqn:Hst; [|discriminate].
    destruct (ParseDuration value) as [d|] eqn:Hd; [|discriminate].
    destruct (Z.leb_spec d 0); [discriminate|].
    destruct (Z.ltb_spec now (st + d)); [discriminate|]. intros _.
    split; [assumption|]. exists pod, ann, value, d, st. repeat split; auto; lia.
  - intros (Hk & pod & ann & value & d & st & -> & -> & -> & Hd & Hpos & -> & Hle).
    destruct (String.eqb_spec (expriority.MaxRunTimeAnnotationKey ep) "");
      [contradiction|].
    destruct (String.eqb_spec value "") as [->|]; [congruence|].
    rewrite Hd.
    destruct (Z.leb_spec d 0); [lia|].
    destruct (Z.ltb_spec now (st + d)); [lia|reflexivity].
Qed.

Lemma keepsVictim_spec (ep : expriority.Config) (gate : option PrioritySelector.t)
  (jobs : JobMap) (now : Z) (T v : TaskInfo.t) (TJ VJ : JobInfo.t) :
  lookupJob jobs (TaskInfo.Job T) = Some TJ ->
  lookupJob jobs (TaskInfo.Job v) = Some VJ ->
  keepsVictim ParseDuration ep gate now T TJ v VJ = true <->
  eligibleVictim ParseDuration ep gate jobs now T v.
Proof.
  intros HT Hv. unfold keepsVictim, eligibleVictim.
  rewrite orb_true_iff, andb_true_iff, isTaskTimedOut_spec.
  split.
  - intros [Hto|[Hgate Hcmp]]; [left; exact Hto|].
    right. exists TJ, VJ. split; [exact HT|]. split; [exact Hv|].
    split; [intros sel ->; exact Hgate|].
    destruct (String.eqb_spec (JobInfo.UID VJ) (JobInfo.UID TJ)); simpl in Hcmp;
      apply Z.ltb_lt in Hcmp; split; intros; (contradiction || assumption).
  - intros [Hto|(TJ' & VJ' & HT' & Hv' & Hgate & Hdiff & Hsame)]; [left; exact Hto|].
    rewrite HT in HT'. injection HT' as <-.
    rewrite Hv in Hv'. injection Hv' as <-.
    right. split.
    + destruct gate as [sel|]; [apply Hgate|]; reflexivity.
    + destruct (String.eqb_spec (JobInfo.UID VJ) (JobInfo.UID TJ)); simpl;
        apply Z.ltb_lt; auto.
Qed.

(** The victim loop appends, in order, the candidates that pass the test. *)
Lemma victimsAmong_filter (ep : expriority.Config) (gate : option PrioritySelector.t)
  (jobs : JobMap) (now : Z) (T : TaskInfo.t) (TJ : JobInfo.t)
  (V : list TaskInfo.t) (acc : list (option TaskInfo.t)) :
  (forall v, In v V -> lookupJob jobs (TaskInfo.Job v) <> None) ->
  expriority.victimsAmong ParseDuration ep jobs gate now T (Some TJ) (Some <$> V) acc
  = Returns (acc ++ (Some <$> keptVictims ParseDuration ep gate jobs now T TJ V))%list.
Proof.
  revert acc. induction V as [|c rest IH]; intros acc Hfound.
  - simpl. rewrite app_nil_r. reflexivity.
  - assert (Hrest : forall v, In v rest -> lookupJob jobs (TaskInfo.Job v) <> None)
      by (intros v Hv; apply Hfound; right; exact Hv).
    destruct (lookupJob jobs (TaskInfo.Job c)) as [cj|] eqn:Hc;
      [|exfalso; apply (Hfound c); [left; reflexivity | exact Hc]].
    rewrite fmap_cons. unfold keptVictims. cbn [List.filter].
    fold (keptVictims ParseDuration ep gate jobs now T TJ rest).
    cbn [expriority.victimsAmong deref bindRun].
    rewrite Hc. unfold keepsVictim. cbn [deref bindRun].
    destruct (expriority.isTaskTimedOut ParseDuration ep (Some c) now); cbn [orb].
    + rewrite IH by exact Hrest. rewrite fmap_cons, <- app_assoc. reflexivity.
    + destruct gate as [sel|]; cbn [negb andb].
      * destruct (PrioritySelector.Matches (Some sel) (JobInfo.Priority cj));
          cbn [negb andb]; [|apply IH, Hrest].
        destruct (String.eqb (JobInfo.UID cj) (JobInfo.UID TJ)); cbn [negb].
        -- rewrite (Z.leb_antisym (TaskInfo.Priority c)), Bool.if_negb.
           destruct (_ <? _); rewrite IH by exact Hrest;
             [rewrite fmap_cons, <- app_assoc|]; reflexivity.
        -- rewrite (Z.leb_antisym (JobInfo.Priority cj)), Bool.if_negb.
           destruct (_ <? _); rewrite IH by exact Hrest;
             [rewrite fmap_cons, <- app_assoc|]; reflexivity.
      * destruct (String.eqb (JobInfo.UID cj) (JobInfo.UID TJ)); cbn [negb].
        -- rewrite (Z.leb_antisym (TaskInfo.Priority c)), Bool.if_negb.
           destruct (_ <? _); rewrite IH by exact Hrest;
             [rewrite fmap_cons, <- app_assoc|]; reflexivity.
        -- rewrite (Z.leb_antisym (JobInfo.Priority cj)), Bool.if_negb.
           destruct (_ <? _); rewrite IH by exact Hrest;
             [rewrite fmap_cons, <- app_assoc|]; reflexivity.
Qed.

Lemma keptVictims_sublist (ep : expriority.Config)
  (gate : option PrioritySelector.t) (jobs : JobMap) (now : Z) (T : TaskInfo.t)
  (TJ : JobInfo.t) (V : list TaskInfo.t) :
  sublist (keptVictims ParseDuration ep gate jobs now T TJ V) V.
Proof.
  unfold keptVictims. induction V as [|c rest IH]; simpl.
  - constructor.
  - destruct (match lookupJob jobs (TaskInfo.Job c) with
              | Some cj => keepsVictim ParseDuration ep gate now T TJ c cj
              | None => false
              end); constructor; exact IH.
Qed.

(** C1.  For a preemptor T and candidates V whose jobs are all in the
    session, the preemption callback returns [Permit] with victims taken
    from V, in the order of V; a candidate is among them exactly when it
    is eligible: it is timed out, or else the preemptible selector (when
    set) matches the priority of its job and that priority is strictly
    below the one of T's job if the jobs differ, the candidate's own
    priority strictly below the one of T if the job is the same. *)
Theorem preemptable_victims_eligible
  (ep : expriority.Config) (jobs : JobMap) (now : Z) (T : TaskInfo.t)
  (V : list TaskInfo.t) :
  lookupJob jobs (TaskInfo.Job T) <> None ->
  (forall v, In v V -> lookupJob jobs (TaskInfo.Job v) <> None) ->
  exists victims,
    expriority.PreemptableFn (expriority.OnSessionOpen ParseDuration ep jobs)
      now (Some T) (Some <$> V)
    = Returns (Some <$> victims, Permit) /\
    sublist victims V /\
    (forall v,
       In v victims <->
       In v V /\
       eligibleVictim ParseDuration ep (expriority.Preemptible ep) jobs now T v).
Proof.
  intros HT HV.
  destruct (lookupJob jobs (TaskInfo.Job T)) as [TJ|] eqn:HTJ; [|contradiction].
  exists (keptVictims ParseDuration ep (expriority.Preemptible ep) jobs now T TJ V).
  split; [|split].
  - unfold expriority.OnSessionOpen. cbn [expriority.PreemptableFn].
    unfold expriority.preemptableFn. cbn [deref bindRun]. rewrite HTJ.
    rewrite victimsAmong_filter by exact HV. reflexivity.
  - apply keptVictims_sublist.
  - intros v. unfold keptVictims. rewrite filter_In. split.
    + intros [Hin Hkeep]. split; [exact Hin|].
      destruct (lookupJob jobs (TaskInfo.Job v)) as [VJ|] eqn:HVJ; [|discriminate].
      apply (keepsVictim_spec ep _ jobs now T v TJ VJ HTJ HVJ), Hkeep.
    + intros [Hin Hel]. split; [exact Hin|].
      destruct (lookupJob jobs (TaskInfo.Job v)) as [VJ|] eqn:HVJ;
        [|exfalso; exact (HV v Hin HVJ)].
      apply (keepsVictim_spec ep _ jobs now T v TJ VJ HTJ HVJ), Hel.
Qed.

End Preemption.

(** The third scenario of the specification: a task of a job of priority
    1000 that has run two hours with a bound of one hour is a victim of a
    preemptor of priority 1, although 1000 is not preemptible; a sibling
    within its bound is not. *)
Example timeout_override_scenario :
  expriority.preemptableFn lib.ParseDuration sample.withMaxRunTime sample.twoJobs
    (1 + 2 * sample.hour) (Some sample.preemptor)
    [Some sample.overdue; Some sample.onTime]
  = Returns ([Some sample.overdue], Permit).
Proof. vm_compute. reflexivity. Qed.

Lemma preemptable_victims_eligible_witness :
  let ep := sample.withMaxRunTime in
  let jobs := sample.twoJobs in
  let now := 1 + 2 * sample.hour in
  let T := sample.preemptor in
  let V := [sample.overdue; sample.onTime] in
  lib.ParseDuration "" = None /\
  lookupJob jobs (TaskInfo.Job T) <> None /\
  (forall v, In v V -> lookupJob jobs (TaskInfo.Job v) <> None) /\
  exists victims,
    expriority.PreemptableFn (expriority.OnSessionOpen lib.ParseDuration ep jobs)
      now (Some T) (Some <$> V)
    = Returns (Some <$> victims, Permit) /\
    sublist victims V /\
    (forall v,
       In v victims <->
       In v V /\
       eligibleVictim lib.ParseDuration ep (expriority.Preemptible ep) jobs now T v).
Proof.
  intros ep jobs now T V.
  assert (HT : lookupJob jobs (TaskInfo.Job T) <> None) by discriminate.
  assert (HV : forall v, In v V -> lookupJob jobs (TaskInfo.Job v) <> None)
    by (intros v [<-|[<-|[]]]; discriminate).
  split; [reflexivity|]. split; [exact HT|]. split; [exact HV|].
  apply (preemptable_victims_eligible lib.ParseDuration eq_refl ep jobs now T V HT HV).
Defined.

(** ** group-quota: the job-order comparator *)

(** The comparator follows the over-quota marks of the two groups. *)
Lemma jobOrderFn_table (annotationKey : string) (overQuotaGroups : gmap string bool)
  (L R : JobInfo.t) :
  exists lGroup rGroup,
    groupquota.getJobGroup (Some L) annotationKey = Returns lGroup /\
    groupquota.getJobGroup (Some R) annotationKey = Returns rGroup /\
    let lOver := default false (overQuotaGroups !! lGroup) in
    let rOver := default false (overQuotaGroups !! rGroup) in
    groupquota.jobOrderFn annotationKey overQuotaGroups (Some L) (Some R)
    = Returns (if negb lOver && rOver then -1
               else if lOver && negb rOver then 1
               else 0).
Proof.
  unfold groupquota.jobOrderFn.
  assert (Hg : forall J, exists g,
            groupquota.getJobGroup (Some J) annotationKey = Returns g).
  { intros J. unfold groupquota.getJobGroup. cbn [deref bindRun].
    destruct (JobInfo.PodGroup J) as [pg|]; [|eexists; reflexivity].
    destruct (PodGroup.Annotations pg); eexists; reflexivity. }
  destruct (Hg L) as (lGroup & HL). destruct (Hg R) as (rGroup & HR).
  exists lGroup, rGroup. rewrite HL, HR. cbn [bindRun].
  split; [reflexivity|]. split; [reflexivity|].
  destruct (default false (overQuotaGroups !! lGroup));
    destruct (default false (overQuotaGroups !! rGroup)); reflexivity.
Qed.

(** The fourth scenario of the specification. *)
Example group_quota_scenario :
  let ordered (l r : JobInfo.t) :=
    let* fn := groupquota.OnSessionOpen lib.ParseQuantity sample.oneCPU
                 sample.teamJobs in
    fn (Some l) (Some r) in
  ordered sample.Ja sample.Jb = Returns 1 /\
  ordered sample.Jn sample.Ja = Returns (-1) /\
  ordered sample.Jn sample.Jb = Returns 0.
Proof. vm_compute. repeat split. Qed.

(** As long as no job of the session is annotated with the empty group
    name, the group of that name has no usage, and a job without group is
    never ranked behind another job. *)
Lemma groupUsageOf_empty_name (annotationKey : string) (jobs : JobMap)
  (groupUsage usage : gmap string (gmap string Z)) :
  (forall k j pg annotations,
     In (k, Some j) jobs ->
     JobInfo.PodGroup j = Some pg ->
     PodGroup.Annotations pg = Some annotations ->
     annotations !! annotationKey <> Some "") ->
  groupUsage !! "" = None ->
  groupquota.groupUsageOf annotationKey jobs groupUsage = Returns usage ->
  usage !! "" = None.
Proof.
  revert groupUsage.
  induction jobs as [|[k entry] rest IH]; intros groupUsage Hnamed Hnone.
  - simpl. intros [= <-]. exact Hnone.
  - assert (Hrest : forall k j pg annotations,
              In (k, Some j) rest ->
              JobInfo.PodGroup j = Some pg ->
              PodGroup.Annotations pg = Some annotations ->
              annotations !! annotationKey <> Some "")
      by (intros k0 j0 pg0 a0 Hin; apply (Hnamed k0 j0 pg0 a0); right; exact Hin).
    cbn [groupquota.groupUsageOf]. unfold groupquota.isJobAllocated.
    destruct entry as [j|]; cbn [deref bindRun]; [|discriminate].
    destruct (JobInfo.Allocated j) as [res|]; cbn [deref bindRun]; [|discriminate].
    destruct (negb (negb (Resource.IsEmpty res))); [apply IH; assumption|].
    destruct (JobInfo.PodGroup j) as [pg|] eqn:Hpg; [|apply IH; assumption].
    destruct (PodGroup.Annotations pg) as [annotations|] eqn:Hann;
      [|apply IH; assumption].
    destruct (annotations !! annotationKey) as [groupName|] eqn:Hname;
      [|apply IH; assumption].
    apply IH; [exact Hrest|].
    rewrite lookup_insert_ne; [exact Hnone|].
    intros ->. apply (Hnamed k j pg annotations); auto. left. reflexivity.
Qed.

Lemma unannotated_job_under_quota (ParseQuantity : string -> option Z)
  (pluginArguments : gmap string ArgValue) (jobs : JobMap)
  (fn : option JobInfo.t -> option JobInfo.t -> Run Z) (L R : JobInfo.t) :
  (forall k j pg annotations,
     In (k, Some j) jobs ->
     JobInfo.PodGroup j = Some pg ->
     PodGroup.Annotations pg = Some annotations ->
     annotations !! groupquota.annotationKeyOf pluginArguments <> Some "") ->
  groupquota.OnSessionOpen ParseQuantity pluginArguments jobs = Returns fn ->
  groupquota.getJobGroup (Some L) (groupquota.annotationKeyOf pluginArguments)
  = Returns "" ->
  exists c, fn (Some L) (Some R) = Returns c /\ c <= 0.
Proof.
  intros Hnamed Hopen HL. unfold groupquota.OnSessionOpen in Hopen.
  destruct (groupquota.groupUsageOf _ jobs ∅) as [usage|] eqn:Husage;
    cbn [bindRun] in Hopen; [|discriminate].
  injection Hopen as <-.
  pose proof (groupUsageOf_empty_name _ jobs ∅ usage Hnamed (lookup_empty _) Husage)
    as Hempty.
  destruct (jobOrderFn_table (groupquota.annotationKeyOf pluginArguments)
              (groupquota.overQuotaGroupsOf usage
                 (groupquota.quotaOf ParseQuantity pluginArguments)) L R)
    as (lGroup & rGroup & HL' & _ & ->).
  rewrite HL in HL'. injection HL' as <-.
  assert (Hover : groupquota.overQuotaGroupsOf usage
                    (groupquota.quotaOf ParseQuantity pluginArguments) !! ""
                  = None).
  { unfold groupquota.overQuotaGroupsOf. rewrite lookup_omap, Hempty. reflexivity. }
  rewrite Hover. cbn [default negb andb].
  eexists. split; [reflexivity|].
  destruct (default false _); cbn; lia.
Qed.

(** C4, on the code.  A job without the group annotation is given the
    group name that an empty annotation value also gives.  When the job
    holding the CPU is annotated with the empty group name, that group is
    over quota, and the job Jn, which has no annotation, is ranked as
    over quota against the job Jb of the under-quota team b. *)
Theorem unannotated_job_ranked_over_quota :
  PodGroup.Annotations <$> JobInfo.PodGroup sample.Jn = Some (Some ∅) /\
  (let* fn := groupquota.OnSessionOpen lib.ParseQuantity sample.oneCPU
                sample.emptyGroupJobs in
   fn (Some sample.Jn) (Some sample.Jb)) = Returns 1 /\
  (let* fn := groupquota.OnSessionOpen lib.ParseQuantity sample.oneCPU
                sample.emptyGroupJobs in
   fn (Some sample.Jb) (Some sample.Jn)) = Returns (-1).
Proof. vm_compute. repeat split. Qed.

(** ** Panics and neutral answers *)

Lemma allocatedKnown_noNilJob (jobs : JobMap) :
  allocatedKnown jobs -> noNilJob jobs.
Proof.
  unfold allocatedKnown, noNilJob. intros Hjobs.
  eapply List.Forall_impl; [|exact Hjobs].
  intros entry (j & -> & _). discriminate.
Qed.

Lemma hasBlockingJobAhead_returns (ep : expriority.Config) (jobs : JobMap)
  (J : JobInfo.t) :
  noNilJob jobs -> exists b, expriority.hasBlockingJobAhead ep jobs J = Returns b.
Proof.
  intros Hjobs. unfold expriority.hasBlockingJobAhead.
  destruct (expriority.Blocking ep); [|eexists; reflexivity].
  destruct (blockingJobAmong_spec ep jobs J Hjobs) as (b & Hb & _).
  exists b. exact Hb.
Qed.

Lemma groupUsageOf_returns (annotationKey : string) (jobs : JobMap)
  (groupUsage : gmap string (gmap string Z)) :
  allocatedKnown jobs ->
  exists usage, groupquota.groupUsageOf annotationKey jobs groupUsage = Returns usage.
Proof.
  unfold allocatedKnown. intros Hjobs. revert groupUsage.
  induction Hjobs as [|[k entry] rest (j & Hentry & Halloc) _ IH]; intros groupUsage.
  - eexists. reflexivity.
  - simpl in Hentry. subst entry.
    cbn [groupquota.groupUsageOf]. unfold groupquota.isJobAllocated.
    cbn [deref bindRun].
    destruct (JobInfo.Allocated j) as [res|]; [|contradiction].
    cbn [deref bindRun].
    destruct (negb (negb (Resource.IsEmpty res))); [apply IH|].
    destruct (JobInfo.PodGroup j) as [pg|]; [|apply IH].
    destruct (PodGroup.Annotations pg) as [annotations|]; [|apply IH].
    destruct (annotations !! annotationKey); apply IH.
Qed.

Section Returns.

Variable ParseDuration : string -> option Z.
Variable ParseQuantity : string -> option Z.

Lemma victims_returned (ep : expriority.Config) (gate : option PrioritySelector.t)
  (jobs : JobMap) (now : Z) (T : TaskInfo.t) (V : list TaskInfo.t) :
  lookupJob jobs (TaskInfo.Job T) <> None ->
  (forall v, In v V -> lookupJob jobs (TaskInfo.Job v) <> None) ->
  exists victims,
    expriority.victimsAmong ParseDuration ep jobs gate now T
      (lookupJob jobs (TaskInfo.Job T)) (Some <$> V) []
    = Returns victims.
Proof.
  intros HT HV.
  destruct (lookupJob jobs (TaskInfo.Job T)) as [TJ|]; [|contradiction].
  rewrite victimsAmong_filter by exact HV. eexists. reflexivity.
Qed.

(** A task without pod is not timed out and has no creation time. *)
Lemma nil_pod_neutral (ep : expriority.Config) (now : Z) (task : TaskInfo.t) :
  TaskInfo.Pod task = None ->
  expriority.isTaskTimedOut ParseDuration ep (Some task) now = false /\
  expriority.getTaskCreationTime (Some task) = 0.
Proof.
  intros Hpod. unfold expriority.isTaskTimedOut, expriority.getTaskCreationTime.
  rewrite Hpod. destruct (String.eqb _ _); split; reflexivity.
Qed.

(** Without annotation map, without the annotation or without start time,
    a task is not timed out. *)
Lemma missing_annotation_neutral (ep : expriority.Config) (now : Z)
  (task : TaskInfo.t) (pod : Pod.t) :
  TaskInfo.Pod task = Some pod ->
  Pod.Annotations pod = None \/
  (exists annotations,
     Pod.Annotations pod = Some annotations /\
     annotations !! expriority.MaxRunTimeAnnotationKey ep = None) \/
  Pod.StartTime pod = None ->
  expriority.isTaskTimedOut ParseDuration ep (Some task) now = false.
Proof.
  intros Hpod Hmissing. unfold expriority.isTaskTimedOut. rewrite Hpod.
  destruct (String.eqb _ _); [reflexivity|].
  destruct Hmissing as [->|[(annotations & -> & ->)|Hstart]]; try reflexivity.
  destruct (Pod.Annotations pod) as [annotations|]; [|reflexivity].
  destruct (annotations !! _) as [value|]; [|reflexivity].
  destruct (String.eqb value ""); [reflexivity|].
  rewrite Hstart. reflexivity.
Qed.

(** A task (job) without time stamp leaves the creation-time key without
    opinion. *)
Lemma creationTime_key_tasks (rest : list string) (l r : TaskInfo.t) :
  expriority.getTaskCreationTime (Some l) = 0 \/
  expriority.getTaskCreationTime (Some r) = 0 ->
  expriority.compareTasksFrom (expriority.SortByCreationTime :: rest) l r
  = expriority.compareTasksFrom rest l r.
Proof.
  intros Hzero. cbn [expriority.compareTasksFrom].
  change (String.eqb expriority.SortByCreationTime expriority.SortByPriority)
    with false.
  change (String.eqb expriority.SortByCreationTime expriority.SortByCreationTime)
    with true.
  cbv iota. unfold time.IsZero.
  destruct Hzero as [->| ->]; simpl; [reflexivity|].
  rewrite andb_false_r. reflexivity.
Qed.

Lemma creationTime_key_jobs (rest : list string) (l r : JobInfo.t) :
  JobInfo.CreationTimestamp l = 0 \/ JobInfo.CreationTimestamp r = 0 ->
  expriority.compareJobsFrom (expriority.SortByCreationTime :: rest) l r
  = expriority.compareJobsFrom rest l r.
Proof.
  intros Hzero. cbn [expriority.compareJobsFrom].
  change (String.eqb expriority.SortByCreationTime expriority.SortByPriority)
    with false.
  change (String.eqb expriority.SortByCreationTime expriority.SortByCreationTime)
    with true.
  cbv iota. unfold time.IsZero.
  destruct Hzero as [->| ->]; simpl; [reflexivity|].
  rewrite andb_false_r. reflexivity.
Qed.

(** C6, amended.  When the jobs and tasks handed to a callback are not
    nil, every entry of the session's job map is a job with an
    allocated-resource vector, and the job of every task handed to the
    preemption and reclaim callbacks is in that map, every callback of
    ex-priority returns, and so does the session-open hook of group-quota
    with the comparator it registers; the session-open pass of
    time-priority skips nil entries.  A nil pod, a missing annotation, a
    missing start time or a zero time stamp makes the step that reads it
    neutral: the task is not timed out, the creation-time key gives no
    opinion, the waiting time is 0, and a job without pod group is in the
    group of the empty name. *)
Theorem callbacks_return
  (ep : expriority.Config) (pluginArguments : gmap string ArgValue)
  (jobs : JobMap) (now : Z) (l r : TaskInfo.t) (lj rj : JobInfo.t)
  (ls rs : SubJobInfo.t) (T : TaskInfo.t) (V : list TaskInfo.t) :
  allocatedKnown jobs ->
  lookupJob jobs (TaskInfo.Job T) <> None ->
  (forall v, In v V -> lookupJob jobs (TaskInfo.Job v) <> None) ->
  let hooks := expriority.OnSessionOpen ParseDuration ep jobs in
  (* ex-priority *)
  expriority.TaskOrderFn hooks (Some l) (Some r)
  = Returns (expriority.compareTasks ep l r) /\
  expriority.JobOrderFn hooks (Some lj) (Some rj)
  = Returns (expriority.compareJobs ep lj rj) /\
  expriority.SubJobOrderFn hooks (Some ls) (Some rs)
  = Returns (expriority.compareSubJobs ep ls rs) /\
  (forall fn, expriority.JobEnqueueableFn hooks = Some fn ->
     exists vote, fn (Some lj) = Returns vote) /\
  (forall fn, expriority.JobValidFn hooks = Some fn ->
     exists result, fn (Some lj) = Returns result) /\
  (exists victims,
     expriority.PreemptableFn hooks now (Some T) (Some <$> V)
     = Returns (victims, Permit)) /\
  (exists victims,
     expriority.ReclaimableFn hooks now (Some T) (Some <$> V)
     = Returns (victims, Permit)) /\
  (exists starving, expriority.JobStarvingFn hooks (Some lj) = Returns starving) /\
  (* group-quota *)
  (exists fn,
     groupquota.OnSessionOpen ParseQuantity pluginArguments jobs = Returns fn /\
     exists c, fn (Some lj) (Some rj) = Returns c) /\
  (* time-priority *)
  (forall tp (entries : JobMap) i k,
     entries !! i = Some (k, None) ->
     timepriority.OnSessionOpen tp now entries !! i = Some (k, None)) /\
  timepriority.getWaitingDuration None now = 0 /\
  (JobInfo.CreationTimestamp lj = 0 ->
   timepriority.getWaitingDuration (Some lj) now = 0) /\
  (* neutral answers *)
  (TaskInfo.Pod l = None ->
   expriority.isTaskTimedOut ParseDuration ep (Some l) now = false /\
   expriority.getTaskCreationTime (Some l) = 0) /\
  (forall pod,
     TaskInfo.Pod l = Some pod ->
     Pod.Annotations pod = None \/
     (exists annotations,
        Pod.Annotations pod = Some annotations /\
        annotations !! expriority.MaxRunTimeAnnotationKey ep = None) \/
     Pod.StartTime pod = None ->
     expriority.isTaskTimedOut ParseDuration ep (Some l) now = false) /\
  (forall rest,
     expriority.getTaskCreationTime (Some l) = 0 \/
     expriority.getTaskCreationTime (Some r) = 0 ->
     expriority.compareTasksFrom (expriority.SortByCreationTime :: rest) l r
     = expriority.compareTasksFrom rest l r) /\
  (forall rest,
     JobInfo.CreationTimestamp lj = 0 \/ JobInfo.CreationTimestamp rj = 0 ->
     expriority.compareJobsFrom (expriority.SortByCreationTime :: rest) lj rj
     = expriority.compareJobsFrom rest lj rj) /\
  (forall key,
     JobInfo.PodGroup lj = None ->
     groupquota.getJobGroup (Some lj) key = Returns "").
Proof.
  intros Hjobs HT HV hooks.
  pose proof (allocatedKnown_noNilJob jobs Hjobs) as Hnonil.
  destruct (hasBlockingJobAhead_returns ep jobs lj Hnonil) as (ahead & Hahead).
  repeat apply conj.
  - reflexivity.
  - reflexivity.
  - reflexivity.
  - unfold hooks, expriority.OnSessionOpen. cbn [expriority.JobEnqueueableFn].
    destruct (expriority.Blocking ep); [|discriminate].
    intros fn [= <-]. unfold expriority.jobEnqueueableFn. cbn [deref bindRun].
    destruct (PrioritySelector.Matches _ _); [eexists; reflexivity|].
    rewrite Hahead. cbn [bindRun]. destruct ahead; eexists; reflexivity.
  - unfold hooks, expriority.OnSessionOpen. cbn [expriority.JobValidFn].
    destruct (expriority.Blocking ep); [|discriminate].
    intros fn [= <-]. unfold expriority.jobValidFn. cbn [deref bindRun].
    destruct (PrioritySelector.Matches _ _); [eexists; reflexivity|].
    rewrite Hahead. cbn [bindRun]. destruct ahead; eexists; reflexivity.
  - unfold hooks, expriority.OnSessionOpen. cbn [expriority.PreemptableFn].
    unfold expriority.preemptableFn. cbn [deref bindRun].
    destruct (victims_returned ep (expriority.Preemptible ep) jobs now T V HT HV)
      as (victims & ->).
    exists victims. reflexivity.
  - unfold hooks, expriority.OnSessionOpen. cbn [expriority.ReclaimableFn].
    unfold expriority.reclaimableFn. cbn [deref bindRun].
    destruct (victims_returned ep (expriority.Reclaimable ep) jobs now T V HT HV)
      as (victims & ->).
    exists victims. reflexivity.
  - eexists. reflexivity.
  - unfold groupquota.OnSessionOpen.
    destruct (groupUsageOf_returns (groupquota.annotationKeyOf pluginArguments)
                jobs ∅ Hjobs) as (usage & ->).
    cbn [bindRun]. eexists. split; [reflexivity|].
    destruct (jobOrderFn_table (groupquota.annotationKeyOf pluginArguments)
                (groupquota.overQuotaGroupsOf usage
                   (groupquota.quotaOf ParseQuantity pluginArguments)) lj rj)
      as (lGroup & rGroup & _ & _ & ->).
    eexists. reflexivity.
  - intros tp entries i k. apply OnSessionOpen_lookup_nil.
  - reflexivity.
  - intros Hzero. unfold timepriority.getWaitingDuration, time.IsZero.
    rewrite Hzero. reflexivity.
  - apply nil_pod_neutral.
  - intros pod. apply missing_annotation_neutral.
  - intros rest. apply creationTime_key_tasks.
  - intros rest. apply creationTime_key_jobs.
  - intros key Hpg. unfold groupquota.getJobGroup. cbn [deref bindRun].
    rewrite Hpg. reflexivity.
Qed.

End Returns.

(** C6, as the code has it.  A callback panics on a candidate whose job is
    not in the session's job map, on a nil job, and on a nil entry of the
    job map. *)
Lemma callbacks_panic :
  lookupJob sample.twoJobs (TaskInfo.Job sample.stray) = None /\
  expriority.PreemptableFn
    (expriority.OnSessionOpen lib.ParseDuration sample.withMaxRunTime sample.twoJobs)
    (1 + 2 * sample.hour) (Some sample.preemptor) [Some sample.stray]
  = Panics /\
  expriority.JobOrderFn
    (expriority.OnSessionOpen lib.ParseDuration sample.withMaxRunTime sample.twoJobs)
    None (Some sample.jobA)
  = Panics /\
  expriority.jobEnqueueableFn (sample.blockingFrom100 "queue")
    (("nil", None) :: sample.threeJobs) (Some sample.jobB)
  = Panics /\
  (let* fn := groupquota.OnSessionOpen lib.ParseQuantity sample.oneCPU
                (("nil", None) :: sample.teamJobs) in
   fn (Some sample.Ja) (Some sample.Jb)) = Panics /\
  (let* fn := groupquota.OnSessionOpen lib.ParseQuantity sample.oneCPU
                sample.teamJobs in
   fn None (Some sample.Jb)) = Panics.
Proof. vm_compute. repeat split. Qed.

Lemma callbacks_return_witness :
  let ep := sample.withMaxRunTime in
  let pluginArguments := sample.oneCPU in
  let jobs := sample.twoJobs in
  let now := 1 + 2 * sample.hour in
  let l := sample.preemptor in
  let r := sample.overdue in
  let lj := sample.job "low" "q" 1 0 in
  let rj := sample.job "high" "q" 1000 1 in
  let ls := SubJobInfo.mk "s1" 1 in
  let rs := SubJobInfo.mk "s2" 2 in
  let T := sample.preemptor in
  let V := [sample.overdue; sample.onTime] in
  allocatedKnown jobs /\
  lookupJob jobs (TaskInfo.Job T) <> None /\
  (forall v, In v V -> lookupJob jobs (TaskInfo.Job v) <> None) /\
  let hooks := expriority.OnSessionOpen lib.ParseDuration ep jobs in
  (* ex-priority *)
  expriority.TaskOrderFn hooks (Some l) (Some r)
  = Returns (expriority.compareTasks ep l r) /\
  expriority.JobOrderFn hooks (Some lj) (Some rj)
  = Returns (expriority.compareJobs ep lj rj) /\
  expriority.SubJobOrderFn hooks (Some ls) (Some rs)
  = Returns (expriority.compareSubJobs ep ls rs) /\
  (forall fn, expriority.JobEnqueueableFn hooks = Some fn ->
     exists vote, fn (Some lj) = Returns vote) /\
  (forall fn, expriority.JobValidFn hooks = Some fn ->
     exists result, fn (Some lj) = Returns result) /\
  (exists victims,
     expriority.PreemptableFn hooks now (Some T) (Some <$> V)
     = Returns (victims, Permit)) /\
  (exists victims,
     expriority.ReclaimableFn hooks now (Some T) (Some <$> V)
     = Returns (victims, Permit)) /\
  (exists starving, expriority.JobStarvingFn hooks (Some lj) = Returns starving) /\
  (* group-quota *)
  (exists fn,
     groupquota.OnSessionOpen lib.ParseQuantity pluginArguments jobs = Returns fn /\
     exists c, fn (Some lj) (Some rj) = Returns c) /\
  (* time-priority *)
  (forall tp (entries : JobMap) i k,
     entries !! i = Some (k, None) ->
     timepriority.OnSessionOpen tp now entries !! i = Some (k, None)) /\
  timepriority.getWaitingDuration None now = 0 /\
  (JobInfo.CreationTimestamp lj = 0 ->
   timepriority.getWaitingDuration (Some lj) now = 0) /\
  (* neutral answers *)
  (TaskInfo.Pod l = None ->
   expriority.isTaskTimedOut lib.ParseDuration ep (Some l) now = false /\
   expriority.getTaskCreationTime (Some l) = 0) /\
  (forall pod,
     TaskInfo.Pod l = Some pod ->
     Pod.Annotations pod = None \/
     (exists annotations,
        Pod.Annotations pod = Some annotations /\
        annotations !! expriority.MaxRunTimeAnnotationKey ep = None) \/
     Pod.StartTime pod = None ->
     expriority.isTaskTimedOut lib.ParseDuration ep (Some l) now = false) /\
  (forall rest,
     expriority.getTaskCreationTime (Some l) = 0 \/
     expriority.getTaskCreationTime (Some r) = 0 ->
     expriority.compareTasksFrom (expriority.SortByCreationTime :: rest) l r
     = expriority.compareTasksFrom rest l r) /\
  (forall rest,
     JobInfo.CreationTimestamp lj = 0 \/ JobInfo.CreationTimestamp rj = 0 ->
     expriority.compareJobsFrom (expriority.SortByCreationTime :: rest) lj rj
     = expriority.compareJobsFrom rest lj rj) /\
  (forall key,
     JobInfo.PodGroup lj = None ->
     groupquota.getJobGroup (Some lj) key = Returns "").
Proof.
  intros ep pluginArguments jobs now l r lj rj ls rs T V.
  assert (Hjobs : allocatedKnown jobs).
  { repeat constructor; eexists; (split; [reflexivity | discriminate]). }
  assert (HT : lookupJob jobs (TaskInfo.Job T) <> None) by discriminate.
  assert (HV : forall v, In v V -> lookupJob jobs (TaskInfo.Job v) <> None)
    by (intros v [<-|[<-|[]]]; discriminate).
  split; [exact Hjobs|]. split; [exact HT|]. split; [exact HV|].
  apply (callbacks_return lib.ParseDuration lib.ParseQuantity ep pluginArguments
           jobs now l r lj rj ls rs T V Hjobs HT HV).
Defined.


(** * Further properties *)

(** ** The selector engine, operator by operator *)

(** [In] matches the listed priorities and [NotIn] the others. *)
Theorem in_notin_complement (values : list Z) (p : Z) :
  (PriorityExpression.Matches
     (PriorityExpression.mk PriorityExpression.OperatorIn values) p = true
   <-> In p values) /\
  (PriorityExpression.Matches
     (PriorityExpression.mk PriorityExpression.OperatorNotIn values) p = true
   <-> ~ In p values) /\
  PriorityExpression.Matches
    (PriorityExpression.mk PriorityExpression.OperatorNotIn values) p
  = negb (PriorityExpression.Matches
            (PriorityExpression.mk PriorityExpression.OperatorIn values) p).
Proof.
  unfold PriorityExpression.Matches. simpl.
  split; [apply Contains_In|]. split; [|reflexivity].
  rewrite negb_true_iff, <- not_true_iff_false, Contains_In. reflexivity.
Qed.

(** The four comparison operators read the first value only, and match
    nothing without a value; [Gte] is the complement of [Lt] and [Lte] the
    complement of [Gt]. *)
Theorem comparison_operators (v0 : Z) (rest : list Z) (p : Z) :
  let matches op values :=
    PriorityExpression.Matches (PriorityExpression.mk op values) p in
  (matches PriorityExpression.OperatorLt (v0 :: rest) = true <-> p < v0) /\
  (matches PriorityExpression.OperatorGt (v0 :: rest) = true <-> v0 < p) /\
  (matches PriorityExpression.OperatorLte (v0 :: rest) = true <-> p <= v0) /\
  (matches PriorityExpression.OperatorGte (v0 :: rest) = true <-> v0 <= p) /\
  matches PriorityExpression.OperatorGte (v0 :: rest)
  = negb (matches PriorityExpression.OperatorLt (v0 :: rest)) /\
  matches PriorityExpression.OperatorLte (v0 :: rest)
  = negb (matches PriorityExpression.OperatorGt (v0 :: rest)) /\
  matches PriorityExpression.OperatorLt [] = false /\
  matches PriorityExpression.OperatorGt [] = false /\
  matches PriorityExpression.OperatorLte [] = false /\
  matches PriorityExpression.OperatorGte [] = false.
Proof.
  unfold PriorityExpression.Matches. simpl.
  rewrite Z.ltb_lt, Z.ltb_lt, Z.leb_le, Z.leb_le.
  repeat split; try tauto; case_tests; simpl; (reflexivity || lia).
Qed.

(** An operator name outside the seven known ones (names are compared
    letter for letter) matches no priority, whatever the values. *)
Theorem unknown_operator_never_matches (op : string) (values : list Z) (p : Z) :
  ~ In op [ PriorityExpression.OperatorIn; PriorityExpression.OperatorNotIn;
            PriorityExpression.OperatorBetween; PriorityExpression.OperatorLt;
            PriorityExpression.OperatorGt; PriorityExpression.OperatorLte;
            PriorityExpression.OperatorGte ] ->
  PriorityExpression.Matches (PriorityExpression.mk op values) p = false.
Proof.
  intros Hop. unfold PriorityExpression.Matches. simpl.
  case_keys; try reflexivity; exfalso; apply Hop; subst op; simpl; auto 10.
Qed.

Lemma unknown_operator_never_matches_witness :
  ~ In "in" [ PriorityExpression.OperatorIn; PriorityExpression.OperatorNotIn;
              PriorityExpression.OperatorBetween; PriorityExpression.OperatorLt;
              PriorityExpression.OperatorGt; PriorityExpression.OperatorLte;
              PriorityExpression.OperatorGte ] /\
  PriorityExpression.Matches (PriorityExpression.mk "in" [5]) 5 = false.
Proof.
  assert (H : ~ In "in" [ PriorityExpression.OperatorIn;
                          PriorityExpression.OperatorNotIn;
                          PriorityExpression.OperatorBetween;
                          PriorityExpression.OperatorLt;
                          PriorityExpression.OperatorGt;
                          PriorityExpression.OperatorLte;
                          PriorityExpression.OperatorGte ]).
  { simpl. intros [H|[H|[H|[H|[H|[H|[H|[]]]]]]]]; discriminate H. }
  split; [exact H|].
  apply (unknown_operator_never_matches "in" [5] 5 H).
Defined.

(** [Between] reads its first two values only, whatever follows them, and
    matches nothing when given fewer than two. *)
Theorem between_arity (p : Z) :
  (forall v0 v1 rest,
     PriorityExpression.Matches
       (PriorityExpression.mk PriorityExpression.OperatorBetween (v0 :: v1 :: rest)) p
     = true
     <-> Z.min v0 v1 <= p <= Z.max v0 v1) /\
  (forall v0,
     PriorityExpression.Matches
       (PriorityExpression.mk PriorityExpression.OperatorBetween [v0]) p = false) /\
  PriorityExpression.Matches
    (PriorityExpression.mk PriorityExpression.OperatorBetween []) p = false.
Proof.
  split; [|split; reflexivity].
  intros v0 v1 rest. unfold PriorityExpression.Matches. simpl.
  destruct (Z.ltb_spec v1 v0); rewrite andb_true_iff, !Z.leb_le; lia.
Qed.

(** A selector matches with the expressions of two selectors put together
    exactly when one of the two matches; the order of the expressions of a
    selector does not matter. *)
Theorem selector_union (exprs1 exprs2 : list PriorityExpression.t) (p : Z) :
  PrioritySelector.Matches (Some (PrioritySelector.mk (exprs1 ++ exprs2))) p
  = PrioritySelector.Matches (Some (PrioritySelector.mk exprs1)) p
    || PrioritySelector.Matches (Some (PrioritySelector.mk exprs2)) p /\
  (Permutation exprs1 exprs2 ->
   PrioritySelector.Matches (Some (PrioritySelector.mk exprs1)) p
   = PrioritySelector.Matches (Some (PrioritySelector.mk exprs2)) p).
Proof.
  split.
  - apply eq_true_iff_eq. rewrite orb_true_iff, !Matches_exists. simpl. split.
    + intros (e & Hin & He). apply in_app_or in Hin.
      destruct Hin; [left | right]; exists e; auto.
    + intros [(e & Hin & He)|(e & Hin & He)]; exists e; split; auto;
        apply in_or_app; auto.
  - intros Hperm. apply eq_true_iff_eq. rewrite !Matches_exists. simpl. split.
    + intros (e & Hin & He). exists e. split; [|exact He].
      apply (Permutation_in _ Hperm), Hin.
    + intros (e & Hin & He). exists e. split; [|exact He].
      apply (Permutation_in _ (Permutation_sym Hperm)), Hin.
Qed.

(** ** time-priority: parsing and the session-open pass *)

Section Parsing.

Variable ParseDuration : string -> option Z.
Variable sortSlice :
  (timepriority.EscalationRule.t -> timepriority.EscalationRule.t -> bool) ->
  list timepriority.EscalationRule.t -> list timepriority.EscalationRule.t.

(** [sort.Slice] reorders its argument. *)
Hypothesis sortSlice_Permutation :
  forall l, Permutation (sortSlice timepriority.lessRule l) l.

Lemma Rules_In (arguments : option (list timepriority.RawRule.t))
  (r : timepriority.EscalationRule.t) :
  In r (timepriority.Rules (timepriority.New ParseDuration sortSlice arguments)) <->
  exists raw rawRule d sel,
    arguments = Some raw /\
    In rawRule raw /\
    ParseDuration (timepriority.RawRule.WaitingThreshold rawRule) = Some d /\
    0 < d /\
    timepriority.RawRule.SourcePriority rawRule = Some sel /\
    r = timepriority.EscalationRule.mk d (Some sel)
          (timepriority.RawRule.TargetPriority rawRule).
Proof.
  unfold timepriority.New, timepriority.parseArguments.
  destruct arguments as [raw|]; simpl.
  - split.
    + intros Hin. apply (Permutation_in _ (sortSlice_Permutation _)) in Hin.
      apply parseRules_In in Hin.
      destruct Hin as [[]|(x & d & sel & H)]. exists raw, x, d, sel. tauto.
    + intros (raw' & x & d & sel & [= <-] & H).
      apply (Permutation_in _ (Permutation_sym (sortSlice_Permutation _))).
      apply parseRules_In. right. exists x, d, sel. exact H.
  - split; [intros [] | intros (? & ? & ? & ? & ? & _); discriminate].
Qed.

(** The configured rules are the raw rules with a threshold that parses
    as a positive duration and with a source selector, each with the
    parsed threshold and its own selector and target; every other raw rule
    is dropped, and without a "rules" argument there is no rule. *)
Theorem configured_rules_are_the_valid_ones
  (arguments : option (list timepriority.RawRule.t))
  (r : timepriority.EscalationRule.t) :
  In r (timepriority.Rules (timepriority.New ParseDuration sortSlice arguments)) <->
  exists raw rawRule d sel,
    arguments = Some raw /\
    In rawRule raw /\
    ParseDuration (timepriority.RawRule.WaitingThreshold rawRule) = Some d /\
    0 < d /\
    timepriority.RawRule.SourcePriority rawRule = Some sel /\
    r = timepriority.EscalationRule.mk d (Some sel)
          (timepriority.RawRule.TargetPriority rawRule).
Proof. apply Rules_In. Qed.

Lemma Rules_positive (arguments : option (list timepriority.RawRule.t))
  (r : timepriority.EscalationRule.t) :
  In r (timepriority.Rules (timepriority.New ParseDuration sortSlice arguments)) ->
  0 < timepriority.EscalationRule.WaitingThreshold r.
Proof.
  intros Hin. apply Rules_In in Hin.
  destruct Hin as (raw & x & d & sel & _ & _ & _ & Hpos & _ & ->). exact Hpos.
Qed.

(** No rule applies to a job that has not waited. *)
Lemma applyRules_not_waited (rules : list timepriority.EscalationRule.t) (w : Z)
  (J : JobInfo.t) :
  (forall r, In r rules -> 0 < timepriority.EscalationRule.WaitingThreshold r) ->
  w <= 0 ->
  timepriority.applyRules rules w J = J.
Proof.
  intros Hpos Hw. induction rules as [|r rest IH]; simpl; [reflexivity|].
  pose proof (Hpos r (or_introl eq_refl)).
  destruct (Z.leb_spec (timepriority.EscalationRule.WaitingThreshold r) w); [lia|].
  apply IH. intros r' Hin. apply Hpos. right. exact Hin.
Qed.

(** A job without creation time stamp, or whose creation time stamp is
    not before [now], leaves the pass as it entered it. *)
Theorem job_not_waiting_is_kept
  (arguments : option (list timepriority.RawRule.t)) (now : Z)
  (jobs : JobMap) (i : nat) (k : string) (J : JobInfo.t) :
  jobs !! i = Some (k, Some J) ->
  JobInfo.CreationTimestamp J = 0 \/ now <= JobInfo.CreationTimestamp J ->
  timepriority.OnSessionOpen
    (timepriority.New ParseDuration sortSlice arguments) now jobs !! i
  = Some (k, Some J).
Proof.
  intros Hi Hts. rewrite (OnSessionOpen_lookup _ now jobs i k J Hi).
  rewrite applyRules_not_waited; [reflexivity | apply Rules_positive |].
  unfold timepriority.getWaitingDuration, time.IsZero, time.Sub,
    time.minDuration, time.maxDuration.
  destruct Hts as [->|Hts]; [reflexivity|]. case_tests; lia.
Qed.

(** When every raw rule is one the parsing loop drops, the pass changes
    nothing. *)
Theorem invalid_rules_change_nothing
  (raw : list timepriority.RawRule.t) (now : Z) (jobs : JobMap) :
  (forall rawRule, In rawRule raw -> dropped ParseDuration rawRule) ->
  timepriority.OnSessionOpen
    (timepriority.New ParseDuration sortSlice (Some raw)) now jobs
  = jobs.
Proof.
  intros Hdropped. unfold timepriority.OnSessionOpen.
  destruct (timepriority.Rules _) as [|r rest] eqn:Hrules; [reflexivity|].
  exfalso.
  assert (Hin : In r (timepriority.Rules
                        (timepriority.New ParseDuration sortSlice (Some raw))))
    by (rewrite Hrules; left; reflexivity).
  apply Rules_In in Hin.
  destruct Hin as (raw' & x & d & sel & [= <-] & Hx & Hd & Hpos & Hsel & _).
  destruct (Hdropped x Hx) as [Hnone|[(d' & Hd' & Hle)|Hnosel]]; try congruence.
  rewrite Hd in Hd'. injection Hd' as <-. lia.
Qed.

End Parsing.

Lemma configured_rules_are_the_valid_ones_witness :
  (forall l, Permutation (lib.sortSlice timepriority.lessRule l) l) /\
  (In (timepriority.EscalationRule.mk (10 * sample.minute) sample.lowRange 100)
      (timepriority.Rules (sample.timePriority sample.ladder)) <->
   exists raw rawRule d sel,
     Some sample.ladder = Some raw /\
     In rawRule raw /\
     lib.ParseDuration (timepriority.RawRule.WaitingThreshold rawRule) = Some d /\
     0 < d /\
     timepriority.RawRule.SourcePriority rawRule = Some sel /\
     timepriority.EscalationRule.mk (10 * sample.minute) sample.lowRange 100
     = timepriority.EscalationRule.mk d (Some sel)
         (timepriority.RawRule.TargetPriority rawRule)).
Proof.
  split; [exact (lib_sortSlice_Permutation timepriority.lessRule)|].
  apply (configured_rules_are_the_valid_ones lib.ParseDuration (@lib.sortSlice _)
           (lib_sortSlice_Permutation timepriority.lessRule)
           (Some sample.ladder)).
Defined.

Lemma job_not_waiting_is_kept_witness :
  let jobs : JobMap := [("j", Some (sample.job "j" "q" 10 0))] in
  (forall l, Permutation (lib.sortSlice timepriority.lessRule l) l) /\
  jobs !! 0%nat = Some ("j", Some (sample.job "j" "q" 10 0)) /\
  (JobInfo.CreationTimestamp (sample.job "j" "q" 10 0) = 0 \/
   sample.hour <= JobInfo.CreationTimestamp (sample.job "j" "q" 10 0)) /\
  timepriority.OnSessionOpen (sample.timePriority sample.ladder) sample.hour jobs
    !! 0%nat
  = Some ("j", Some (sample.job "j" "q" 10 0)).
Proof.
  intros jobs.
  split; [exact (lib_sortSlice_Permutation timepriority.lessRule)|].
  split; [reflexivity|]. split; [left; reflexivity|].
  apply (job_not_waiting_is_kept lib.ParseDuration (@lib.sortSlice _)
           (lib_sortSlice_Permutation timepriority.lessRule)
           (Some sample.ladder) sample.hour jobs 0%nat "j"
           (sample.job "j" "q" 10 0) eq_refl (or_introl eq_refl)).
Defined.

Lemma more_invalidRules_dropped (rawRule : timepriority.RawRule.t) :
  In rawRule more.invalidRules -> dropped lib.ParseDuration rawRule.
Proof.
  intros [<-|[<-|[<-|[]]]]; unfold dropped.
  - left. reflexivity.
  - right. left. eexists. split; [reflexivity|]. vm_compute. discriminate.
  - right. right. reflexivity.
Qed.

Lemma invalid_rules_change_nothing_witness :
  let jobs : JobMap := [("j", Some (sample.job "j" "q" 10 1))] in
  (forall l, Permutation (lib.sortSlice timepriority.lessRule l) l) /\
  (forall rawRule, In rawRule more.invalidRules -> dropped lib.ParseDuration rawRule) /\
  timepriority.OnSessionOpen (sample.timePriority more.invalidRules)
    (1 + sample.hour) jobs
  = jobs.
Proof.
  intros jobs.
  split; [exact (lib_sortSlice_Permutation timepriority.lessRule)|].
  split; [exact more_invalidRules_dropped|].
  apply (invalid_rules_change_nothing lib.ParseDuration (@lib.sortSlice _)
           (lib_sortSlice_Permutation timepriority.lessRule)
           more.invalidRules (1 + sample.hour) jobs more_invalidRules_dropped).
Defined.

(** The inner loop either leaves the job alone or applies one rule whose
    threshold is reached and whose source matches. *)
Lemma applyRules_cases (rules : list timepriority.EscalationRule.t) (w : Z)
  (J : JobInfo.t) :
  timepriority.applyRules rules w J = J \/
  exists r,
    In r rules /\
    timepriority.EscalationRule.WaitingThreshold r <= w /\
    PrioritySelector.Matches (timepriority.EscalationRule.SourcePriority r)
      (JobInfo.Priority J) = true /\
    timepriority.applyRules rules w J
    = JobInfo.setPriority J (timepriority.EscalationRule.TargetPriority r).
Proof.
  induction rules as [|r rest IH]; simpl; [left; reflexivity|].
  assert (Hrest :
    timepriority.applyRules rest w J = J \/
    exists r0,
      (r = r0 \/ In r0 rest) /\
      timepriority.EscalationRule.WaitingThreshold r0 <= w /\
      PrioritySelector.Matches (timepriority.EscalationRule.SourcePriority r0)
        (JobInfo.Priority J) = true /\
      timepriority.applyRules rest w J
      = JobInfo.setPriority J (timepriority.EscalationRule.TargetPriority r0)).
  { destruct IH as [?|(r0 & ? & ?)]; [left; assumption|].
    right. exists r0. tauto. }
  destruct (Z.leb_spec (timepriority.EscalationRule.WaitingThreshold r) w);
    [|exact Hrest].
  destruct (PrioritySelector.Matches _ _) eqn:Hm; [|exact Hrest].
  right. exists r. auto.
Qed.

Lemma applyRules_no_source (rules : list timepriority.EscalationRule.t) (w : Z)
  (J : JobInfo.t) :
  (forall r, In r rules ->
     PrioritySelector.Matches (timepriority.EscalationRule.SourcePriority r)
       (JobInfo.Priority J) = false) ->
  timepriority.applyRules rules w J = J.
Proof.
  intros Hnone. induction rules as [|r rest IH]; simpl; [reflexivity|].
  rewrite (Hnone r (or_introl eq_refl)).
  destruct (_ <=? _); apply IH; intros r' Hin; apply Hnone; right; exact Hin.
Qed.

Lemma setPriority_same (J : JobInfo.t) :
  JobInfo.setPriority J (JobInfo.Priority J) = J.
Proof. destruct J. reflexivity. Qed.

(** The pass keeps the job map in shape: the same keys in the same order,
    nil entries left nil, and of a job nothing but the priority changed,
    which is kept or becomes the target of a rule whose threshold the job
    has waited and whose source matches the priority it had. *)
Theorem session_open_keeps_shape (tp : timepriority.Config) (now : Z)
  (jobs : JobMap) :
  length (timepriority.OnSessionOpen tp now jobs) = length jobs /\
  fst <$> timepriority.OnSessionOpen tp now jobs = fst <$> jobs /\
  (forall i k,
     jobs !! i = Some (k, None) ->
     timepriority.OnSessionOpen tp now jobs !! i = Some (k, None)) /\
  (forall i k J,
     jobs !! i = Some (k, Some J) ->
     exists p,
       timepriority.OnSessionOpen tp now jobs !! i
       = Some (k, Some (JobInfo.setPriority J p)) /\
       (p = JobInfo.Priority J \/
        exists r,
          In r (timepriority.Rules tp) /\
          timepriority.EscalationRule.WaitingThreshold r
          <= timepriority.getWaitingDuration (Some J) now /\
          PrioritySelector.Matches (timepriority.EscalationRule.SourcePriority r)
            (JobInfo.Priority J) = true /\
          p = timepriority.EscalationRule.TargetPriority r)).
Proof.
  split; [|split; [|split]].
  - unfold timepriority.OnSessionOpen.
    destruct (timepriority.Rules tp); [reflexivity | apply length_fmap].
  - unfold timepriority.OnSessionOpen.
    destruct (timepriority.Rules tp); [reflexivity|].
    rewrite <- list_fmap_compose. apply list_fmap_ext. intros i [k oj] _. reflexivity.
  - intros i k. apply OnSessionOpen_lookup_nil.
  - intros i k J Hi. rewrite (OnSessionOpen_lookup tp now jobs i k J Hi).
    destruct (applyRules_cases (timepriority.Rules tp)
                (timepriority.getWaitingDuration (Some J) now) J)
      as [->|(r & Hin & Hthr & Hm & ->)].
    + exists (JobInfo.Priority J). rewrite setPriority_same. auto.
    + exists (timepriority.EscalationRule.TargetPriority r). split; [reflexivity|].
      right. exists r. auto.
Qed.

Lemma escalate_twice (tp : timepriority.Config) (now : Z)
  (entry : option JobInfo.t) :
  targetsOutOfReach (timepriority.Rules tp) ->
  timepriority.escalate tp now (timepriority.escalate tp now entry)
  = timepriority.escalate tp now entry.
Proof.
  intros Hout. destruct entry as [J|]; [|reflexivity].
  unfold timepriority.escalate. f_equal.
  destruct (applyRules_cases (timepriority.Rules tp)
              (timepriority.getWaitingDuration (Some J) now) J)
    as [Hsame|(r & Hin & _ & _ & Heq)].
  - rewrite Hsame. exact Hsame.
  - rewrite Heq. apply applyRules_no_source.
    intros r' Hin'. apply (Hout r r' Hin Hin').
Qed.

(** When no source selector matches a target, running the pass a second
    time at the same instant changes nothing more. *)
Theorem session_open_idempotent (tp : timepriority.Config) (now : Z)
  (jobs : JobMap) :
  targetsOutOfReach (timepriority.Rules tp) ->
  timepriority.OnSessionOpen tp now (timepriority.OnSessionOpen tp now jobs)
  = timepriority.OnSessionOpen tp now jobs.
Proof.
  intros Hout. unfold timepriority.OnSessionOpen.
  destruct (timepriority.Rules tp) as [|r rest] eqn:Hrules; [reflexivity|].
  rewrite <- list_fmap_compose. apply list_fmap_ext.
  intros i [k entry] _. simpl. f_equal.
  apply escalate_twice. rewrite Hrules. exact Hout.
Qed.

Lemma ladder_targetsOutOfReach :
  targetsOutOfReach (timepriority.Rules (sample.timePriority sample.ladder)).
Proof.
  rewrite ladder_rules. intros r r' [<-|[<-|[]]] [<-|[<-|[]]]; reflexivity.
Qed.

Lemma session_open_idempotent_witness :
  let tp := sample.timePriority sample.ladder in
  let jobs : JobMap := [("j", Some (sample.job "j" "q" 10 1))] in
  let now := 1 + 15 * sample.minute in
  targetsOutOfReach (timepriority.Rules tp) /\
  timepriority.OnSessionOpen tp now (timepriority.OnSessionOpen tp now jobs)
  = timepriority.OnSessionOpen tp now jobs.
Proof.
  intros tp jobs now. split; [exact ladder_targetsOutOfReach|].
  apply (session_open_idempotent tp now jobs ladder_targetsOutOfReach).
Defined.

(** ** ex-priority: configuration and head-of-line blocking *)

(** Whatever the arguments, the parsed blocking scope is "cluster" or
    "queue", and it is "cluster" only when asked for; the sort order
    defaults to the priority alone; and with no annotation key for the
    maximal run time, no task is ever timed out. *)
Theorem parsed_config_defaults (arguments : expriority.Arguments) :
  let ep := expriority.New arguments in
  (expriority.BlockingScope ep = expriority.BlockingScopeCluster \/
   expriority.BlockingScope ep = expriority.BlockingScopeQueue) /\
  (expriority.BlockingScope ep = expriority.BlockingScopeCluster <->
   expriority.argBlockingScope arguments = Some expriority.BlockingScopeCluster) /\
  (expriority.argSortOrder arguments = None ->
   expriority.SortOrder ep = [expriority.SortByPriority]) /\
  (expriority.argMaxRunTimeAnnotationKey arguments = None ->
   forall ParseDuration task now,
     expriority.isTaskTimedOut ParseDuration ep task now = false).
Proof.
  destruct arguments as [so pre rec blk scope key]. simpl.
  repeat apply conj.
  - destruct scope as [s|]; [|right; reflexivity].
    destruct (String.eqb_spec s expriority.BlockingScopeCluster) as [->|];
      [left; reflexivity|].
    destruct (String.eqb_spec s expriority.BlockingScopeQueue) as [->|];
      right; reflexivity.
  - destruct scope as [s|]; [|discriminate].
    destruct (String.eqb_spec s expriority.BlockingScopeCluster) as [->|Hs];
      [simpl; intros _; reflexivity|].
    destruct (String.eqb_spec s expriority.BlockingScopeQueue) as [->|];
      simpl; discriminate.
  - destruct scope as [s|]; [|discriminate].
    intros [= ->]. reflexivity.
  - intros ->. reflexivity.
  - intros -> ParseDuration task now. reflexivity.
Qed.

Section MoreBlocking.

Variable ParseDuration : string -> option Z.

(** With blocking configured, the allocation-time hook and the enqueue
    hook agree on every job: the one fails the job, with the reason
    "blocked by higher priority job", exactly when the other rejects it. *)
Theorem valid_agrees_with_enqueue
  (ep : expriority.Config) (jobs : JobMap) (sel : PrioritySelector.t)
  (J : JobInfo.t) :
  expriority.Blocking ep = Some sel ->
  noNilJob jobs ->
  let hooks := expriority.OnSessionOpen ParseDuration ep jobs in
  exists enqueue valid vote result,
    expriority.JobEnqueueableFn hooks = Some enqueue /\
    expriority.JobValidFn hooks = Some valid /\
    enqueue (Some J) = Returns vote /\
    valid (Some J) = Returns result /\
    (vote = Reject <-> result <> None) /\
    (forall v, result = Some v ->
       ValidateResult.Pass v = false /\
       ValidateResult.Reason v = "blocked by higher priority job").
Proof.
  intros Hsel Hjobs hooks.
  destruct (hasBlockingJobAhead_returns ep jobs J Hjobs) as (ahead & Hahead).
  unfold hooks, expriority.OnSessionOpen.
  cbn [expriority.JobEnqueueableFn expriority.JobValidFn]. rewrite Hsel.
  exists (expriority.jobEnqueueableFn ep jobs), (expriority.jobValidFn ep jobs).
  unfold expriority.jobEnqueueableFn, expriority.jobValidFn.
  cbn [deref bindRun]. rewrite Hahead. cbn [bindRun].
  destruct (PrioritySelector.Matches (expriority.Blocking ep) (JobInfo.Priority J));
    [|destruct ahead]; eexists _, _;
    (split; [reflexivity|]); (split; [reflexivity|]);
    (split; [reflexivity|]); (split; [reflexivity|]).
  - split; [split; [discriminate | intros H; exfalso; apply H; reflexivity]|].
    intros v [=].
  - split; [split; [discriminate | reflexivity]|].
    intros v [= <-]. split; reflexivity.
  - split; [split; [discriminate | intros H; exfalso; apply H; reflexivity]|].
    intros v [=].
Qed.

End MoreBlocking.

Lemma valid_agrees_with_enqueue_witness :
  let ep := sample.blockingFrom100 "queue" in
  let jobs := sample.threeJobs in
  let J := sample.jobB in
  let sel := PrioritySelector.mk
               [PriorityExpression.mk PriorityExpression.OperatorGte [100]] in
  expriority.Blocking ep = Some sel /\
  noNilJob jobs /\
  let hooks := expriority.OnSessionOpen lib.ParseDuration ep jobs in
  exists enqueue valid vote result,
    expriority.JobEnqueueableFn hooks = Some enqueue /\
    expriority.JobValidFn hooks = Some valid /\
    enqueue (Some J) = Returns vote /\
    valid (Some J) = Returns result /\
    (vote = Reject <-> result <> None) /\
    (forall v, result = Some v ->
       ValidateResult.Pass v = false /\
       ValidateResult.Reason v = "blocked by higher priority job").
Proof.
  intros ep jobs J sel.
  assert (Hjobs : noNilJob jobs) by (repeat constructor; discriminate).
  split; [reflexivity|]. split; [exact Hjobs|].
  apply (valid_agrees_with_enqueue lib.ParseDuration ep jobs sel J eq_refl Hjobs).
Defined.

(** A job that a configuration finds blocked is blocked as well under the
    same blocking selector in cluster scope: the queue scope only removes
    blockers. *)
Theorem blocked_in_queue_blocked_in_cluster
  (ep ep' : expriority.Config) (jobs : JobMap) (J : JobInfo.t) :
  expriority.Blocking ep' = expriority.Blocking ep ->
  expriority.BlockingScope ep' <> expriority.BlockingScopeQueue ->
  noNilJob jobs ->
  expriority.hasBlockingJobAhead ep jobs J = Returns true ->
  expriority.hasBlockingJobAhead ep' jobs J = Returns true.
Proof.
  intros Hsame Hscope Hjobs. unfold expriority.hasBlockingJobAhead.
  rewrite Hsame. destruct (expriority.Blocking ep) eqn:Hblocking; [|discriminate].
  destruct (blockingJobAmong_spec ep jobs J Hjobs) as (b & -> & Hiff).
  destruct (blockingJobAmong_spec ep' jobs J Hjobs) as (b' & -> & Hiff').
  intros [= ->]. f_equal. apply Hiff'.
  destruct (proj1 Hiff eq_refl) as (k & other & Hin & Hp & Hu & Hm & Hlt & _).
  exists k, other. split; [exact Hin|]. unfold blocksAhead.
  rewrite Hsame.
  rewrite Hblocking in Hm.
  split; [exact Hp|]. split; [exact Hu|]. split; [exact Hm|]. split; [exact Hlt|].
  intros Hq. contradiction.
Qed.

Lemma blocked_in_queue_blocked_in_cluster_witness :
  let ep := sample.blockingFrom100 "queue" in
  let ep' := sample.blockingFrom100 "cluster" in
  expriority.Blocking ep' = expriority.Blocking ep /\
  expriority.BlockingScope ep' <> expriority.BlockingScopeQueue /\
  noNilJob sample.threeJobs /\
  expriority.hasBlockingJobAhead ep sample.threeJobs sample.jobB = Returns true /\
  expriority.hasBlockingJobAhead ep' sample.threeJobs sample.jobB = Returns true.
Proof.
  intros ep ep'.
  assert (Hjobs : noNilJob sample.threeJobs) by (repeat constructor; discriminate).
  assert (Hscope : expriority.BlockingScope ep' <> expriority.BlockingScopeQueue)
    by discriminate.
  split; [reflexivity|]. split; [exact Hscope|]. split; [exact Hjobs|].
  split; [reflexivity|].
  apply (blocked_in_queue_blocked_in_cluster ep ep' sample.threeJobs sample.jobB
           eq_refl Hscope Hjobs eq_refl).
Defined.

(** A job whose priority no pending job of the session exceeds is never
    rejected at enqueue time nor failed at allocation time. *)
Theorem unsurpassed_job_not_blocked
  (ep : expriority.Config) (jobs : JobMap) (J : JobInfo.t) :
  noNilJob jobs ->
  (forall k other,
     In (k, Some other) jobs -> JobInfo.Pending other = true ->
     JobInfo.Priority other <= JobInfo.Priority J) ->
  (expriority.jobEnqueueableFn ep jobs (Some J) = Returns Permit \/
   expriority.jobEnqueueableFn ep jobs (Some J) = Returns Abstain) /\
  expriority.jobValidFn ep jobs (Some J) = Returns None.
Proof.
  intros Hjobs Htop.
  assert (Hahead : expriority.hasBlockingJobAhead ep jobs J = Returns false).
  { unfold expriority.hasBlockingJobAhead.
    destruct (expriority.Blocking ep); [|reflexivity].
    destruct (blockingJobAmong_spec ep jobs J Hjobs) as (b & -> & Hiff).
    f_equal. destruct b; [|reflexivity]. exfalso.
    destruct (proj1 Hiff eq_refl) as (k & other & Hin & Hp & _ & _ & Hlt & _).
    specialize (Htop k other Hin Hp). lia. }
  unfold expriority.jobEnqueueableFn, expriority.jobValidFn.
  cbn [deref bindRun]. rewrite Hahead. cbn [bindRun].
  destruct (PrioritySelector.Matches _ _); split; auto.
Qed.

Lemma unsurpassed_job_not_blocked_witness :
  let ep := sample.blockingFrom100 "cluster" in
  noNilJob sample.threeJobs /\
  (forall k other,
     In (k, Some other) sample.threeJobs -> JobInfo.Pending other = true ->
     JobInfo.Priority other <= JobInfo.Priority sample.jobA) /\
  (expriority.jobEnqueueableFn ep sample.threeJobs (Some sample.jobA) = Returns Permit \/
   expriority.jobEnqueueableFn ep sample.threeJobs (Some sample.jobA) = Returns Abstain) /\
  expriority.jobValidFn ep sample.threeJobs (Some sample.jobA) = Returns None.
Proof.
  intros ep.
  assert (Hjobs : noNilJob sample.threeJobs) by (repeat constructor; discriminate).
  assert (Htop : forall k other,
            In (k, Some other) sample.threeJobs -> JobInfo.Pending other = true ->
            JobInfo.Priority other <= JobInfo.Priority sample.jobA).
  { intros k other [[= <- <-]|[[= <- <-]|[[= <- <-]|[]]]] _; simpl; lia. }
  split; [exact Hjobs|]. split; [exact Htop|].
  apply (unsurpassed_job_not_blocked ep sample.threeJobs sample.jobA Hjobs Htop).
Defined.

(** ** ex-priority: reclaim, and victims over time *)

Section Reclaim.

Variable ParseDuration : string -> option Z.
Hypothesis ParseDuration_empty : ParseDuration "" = None.

(** For a reclaimer T and candidates V whose jobs are all in the session,
    the reclaim callback returns [Permit] with victims taken from V in the
    order of V; a candidate is among them exactly when it is eligible
    under the reclaimable selector: timed out, or else matched by the
    selector (when set) and of strictly lower job priority (task priority,
    within the job of T). *)
Theorem reclaimable_victims_eligible
  (ep : expriority.Config) (jobs : JobMap) (now : Z) (T : TaskInfo.t)
  (V : list TaskInfo.t) :
  lookupJob jobs (TaskInfo.Job T) <> None ->
  (forall v, In v V -> lookupJob jobs (TaskInfo.Job v) <> None) ->
  exists victims,
    expriority.ReclaimableFn (expriority.OnSessionOpen ParseDuration ep jobs)
      now (Some T) (Some <$> V)
    = Returns (Some <$> victims, Permit) /\
    sublist victims V /\
    (forall v,
       In v victims <->
       In v V /\
       eligibleVictim ParseDuration ep (expriority.Reclaimable ep) jobs now T v).
Proof.
  intros HT HV.
  destruct (lookupJob jobs (TaskInfo.Job T)) as [TJ|] eqn:HTJ; [|contradiction].
  exists (keptVictims ParseDuration ep (expriority.Reclaimable ep) jobs now T TJ V).
  split; [|split].
  - unfold expriority.OnSessionOpen. cbn [expriority.ReclaimableFn].
    unfold expriority.reclaimableFn. cbn [deref bindRun]. rewrite HTJ.
    rewrite victimsAmong_filter by exact HV. reflexivity.
  - apply keptVictims_sublist.
  - intros v. unfold keptVictims. rewrite filter_In. split.
    + intros [Hin Hkeep]. split; [exact Hin|].
      destruct (lookupJob jobs (TaskInfo.Job v)) as [VJ|] eqn:HVJ; [|discriminate].
      apply (keepsVictim_spec ParseDuration ParseDuration_empty ep _ jobs now T v
               TJ VJ HTJ HVJ), Hkeep.
    + intros [Hin Hel]. split; [exact Hin|].
      destruct (lookupJob jobs (TaskInfo.Job v)) as [VJ|] eqn:HVJ;
        [|exfalso; exact (HV v Hin HVJ)].
      apply (keepsVictim_spec ParseDuration ParseDuration_empty ep _ jobs now T v
               TJ VJ HTJ HVJ), Hel.
Qed.

End Reclaim.

Lemma reclaimable_victims_eligible_witness :
  let ep := more2.withReclaimable in
  let jobs := sample.twoJobs in
  let now := 1 + 2 * sample.hour in
  let T := sample.preemptor in
  let V := [sample.overdue; sample.onTime] in
  lib.ParseDuration "" = None /\
  lookupJob jobs (TaskInfo.Job T) <> None /\
  (forall v, In v V -> lookupJob jobs (TaskInfo.Job v) <> None) /\
  exists victims,
    expriority.ReclaimableFn (expriority.OnSessionOpen lib.ParseDuration ep jobs)
      now (Some T) (Some <$> V)
    = Returns (Some <$> victims, Permit) /\
    sublist victims V /\
    (forall v,
       In v victims <->
       In v V /\
       eligibleVictim lib.ParseDuration ep (expriority.Reclaimable ep) jobs now T v).
Proof.
  intros ep jobs now T V.
  assert (HT : lookupJob jobs (TaskInfo.Job T) <> None) by discriminate.
  assert (HV : forall v, In v V -> lookupJob jobs (TaskInfo.Job v) <> None)
    by (intros v [<-|[<-|[]]]; discriminate).
  split; [reflexivity|]. split; [exact HT|]. split; [exact HV|].
  apply (reclaimable_victims_eligible lib.ParseDuration eq_refl ep jobs now T V HT HV).
Defined.

(** Once timed out, a task stays timed out. *)
Lemma isTaskTimedOut_later (ParseDuration : string -> option Z)
  (ep : expriority.Config) (task : option TaskInfo.t) (now now' : Z) :
  now <= now' ->
  expriority.isTaskTimedOut ParseDuration ep task now = true ->
  expriority.isTaskTimedOut ParseDuration ep task now' = true.
Proof.
  intros Hnow. unfold expriority.isTaskTimedOut, time.After, time.Add.
  destruct (String.eqb _ ""); [discriminate|].
  destruct task as [tk|]; [|discriminate].
  destruct (TaskInfo.Pod tk) as [pod|]; [|discriminate].
  destruct (Pod.Annotations pod) as [annotations|]; [|discriminate].
  destruct (annotations !! _) as [value|]; [|discriminate].
  destruct (String.eqb value ""); [discriminate|].
  destruct (Pod.StartTime pod) as [startTime|]; [|discriminate].
  destruct (ParseDuration value) as [d|]; [|discriminate].
  destruct (d <=? 0); [discriminate|].
  case_tests; simpl; intros; (reflexivity || lia || discriminate).
Qed.

Lemma filter_sublist_implied {A : Type} (f g : A -> bool) (l : list A) :
  (forall x, f x = true -> g x = true) ->
  sublist (List.filter f l) (List.filter g l).
Proof.
  intros Himp. induction l as [|x rest IH]; simpl; [constructor|].
  destruct (f x) eqn:Hf.
  - rewrite (Himp x Hf). constructor. exact IH.
  - destruct (g x); [constructor|]; exact IH.
Qed.

Lemma keptVictims_later (ParseDuration : string -> option Z)
  (ep : expriority.Config) (gate : option PrioritySelector.t) (jobs : JobMap)
  (now now' : Z) (T : TaskInfo.t) (TJ : JobInfo.t) (V : list TaskInfo.t) :
  now <= now' ->
  sublist (keptVictims ParseDuration ep gate jobs now T TJ V)
          (keptVictims ParseDuration ep gate jobs now' T TJ V).
Proof.
  intros Hnow. apply filter_sublist_implied. intros c.
  destruct (lookupJob jobs (TaskInfo.Job c)) as [cj|]; [|discriminate].
  unfold keepsVictim. rewrite !orb_true_iff.
  intros [Hto|Hrest]; [left|right; exact Hrest].
  apply (isTaskTimedOut_later ParseDuration ep (Some c) now now' Hnow Hto).
Qed.

(** Time only adds victims: the victims the preemption (reclaim) callback
    returns at an instant are among those it returns, for the same actor
    and candidates, at any later instant. *)
Theorem victims_grow_with_time (ParseDuration : string -> option Z)
  (ep : expriority.Config) (jobs : JobMap) (now now' : Z) (T : TaskInfo.t)
  (V : list TaskInfo.t) :
  now <= now' ->
  lookupJob jobs (TaskInfo.Job T) <> None ->
  (forall v, In v V -> lookupJob jobs (TaskInfo.Job v) <> None) ->
  let hooks := expriority.OnSessionOpen ParseDuration ep jobs in
  (exists victims victims',
     expriority.PreemptableFn hooks now (Some T) (Some <$> V)
     = Returns (Some <$> victims, Permit) /\
     expriority.PreemptableFn hooks now' (Some T) (Some <$> V)
     = Returns (Some <$> victims', Permit) /\
     sublist victims victims') /\
  (exists victims victims',
     expriority.ReclaimableFn hooks now (Some T) (Some <$> V)
     = Returns (Some <$> victims, Permit) /\
     expriority.ReclaimableFn hooks now' (Some T) (Some <$> V)
     = Returns (Some <$> victims', Permit) /\
     sublist victims victims').
Proof.
  intros Hnow HT HV hooks.
  destruct (lookupJob jobs (TaskInfo.Job T)) as [TJ|] eqn:HTJ; [|contradiction].
  unfold hooks, expriority.OnSessionOpen.
  cbn [expriority.PreemptableFn expriority.ReclaimableFn].
  unfold expriority.preemptableFn, expriority.reclaimableFn.
  cbn [deref bindRun]. rewrite HTJ.
  rewrite !victimsAmong_filter by exact HV. cbn [bindRun app].
  split; eexists _, _; (split; [reflexivity|]); (split; [reflexivity|]);
    apply keptVictims_later, Hnow.
Qed.

Lemma victims_grow_with_time_witness :
  let ep := sample.withMaxRunTime in
  let jobs := sample.twoJobs in
  let now := 1 + sample.hour in
  let now' := 1 + 2 * sample.hour in
  let T := sample.preemptor in
  let V := [sample.overdue; sample.onTime] in
  now <= now' /\
  lookupJob jobs (TaskInfo.Job T) <> None /\
  (forall v, In v V -> lookupJob jobs (TaskInfo.Job v) <> None) /\
  let hooks := expriority.OnSessionOpen lib.ParseDuration ep jobs in
  (exists victims victims',
     expriority.PreemptableFn hooks now (Some T) (Some <$> V)
     = Returns (Some <$> victims, Permit) /\
     expriority.PreemptableFn hooks now' (Some T) (Some <$> V)
     = Returns (Some <$> victims', Permit) /\
     sublist victims victims') /\
  (exists victims victims',
     expriority.ReclaimableFn hooks now (Some T) (Some <$> V)
     = Returns (Some <$> victims, Permit) /\
     expriority.ReclaimableFn hooks now' (Some T) (Some <$> V)
     = Returns (Some <$> victims', Permit) /\
     sublist victims victims').
Proof.
  intros ep jobs now now' T V.
  assert (Hnow : now <= now') by (vm_compute; discriminate).
  assert (HT : lookupJob jobs (TaskInfo.Job T) <> None) by discriminate.
  assert (HV : forall v, In v V -> lookupJob jobs (TaskInfo.Job v) <> None)
    by (intros v [<-|[<-|[]]]; discriminate).
  split; [exact Hnow|]. split; [exact HT|]. split; [exact HV|].
  apply (victims_grow_with_time lib.ParseDuration ep jobs now now' T V Hnow HT HV).
Defined.

(** ** ex-priority: the comparators as orders *)

Ltac case_tests_everywhere :=
  repeat match goal with
  | H : context [?a <? ?b] |- _ => destruct (Z.ltb_spec a b)
  | H : context [?a =? ?b] |- _ => destruct (Z.eqb_spec a b)
  | |- context [?a <? ?b] => destruct (Z.ltb_spec a b)
  | |- context [?a =? ?b] => destruct (Z.eqb_spec a b)
  end.

Lemma compareJobsFrom_trans (orders : list string) (a b c : JobInfo.t) :
  JobInfo.CreationTimestamp a <> 0 ->
  JobInfo.CreationTimestamp b <> 0 ->
  JobInfo.CreationTimestamp c <> 0 ->
  expriority.compareJobsFrom orders a b = -1 ->
  expriority.compareJobsFrom orders b c = -1 ->
  expriority.compareJobsFrom orders a c = -1.
Proof.
  intros Ha Hb Hc.
  induction orders as [|order rest IH]; simpl; [discriminate|].
  unfold time.IsZero, time.Before.
  destruct (String.eqb order expriority.SortByPriority).
  - intros Hab Hbc. case_tests_everywhere; simpl in *;
      try lia; try discriminate; auto.
  - destruct (String.eqb order expriority.SortByCreationTime); [|exact IH].
    intros Hab Hbc. case_tests_everywhere; simpl in *;
      try lia; try discriminate; try contradiction; auto.
Qed.

(** On jobs that all have a creation time stamp, the job comparator is
    transitive, for every sort order. *)
Theorem compareJobs_transitive (ep : expriority.Config) (a b c : JobInfo.t) :
  JobInfo.CreationTimestamp a <> 0 ->
  JobInfo.CreationTimestamp b <> 0 ->
  JobInfo.CreationTimestamp c <> 0 ->
  expriority.compareJobs ep a b = -1 ->
  expriority.compareJobs ep b c = -1 ->
  expriority.compareJobs ep a c = -1.
Proof. apply compareJobsFrom_trans. Qed.

Lemma compareJobs_transitive_witness :
  let ep := more2.byTimeThenPriority in
  let a := sample.job "a" "q" 1 1 in
  let b := sample.job "b" "q" 5 2 in
  let c := sample.job "c" "q" 3 2 in
  JobInfo.CreationTimestamp a <> 0 /\
  JobInfo.CreationTimestamp b <> 0 /\
  JobInfo.CreationTimestamp c <> 0 /\
  expriority.compareJobs ep a b = -1 /\
  expriority.compareJobs ep b c = -1 /\
  expriority.compareJobs ep a c = -1.
Proof.
  intros ep a b c.
  assert (Ha : JobInfo.CreationTimestamp a <> 0) by discriminate.
  assert (Hb : JobInfo.CreationTimestamp b <> 0) by discriminate.
  assert (Hc : JobInfo.CreationTimestamp c <> 0) by discriminate.
  split; [exact Ha|]. split; [exact Hb|]. split; [exact Hc|].
  split; [reflexivity|]. split; [reflexivity|].
  apply (compareJobs_transitive ep a b c Ha Hb Hc eq_refl eq_refl).
Defined.

Lemma compareTasksFrom_trans (orders : list string) (a b c : TaskInfo.t) :
  expriority.getTaskCreationTime (Some a) <> 0 ->
  expriority.getTaskCreationTime (Some b) <> 0 ->
  expriority.getTaskCreationTime (Some c) <> 0 ->
  expriority.compareTasksFrom orders a b = -1 ->
  expriority.compareTasksFrom orders b c = -1 ->
  expriority.compareTasksFrom orders a c = -1.
Proof.
  intros Ha Hb Hc.
  induction orders as [|order rest IH]; [discriminate|].
  cbn [expriority.compareTasksFrom].
  remember (expriority.getTaskCreationTime (Some a)) as ta.
  remember (expriority.getTaskCreationTime (Some b)) as tb.
  remember (expriority.getTaskCreationTime (Some c)) as tc.
  unfold time.IsZero, time.Before, time.Equal.
  destruct (String.eqb order expriority.SortByPriority).
  - intros Hab Hbc. case_tests_everywhere; simpl in *;
      try lia; try discriminate; auto.
  - destruct (String.eqb order expriority.SortByCreationTime); [|exact IH].
    intros Hab Hbc. case_tests_everywhere; simpl in *;
      try lia; try discriminate; try contradiction; auto.
Qed.

(** On tasks whose time, as [getTaskCreationTime] reads it (the start time
    of the pod when it has one, its creation time stamp otherwise), is not
    the zero time, the task comparator is transitive, for every sort
    order.  A pod whose start time is set to the zero time is not such a
    task, whatever its creation time stamp. *)
Theorem compareTasks_transitive (ep : expriority.Config) (a b c : TaskInfo.t) :
  expriority.getTaskCreationTime (Some a) <> 0 ->
  expriority.getTaskCreationTime (Some b) <> 0 ->
  expriority.getTaskCreationTime (Some c) <> 0 ->
  expriority.compareTasks ep a b = -1 ->
  expriority.compareTasks ep b c = -1 ->
  expriority.compareTasks ep a c = -1.
Proof. apply compareTasksFrom_trans. Qed.

Lemma compareTasks_transitive_witness :
  let ep := more2.byTimeThenPriority in
  let a := more2.startedTask "a" 1 1 in
  let b := more2.startedTask "b" 5 2 in
  let c := more2.startedTask "c" 3 2 in
  expriority.getTaskCreationTime (Some a) <> 0 /\
  expriority.getTaskCreationTime (Some b) <> 0 /\
  expriority.getTaskCreationTime (Some c) <> 0 /\
  expriority.compareTasks ep a b = -1 /\
  expriority.compareTasks ep b c = -1 /\
  expriority.compareTasks ep a c = -1.
Proof.
  intros ep a b c.
  assert (Ha : expriority.getTaskCreationTime (Some a) <> 0) by discriminate.
  assert (Hb : expriority.getTaskCreationTime (Some b) <> 0) by discriminate.
  assert (Hc : expriority.getTaskCreationTime (Some c) <> 0) by discriminate.
  split; [exact Ha|]. split; [exact Hb|]. split; [exact Hc|].
  split; [reflexivity|]. split; [reflexivity|].
  apply (compareTasks_transitive ep a b c Ha Hb Hc eq_refl eq_refl).
Defined.

(** Without a non-zero time on every task (job), neither comparator is
    transitive: with the keys creation time then priority, a task (job)
    without time can close a cycle of three in which each comes before the
    next. *)
Theorem comparators_not_transitive :
  (exists ep a b c,
     expriority.compareTasks ep a b = -1 /\
     expriority.compareTasks ep b c = -1 /\
     expriority.compareTasks ep c a = -1) /\
  (exists ep a b c,
     expriority.compareJobs ep a b = -1 /\
     expriority.compareJobs ep b c = -1 /\
     expriority.compareJobs ep c a = -1).
Proof.
  split.
  - exists more2.byTimeThenPriority,
      (more2.startedTask "a" 1 1), (more2.startedTask "b" 5 2),
      (sample.bareTask "c" "j" 3).
    repeat split.
  - exists more2.byTimeThenPriority,
      (sample.job "a" "q" 1 1), (sample.job "b" "q" 5 2), (sample.job "c" "q" 3 0).
    repeat split.
Qed.

(** A sort key other than "priority" and "creationTime" is skipped,
    wherever it stands in the sort order. *)
Theorem unknown_sort_key_ignored (key : string) (before after : list string) :
  key <> expriority.SortByPriority ->
  key <> expriority.SortByCreationTime ->
  (forall l r,
     expriority.compareTasksFrom (before ++ key :: after) l r
     = expriority.compareTasksFrom (before ++ after) l r) /\
  (forall l r,
     expriority.compareJobsFrom (before ++ key :: after) l r
     = expriority.compareJobsFrom (before ++ after) l r) /\
  (forall l r,
     expriority.compareSubJobsFrom (before ++ key :: after) l r
     = expriority.compareSubJobsFrom (before ++ after) l r).
Proof.
  intros Hp Hc.
  apply String.eqb_neq in Hp. apply String.eqb_neq in Hc.
  repeat split; intros l r;
    (induction before as [|k rest IH];
     [ cbn [app expriority.compareTasksFrom expriority.compareJobsFrom
                expriority.compareSubJobsFrom];
       rewrite Hp, ?Hc; reflexivity
     | cbn [app expriority.compareTasksFrom expriority.compareJobsFrom
                expriority.compareSubJobsFrom];
       rewrite IH; reflexivity ]).
Qed.

Lemma unknown_sort_key_ignored_witness :
  "Priority" <> expriority.SortByPriority /\
  "Priority" <> expriority.SortByCreationTime /\
  (forall l r,
     expriority.compareTasksFrom (["creationTime"] ++ "Priority" :: ["priority"]) l r
     = expriority.compareTasksFrom (["creationTime"] ++ ["priority"]) l r) /\
  (forall l r,
     expriority.compareJobsFrom (["creationTime"] ++ "Priority" :: ["priority"]) l r
     = expriority.compareJobsFrom (["creationTime"] ++ ["priority"]) l r) /\
  (forall l r,
     expriority.compareSubJobsFrom (["creationTime"] ++ "Priority" :: ["priority"]) l r
     = expriority.compareSubJobsFrom (["creationTime"] ++ ["priority"]) l r).
Proof.
  assert (Hp : "Priority" <> expriority.SortByPriority) by discriminate.
  assert (Hc : "Priority" <> expriority.SortByCreationTime) by discriminate.
  split; [exact Hp|]. split; [exact Hc|].
  apply (unknown_sort_key_ignored "Priority" ["creationTime"] ["priority"] Hp Hc).
Defined.

(** Sub-jobs are ordered by priority alone, the higher first, if
    "priority" is among the sort keys, and not at all otherwise. *)
Theorem compareSubJobs_by_priority_only (ep : expriority.Config)
  (l r : SubJobInfo.t) :
  (In expriority.SortByPriority (expriority.SortOrder ep) ->
   expriority.compareSubJobs ep l r
   = if SubJobInfo.Priority r <? SubJobInfo.Priority l then -1
     else if SubJobInfo.Priority l <? SubJobInfo.Priority r then 1
     else 0) /\
  (~ In expriority.SortByPriority (expriority.SortOrder ep) ->
   expriority.compareSubJobs ep l r = 0).
Proof.
  unfold expriority.compareSubJobs.
  induction (expriority.SortOrder ep) as [|order rest [IHin IHout]]; simpl.
  - split; [intros [] | reflexivity].
  - destruct (String.eqb_spec order expriority.SortByPriority) as [->|Hne]; split.
    + intros _. case_tests; try reflexivity.
      destruct (in_dec string_dec expriority.SortByPriority rest) as [Hin|Hout].
      * rewrite (IHin Hin). case_tests; (reflexivity || lia).
      * apply IHout, Hout.
    + intros Hout. exfalso. apply Hout. left. reflexivity.
    + intros [Heq|Hin]; [congruence | apply IHin, Hin].
    + intros Hout. apply IHout. intros Hin. apply Hout. right. exact Hin.
Qed.

Lemma int32_in_range (z : Z) :
  - 2 ^ 31 <= z < 2 ^ 31 -> int32 z = z.
Proof.
  intros Hz. unfold int32. rewrite Z.mod_small; lia.
Qed.

(** As long as the counts fit in 32 bits, a job is starving exactly when
    its ready and waiting tasks together are fewer than its tasks. *)
Theorem job_starving_when_tasks_missing (ParseDuration : string -> option Z)
  (ep : expriority.Config) (jobs : JobMap) (J : JobInfo.t) :
  - 2 ^ 31 <= JobInfo.ReadyTaskNum J + JobInfo.WaitingTaskNum J < 2 ^ 31 ->
  - 2 ^ 31 <= JobInfo.TasksLen J < 2 ^ 31 ->
  exists starving,
    expriority.JobStarvingFn (expriority.OnSessionOpen ParseDuration ep jobs) (Some J)
    = Returns starving /\
    (starving = true <->
     JobInfo.ReadyTaskNum J + JobInfo.WaitingTaskNum J < JobInfo.TasksLen J).
Proof.
  intros Hsum Hlen. eexists. split; [reflexivity|]. cbn [deref bindRun].
  rewrite (int32_in_range _ Hsum), (int32_in_range _ Hlen). apply Z.ltb_lt.
Qed.

Lemma job_starving_when_tasks_missing_witness :
  let J := sample.jobA in
  - 2 ^ 31 <= JobInfo.ReadyTaskNum J + JobInfo.WaitingTaskNum J < 2 ^ 31 /\
  - 2 ^ 31 <= JobInfo.TasksLen J < 2 ^ 31 /\
  exists starving,
    expriority.JobStarvingFn
      (expriority.OnSessionOpen lib.ParseDuration sample.withMaxRunTime sample.threeJobs)
      (Some J)
    = Returns starving /\
    (starving = true <->
     JobInfo.ReadyTaskNum J + JobInfo.WaitingTaskNum J < JobInfo.TasksLen J).
Proof.
  intros J.
  assert (Hsum : - 2 ^ 31 <= JobInfo.ReadyTaskNum J + JobInfo.WaitingTaskNum J < 2 ^ 31)
    by (vm_compute; split; [discriminate | reflexivity]).
  assert (Hlen : - 2 ^ 31 <= JobInfo.TasksLen J < 2 ^ 31)
    by (vm_compute; split; [discriminate | reflexivity]).
  split; [exact Hsum|]. split; [exact Hlen|].
  apply (job_starving_when_tasks_missing lib.ParseDuration sample.withMaxRunTime
           sample.threeJobs J Hsum Hlen).
Defined.

(** ** group-quota: quota table, usage and marks *)

Lemma isOverQuota_spec (usage quota : gmap string Z) :
  groupquota.isOverQuota usage quota = true <->
  exists name limit used,
    quota !! name = Some limit /\ usage !! name = Some used /\ limit <= used.
Proof.
  unfold groupquota.isOverQuota.
  apply (map_fold_weak_ind
    (fun found (m : gmap string Z) =>
       found = true <->
       exists name limit used,
         m !! name = Some limit /\ usage !! name = Some used /\ limit <= used)).
  - split; [discriminate|]. intros (name & limit & used & Hm & _).
    rewrite lookup_empty in Hm. discriminate.
  - intros i x m r Hi IH. rewrite orb_true_iff, IH. split.
    + intros [(name & limit & used & Hm & Hu & Hle)|Hhere].
      * exists name, limit, used. split; [|auto].
        rewrite lookup_insert_ne; [exact Hm|]. intros ->. congruence.
      * destruct (usage !! i) as [used|] eqn:Hu; [|discriminate].
        apply Z.leb_le in Hhere. exists i, x, used.
        rewrite lookup_insert_eq. auto.
    + intros (name & limit & used & Hm & Hu & Hle).
      destruct (decide (i = name)) as [->|Hne].
      * rewrite lookup_insert_eq in Hm. injection Hm as ->.
        right. rewrite Hu. apply Z.leb_le, Hle.
      * rewrite lookup_insert_ne in Hm by exact Hne.
        left. exists name, limit, used. auto.
Qed.

Lemma over_quota_marks_aux (groupUsage : gmap string (gmap string Z))
  (quota : gmap string Z) (group : string) :
  default false (groupquota.overQuotaGroupsOf groupUsage quota !! group) = true <->
  exists usage name limit used,
    groupUsage !! group = Some usage /\
    quota !! name = Some limit /\
    usage !! name = Some used /\
    limit <= used.
Proof.
  unfold groupquota.overQuotaGroupsOf. rewrite lookup_omap.
  destruct (groupUsage !! group) as [usage|]; simpl.
  - destruct (groupquota.isOverQuota usage quota) eqn:Hover; simpl.
    + apply isOverQuota_spec in Hover.
      destruct Hover as (name & limit & used & H).
      split; [intros _; exists usage, name, limit, used; auto | reflexivity].
    + split; [discriminate|].
      intros (usage' & name & limit & used & [= <-] & H).
      rewrite <- Hover. apply isOverQuota_spec. exists name, limit, used. exact H.
  - split; [discriminate | intros (? & ? & ? & ? & ? & _); discriminate].
Qed.

(** A group is marked over quota exactly when it has a usage in which
    some resource of the quota table reaches its limit; a resource used
    but not in the table, or in the table but not used, does not count. *)
Theorem over_quota_marks (groupUsage : gmap string (gmap string Z))
  (quota : gmap string Z) (group : string) :
  default false (groupquota.overQuotaGroupsOf groupUsage quota !! group) = true <->
  exists usage name limit used,
    groupUsage !! group = Some usage /\
    quota !! name = Some limit /\
    usage !! name = Some used /\
    limit <= used.
Proof. apply over_quota_marks_aux. Qed.

(** Using more never brings a group back under quota, and neither does
    a quota table with further resources. *)
Theorem over_quota_monotone (usage usage' quota quota' : gmap string Z) :
  usageAtLeast usage usage' ->
  quota ⊆ quota' ->
  groupquota.isOverQuota usage quota = true ->
  groupquota.isOverQuota usage' quota' = true.
Proof.
  intros Husage Hquota. rewrite !isOverQuota_spec.
  intros (name & limit & used & Hq & Hu & Hle).
  destruct (Husage name used Hu) as (used' & Hu' & Hle').
  exists name, limit, used'. split; [|split; [exact Hu'|lia]].
  apply (lookup_weaken _ _ _ _ Hq Hquota).
Qed.

Lemma over_quota_monotone_witness :
  let usage : gmap string Z := {[ "cpu" := 10 ]} in
  let usage' : gmap string Z := {[ "cpu" := 12; "memory" := 1 ]} in
  let quota : gmap string Z := {[ "cpu" := 10 ]} in
  usageAtLeast usage usage' /\
  quota ⊆ quota /\
  groupquota.isOverQuota usage quota = true /\
  groupquota.isOverQuota usage' quota = true.
Proof.
  intros usage usage' quota.
  assert (Husage : usageAtLeast usage usage').
  { intros name used Hu. unfold usage in Hu.
    apply lookup_singleton_Some in Hu. destruct Hu as [<- <-].
    exists 12. split; [reflexivity | lia]. }
  assert (Hquota : quota ⊆ quota) by reflexivity.
  split; [exact Husage|]. split; [exact Hquota|]. split; [reflexivity|].
  apply (over_quota_monotone usage usage' quota quota Husage Hquota eq_refl).
Defined.

Lemma addTo_at_least (list : gmap string Z) (key name : string) (amount : Z) :
  0 <= amount ->
  default 0 (list !! name) <= default 0 (groupquota.addTo list key amount !! name).
Proof.
  intros Hamount. unfold groupquota.addTo.
  destruct (decide (key = name)) as [->|Hne].
  - rewrite lookup_insert_eq. simpl. lia.
  - rewrite lookup_insert_ne by exact Hne. lia.
Qed.

(** Adding a resource vector without negative scalar amounts lowers no
    entry of a resource list, and milli-CPU and memory are added only when
    positive. *)
Theorem addResourceList_only_adds (list : gmap string Z) (res : Resource.t)
  (name : string) :
  (forall n v, Resource.ScalarResources res !! n = Some v -> 0 <= v) ->
  default 0 (list !! name)
  <= default 0 (groupquota.addResourceList list (Some res) !! name).
Proof.
  unfold groupquota.addResourceList.
  set (list1 := if 0 <? Resource.MilliCPU res then _ else list).
  set (list2 := if 0 <? Resource.Memory res then _ else list1).
  assert (H1 : default 0 (list !! name) <= default 0 (list1 !! name)).
  { unfold list1. destruct (Z.ltb_spec 0 (Resource.MilliCPU res)); [|lia].
    apply addTo_at_least. unfold groupquota.NewMilliQuantity. lia. }
  assert (H2 : default 0 (list1 !! name) <= default 0 (list2 !! name)).
  { unfold list2. destruct (Z.ltb_spec 0 (Resource.Memory res)); [|lia].
    apply addTo_at_least. unfold groupquota.NewQuantity. lia. }
  generalize (Resource.ScalarResources res).
  apply (map_fold_weak_ind
    (fun acc (m : gmap string Z) =>
       (forall n v, m !! n = Some v -> 0 <= v) ->
       default 0 (list !! name) <= default 0 (acc !! name))).
  - intros _. lia.
  - intros i x m acc Hi IH Hpos.
    assert (Hx : 0 <= x) by (apply (Hpos i); apply lookup_insert_eq).
    assert (Hacc : default 0 (list !! name) <= default 0 (acc !! name)).
    { apply IH. intros n v Hn. apply (Hpos n).
      rewrite lookup_insert_ne; [exact Hn|]. intros ->. congruence. }
    pose proof (addTo_at_least acc i name (groupquota.NewQuantity x)) as Hadd.
    unfold groupquota.NewQuantity in *. lia.
Qed.

Lemma addResourceList_only_adds_witness :
  let list : gmap string Z := {[ "cpu" := 5 ]} in
  let res := Resource.mk 1000 0 {[ "gpu" := 2 ]} in
  (forall n v, Resource.ScalarResources res !! n = Some v -> 0 <= v) /\
  default 0 (list !! "cpu")
  <= default 0 (groupquota.addResourceList list (Some res) !! "cpu").
Proof.
  intros list res.
  assert (Hpos : forall n v, Resource.ScalarResources res !! n = Some v -> 0 <= v).
  { intros n v Hn. simpl in Hn. apply lookup_singleton_Some in Hn.
    destruct Hn as [_ <-]. lia. }
  split; [exact Hpos|].
  apply (addResourceList_only_adds list res "cpu" Hpos).
Defined.

(** ** group-quota: the registered comparator and the quota table *)

Section Quota.

Variable ParseQuantity : string -> option Z.

(** The comparator registered by a session-open that returns answers,
    on any two jobs, -1, 0 or 1, the opposite when the jobs are swapped,
    0 on twice the same job and 0 on two jobs of the same group. *)
Theorem group_comparator_antisymmetric
  (pluginArguments : gmap string ArgValue) (jobs : JobMap)
  (fn : option JobInfo.t -> option JobInfo.t -> Run Z) (L R : JobInfo.t) :
  groupquota.OnSessionOpen ParseQuantity pluginArguments jobs = Returns fn ->
  exists c,
    fn (Some L) (Some R) = Returns c /\
    fn (Some R) (Some L) = Returns (- c) /\
    (c = -1 \/ c = 0 \/ c = 1) /\
    fn (Some L) (Some L) = Returns 0 /\
    (groupquota.getJobGroup (Some L) (groupquota.annotationKeyOf pluginArguments)
     = groupquota.getJobGroup (Some R) (groupquota.annotationKeyOf pluginArguments) ->
     c = 0).
Proof.
  intros Hopen. unfold groupquota.OnSessionOpen in Hopen.
  destruct (groupquota.groupUsageOf _ jobs ∅) as [usage|];
    cbn [bindRun] in Hopen; [|discriminate].
  injection Hopen as <-.
  set (key := groupquota.annotationKeyOf pluginArguments).
  set (marks := groupquota.overQuotaGroupsOf usage
                  (groupquota.quotaOf ParseQuantity pluginArguments)).
  destruct (jobOrderFn_table key marks L R) as (lG & rG & HL & HR & HLR).
  destruct (jobOrderFn_table key marks R L) as (rG' & lG' & HR' & HL' & HRL).
  destruct (jobOrderFn_table key marks L L) as (g1 & g2 & H1 & H2 & HLL).
  rewrite HR in HR'. injection HR' as <-.
  rewrite HL in HL'. injection HL' as <-.
  rewrite HL in H1, H2. injection H1 as <-. injection H2 as <-.
  cbv zeta in HLR, HRL, HLL. rewrite HLR, HRL, HLL, HL, HR.
  eexists. split; [reflexivity|].
  destruct (default false (marks !! lG)) eqn:El;
    destruct (default false (marks !! rG)) eqn:Er; simpl;
    (split; [reflexivity|]); (split; [auto|]); (split; [reflexivity|]);
    intros [= Heq]; try reflexivity; subst rG; congruence.
Qed.

(** Without any quota (no table, a table that is no map, or no entry that
    parses), the registered comparator has no opinion on any two jobs. *)
Theorem no_quota_no_opinion
  (pluginArguments : gmap string ArgValue) (jobs : JobMap)
  (fn : option JobInfo.t -> option JobInfo.t -> Run Z) (L R : JobInfo.t) :
  groupquota.quotaOf ParseQuantity pluginArguments = ∅ ->
  groupquota.OnSessionOpen ParseQuantity pluginArguments jobs = Returns fn ->
  fn (Some L) (Some R) = Returns 0.
Proof.
  intros Hquota Hopen. unfold groupquota.OnSessionOpen in Hopen.
  destruct (groupquota.groupUsageOf _ jobs ∅) as [usage|];
    cbn [bindRun] in Hopen; [|discriminate].
  injection Hopen as <-. rewrite Hquota.
  destruct (jobOrderFn_table (groupquota.annotationKeyOf pluginArguments)
              (groupquota.overQuotaGroupsOf usage ∅) L R)
    as (lG & rG & _ & _ & ->).
  assert (Hnone : forall g,
            default false (groupquota.overQuotaGroupsOf usage ∅ !! g) = false).
  { intros g. apply not_true_is_false. rewrite over_quota_marks_aux.
    intros (u & name & limit & used & _ & Hq & _).
    rewrite lookup_empty in Hq. discriminate. }
  rewrite !Hnone. reflexivity.
Qed.

Lemma quotaFromStringMap_lookup (resMap : list (string * MapItem))
  (quota : gmap string Z) (name : string) (q : Z) :
  NoDup (fst <$> resMap) ->
  (forall k item, In (k, item) resMap -> quota !! k = None) ->
  groupquota.quotaFromStringMap ParseQuantity resMap quota !! name = Some q <->
  quota !! name = Some q \/
  exists vStr, In (name, IString vStr) resMap /\ ParseQuantity vStr = Some q.
Proof.
  revert quota. induction resMap as [|[k item] rest IH]; intros quota Hdup Hfresh.
  - simpl. split; [auto | intros [?|(? & [] & _)]; assumption].
  - rewrite fmap_cons in Hdup. apply NoDup_cons in Hdup. destruct Hdup as [Hk Hdup].
    assert (Hfresh_rest : forall k' item', In (k', item') rest -> quota !! k' = None)
      by (intros k' item' Hin; apply (Hfresh k' item'); right; exact Hin).
    assert (Hquota_k : quota !! k = None)
      by (apply (Hfresh k item); left; reflexivity).
    assert (Hskip :
      (forall vStr, item = IString vStr -> ParseQuantity vStr = None) ->
      (quota !! name = Some q \/
       exists vStr, In (name, IString vStr) rest /\ ParseQuantity vStr = Some q) <->
      (quota !! name = Some q \/
       exists vStr,
         In (name, IString vStr) ((k, item) :: rest) /\
         ParseQuantity vStr = Some q)).
    { intros Hbad. split.
      - intros [?|(v & Hin & Hv)]; [left; assumption|].
        right. exists v. split; [right; exact Hin | exact Hv].
      - intros [?|(v & [[= -> ->]|Hin] & Hv)]; [left; assumption | |].
        + rewrite (Hbad v eq_refl) in Hv. discriminate.
        + right. exists v. auto. }
    destruct item as [vStr|]; cbn [groupquota.quotaFromStringMap].
    + destruct (ParseQuantity vStr) as [q0|] eqn:Hparse.
      * rewrite IH; [|exact Hdup|].
        -- split.
           ++ intros [Hq|(v & Hin & Hv)].
              ** destruct (decide (k = name)) as [->|Hne].
                 --- rewrite lookup_insert_eq in Hq. injection Hq as ->.
                     right. exists vStr. split; [left; reflexivity | exact Hparse].
                 --- rewrite lookup_insert_ne in Hq by exact Hne. left. exact Hq.
              ** right. exists v. split; [right; exact Hin | exact Hv].
           ++ intros [Hq|(v & [[= -> ->]|Hin] & Hv)].
              ** left. rewrite lookup_insert_ne; [exact Hq|].
                 intros ->. congruence.
              ** left. rewrite lookup_insert_eq. congruence.
              ** right. exists v. auto.
        -- intros k' item' Hin. rewrite lookup_insert_ne.
           ++ apply (Hfresh_rest k' item' Hin).
           ++ intros ->. apply Hk. apply list_elem_of_fmap.
              exists (k', item'). split; [reflexivity|].
              apply list_elem_of_In, Hin.
      * rewrite IH by assumption. apply Hskip. intros v [= <-]. exact Hparse.
    + rewrite IH by assumption. apply Hskip. intros v [=].
Qed.

(** From a table with string keys, the quota holds exactly the entries
    whose value is a string that parses as a quantity, with the parsed
    quantity; the other entries are dropped. *)
Theorem quota_holds_the_parsed_entries
  (pluginArguments : gmap string ArgValue) (resMap : list (string * MapItem))
  (name : string) (q : Z) :
  pluginArguments !! "resourceMap" = Some (VMapString resMap) ->
  NoDup (fst <$> resMap) ->
  groupquota.quotaOf ParseQuantity pluginArguments !! name = Some q <->
  exists vStr, In (name, IString vStr) resMap /\ ParseQuantity vStr = Some q.
Proof.
  intros Hargs Hdup. unfold groupquota.quotaOf. rewrite Hargs.
  rewrite quotaFromStringMap_lookup; [|exact Hdup|intros; apply lookup_empty].
  rewrite lookup_empty. split; [intros [?|?]; [discriminate|assumption] | auto].
Qed.

End Quota.

Lemma group_comparator_antisymmetric_witness :
  let opened :=
    groupquota.OnSessionOpen lib.ParseQuantity sample.oneCPU sample.teamJobs in
  let fn := registered opened in
  let L := sample.Ja in
  let R := sample.Jb in
  opened = Returns fn /\
  exists c,
    fn (Some L) (Some R) = Returns c /\
    fn (Some R) (Some L) = Returns (- c) /\
    (c = -1 \/ c = 0 \/ c = 1) /\
    fn (Some L) (Some L) = Returns 0 /\
    (groupquota.getJobGroup (Some L) (groupquota.annotationKeyOf sample.oneCPU)
     = groupquota.getJobGroup (Some R) (groupquota.annotationKeyOf sample.oneCPU) ->
     c = 0).
Proof.
  intros opened fn L R.
  assert (Hopen : opened = Returns fn) by (vm_compute; reflexivity).
  split; [exact Hopen|].
  apply (group_comparator_antisymmetric lib.ParseQuantity sample.oneCPU
           sample.teamJobs fn L R Hopen).
Defined.

Lemma no_quota_no_opinion_witness :
  let opened :=
    groupquota.OnSessionOpen lib.ParseQuantity more3.noQuota sample.teamJobs in
  let fn := registered opened in
  groupquota.quotaOf lib.ParseQuantity more3.noQuota = ∅ /\
  opened = Returns fn /\
  fn (Some sample.Ja) (Some sample.Jb) = Returns 0.
Proof.
  intros opened fn.
  assert (Hquota : groupquota.quotaOf lib.ParseQuantity more3.noQuota = ∅)
    by reflexivity.
  assert (Hopen : opened = Returns fn) by (vm_compute; reflexivity).
  split; [exact Hquota|]. split; [exact Hopen|].
  apply (no_quota_no_opinion lib.ParseQuantity more3.noQuota sample.teamJobs fn
           sample.Ja sample.Jb Hquota Hopen).
Defined.

Lemma quota_holds_the_parsed_entries_witness :
  more3.mixedArguments !! "resourceMap" = Some (VMapString more3.mixedQuota) /\
  NoDup (fst <$> more3.mixedQuota) /\
  (groupquota.quotaOf lib.ParseQuantity more3.mixedArguments !! "cpu"
   = Some (10 ^ 9) <->
   exists vStr,
     In ("cpu", IString vStr) more3.mixedQuota /\
     lib.ParseQuantity vStr = Some (10 ^ 9)).
Proof.
  assert (Hargs : more3.mixedArguments !! "resourceMap"
                  = Some (VMapString more3.mixedQuota)) by reflexivity.
  assert (Hdup : NoDup (fst <$> more3.mixedQuota))
    by (apply (bool_decide_unpack _); vm_compute; exact I).
  split; [exact Hargs|]. split; [exact Hdup|].
  apply (quota_holds_the_parsed_entries lib.ParseQuantity more3.mixedArguments
           more3.mixedQuota "cpu" (10 ^ 9) Hargs Hdup).
Defined.

(** In the mixed table, only the CPU entry is kept. *)
Example mixed_quota_parsed :
  groupquota.quotaOf lib.ParseQuantity more3.mixedArguments = {[ "cpu" := 10 ^ 9 ]}.
Proof. vm_compute. reflexivity. Qed.

Lemma groupUsageOf_unused_group (annotationKey group : string) (jobs : JobMap)
  (groupUsage usage : gmap string (gmap string Z)) :
  groupHoldsNothing annotationKey group jobs ->
  groupUsage !! group = None ->
  groupquota.groupUsageOf annotationKey jobs groupUsage = Returns usage ->
  usage !! group = None.
Proof.
  unfold groupHoldsNothing. revert groupUsage.
  induction jobs as [|[k entry] rest IH]; intros groupUsage Hnothing Hnone.
  - simpl. intros [= <-]. exact Hnone.
  - assert (Hrest : forall k j res pg annotations,
              In (k, Some j) rest ->
              JobInfo.Allocated j = Some res ->
              Resource.IsEmpty res = false ->
              JobInfo.PodGroup j = Some pg ->
              PodGroup.Annotations pg = Some annotations ->
              annotations !! annotationKey <> Some group)
      by (intros k0 j0 res0 pg0 a0 Hin;
          apply (Hnothing k0 j0 res0 pg0 a0); right; exact Hin).
    cbn [groupquota.groupUsageOf]. unfold groupquota.isJobAllocated.
    destruct entry as [j|]; cbn [deref bindRun]; [|discriminate].
    destruct (JobInfo.Allocated j) as [res|] eqn:Hres; cbn [deref bindRun];
      [|discriminate].
    destruct (Resource.IsEmpty res) eqn:Hempty; cbn [negb];
      [apply IH; assumption|].
    destruct (JobInfo.PodGroup j) as [pg|] eqn:Hpg; [|apply IH; assumption].
    destruct (PodGroup.Annotations pg) as [annotations|] eqn:Hann;
      [|apply IH; assumption].
    destruct (annotations !! annotationKey) as [groupName|] eqn:Hname;
      [|apply IH; assumption].
    apply IH; [exact Hrest|].
    rewrite lookup_insert_ne; [exact Hnone|].
    intros ->.
    apply (Hnothing k j res pg annotations); auto. left. reflexivity.
Qed.

(** The jobs of a group in which no job holds resources are never ranked
    behind another job. *)
Theorem idle_group_never_behind (ParseQuantity : string -> option Z)
  (pluginArguments : gmap string ArgValue) (jobs : JobMap)
  (fn : option JobInfo.t -> option JobInfo.t -> Run Z) (group : string)
  (L R : JobInfo.t) :
  groupHoldsNothing (groupquota.annotationKeyOf pluginArguments) group jobs ->
  groupquota.OnSessionOpen ParseQuantity pluginArguments jobs = Returns fn ->
  groupquota.getJobGroup (Some L) (groupquota.annotationKeyOf pluginArguments)
  = Returns group ->
  exists c, fn (Some L) (Some R) = Returns c /\ c <= 0.
Proof.
  intros Hnothing Hopen HL. unfold groupquota.OnSessionOpen in Hopen.
  destruct (groupquota.groupUsageOf _ jobs ∅) as [usage|] eqn:Husage;
    cbn [bindRun] in Hopen; [|discriminate].
  injection Hopen as <-.
  pose proof (groupUsageOf_unused_group _ group jobs ∅ usage Hnothing
                (lookup_empty _) Husage) as Hunused.
  destruct (jobOrderFn_table (groupquota.annotationKeyOf pluginArguments)
              (groupquota.overQuotaGroupsOf usage
                 (groupquota.quotaOf ParseQuantity pluginArguments)) L R)
    as (lGroup & rGroup & HL' & _ & ->).
  rewrite HL in HL'. injection HL' as <-.
  assert (Hover : groupquota.overQuotaGroupsOf usage
                    (groupquota.quotaOf ParseQuantity pluginArguments) !! group
                  = None).
  { unfold groupquota.overQuotaGroupsOf. rewrite lookup_omap, Hunused. reflexivity. }
  rewrite Hover. cbn [default negb andb].
  eexists. split; [reflexivity|].
  destruct (default false _); cbn; lia.
Qed.

Lemma teamB_holds_nothing :
  groupHoldsNothing (groupquota.annotationKeyOf sample.oneCPU) "b" sample.teamJobs.
Proof.
  intros k j res pg annotations Hin Hres Hempty Hpg Hann.
  destruct Hin as [[= <- <-]|[[= <- <-]|[[= <- <-]|[[= <- <-]|[]]]]];
    simpl in Hres, Hpg; injection Hres as <-; injection Hpg as <-;
    simpl in Hann; injection Hann as <-;
    try (vm_compute in Hempty; discriminate Hempty);
    vm_compute; discriminate.
Qed.

Lemma idle_group_never_behind_witness :
  let opened :=
    groupquota.OnSessionOpen lib.ParseQuantity sample.oneCPU sample.teamJobs in
  let fn := registered opened in
  groupHoldsNothing (groupquota.annotationKeyOf sample.oneCPU) "b" sample.teamJobs /\
  opened = Returns fn /\
  groupquota.getJobGroup (Some sample.Jb) (groupquota.annotationKeyOf sample.oneCPU)
  = Returns "b" /\
  exists c, fn (Some sample.Jb) (Some sample.Ja) = Returns c /\ c <= 0.
Proof.
  intros opened fn.
  assert (Hopen : opened = Returns fn) by (vm_compute; reflexivity).
  assert (HL : groupquota.getJobGroup (Some sample.Jb)
                 (groupquota.annotationKeyOf sample.oneCPU) = Returns "b")
    by (vm_compute; reflexivity).
  split; [exact teamB_holds_nothing|]. split; [exact Hopen|]. split; [exact HL|].
  apply (idle_group_never_behind lib.ParseQuantity sample.oneCPU sample.teamJobs
           fn "b" sample.Jb sample.Ja teamB_holds_nothing Hopen HL).
Defined.
